(** * Starboard-2: the scoring and reconciliation engine

    A shallow embedding of [app/cogs/starboard/starboard_funcs.py]:
    [calculate_points], [try_regex], [handle_starboard],
    [handle_trashed_message], [update_message] and the description part
    of [embed_message], with the properties of the engine stated and
    proved over it.

    Text is a list of code points, as Python's [str] is: [len] counts
    code points and slices cut between them.  Integers are [Z].  The
    tables of the database are kept as the rows they hold; the reactions
    table is keyed by its primary key. *)

From Stdlib Require Import ZArith Ascii String DecimalString.
From stdpp Require Import base decidable numbers option list gmap.
From Stdlib Require Import Lia.

Local Open Scope Z_scope.

(** ** Text *)

Definition str : Type := list N.

(** An ASCII literal of the source as text. *)
Definition lit (s : string) : str :=
  List.map N_of_ascii (list_ascii_of_string s).

(** Python's [str(n)] for an integer. *)
Definition str_of_Z (n : Z) : str :=
  lit (NilZero.string_of_int (Z.to_int n)).

(** [s[:stop]] of Python: a negative [stop] counts from the end, and the
    bounds are clamped to the string. *)
Definition py_slice_to (stop : Z) (s : str) : str :=
  let n := Z.of_nat (length s) in
  let e := if stop <? 0 then Z.max 0 (n + stop) else Z.min stop n in
  take (Z.to_nat e) s.

(** ** Rows of the database *)

(** A starboard configuration, with the columns [handle_starboard] and
    [calculate_points] read. *)
Record Starboard : Type := mkStarboard {
  sb_id : Z;
  sb_guild_id : Z;
  required : Z;
  required_remove : Z;
  self_star : bool;
  allow_bots : bool;
  allow_nsfw : bool;
  link_edits : bool;
  link_deletes : bool;
  autoreact : bool;
  star_emojis : list str;
  display_emoji : str;
  color : option str;
  regex : str;
  exclude_regex : str
}.

Record SqlMessage : Type := mkSqlMessage {
  m_id : Z;
  m_guild_id : Z;
  m_channel_id : Z;
  m_author_id : option Z;
  is_nsfw : bool;
  forced : list Z;
  trashed : bool;
  frozen : bool
}.

Record SqlUser : Type := mkSqlUser {
  u_id : Z;
  is_bot : bool
}.

(** A row of [starboard_messages]: the link of a source message to its
    mirror on one starboard. *)
Record SbMessage : Type := mkSbMessage {
  sm_id : Z;
  sm_orig_id : Z;
  sm_starboard_id : Z;
  sm_points : Z
}.

(** A row of [reactions], without its key. *)
Record Reaction : Type := mkReaction {
  r_emoji : str;
  r_message_id : Z
}.

Record ReactionUser : Type := mkReactionUser {
  ru_reaction_id : Z;
  ru_user_id : Z
}.

(** ** What the platform holds *)

(** An embed of a source message; [None] is discord's [Embed.Empty]. *)
Record DEmbed : Type := mkDEmbed {
  em_type : str;
  em_title : option str;
  em_url : option str;
  em_description : option str;
  em_fields : list (str * str);
  em_footer_text : option str
}.

(** A [discord.Message] as the cache hands it out. *)
Record DMessage : Type := mkDMessage {
  dm_id : Z;
  system_content : str;
  jump_url : str;
  dm_embeds : list DEmbed
}.

(** The embed built for a mirror: its title, its colour as configured
    and its description.  The reply and link fields, the image and the
    files of the rendering are modelled on their own further down
    ([reply_fields], [links_field], [embed_layout]); the author line and
    the timestamp are left out. *)
Record Embed : Type := mkEmbed {
  e_title : option str;
  e_color : option str;
  e_description : str
}.

Inductive Emoji : Type :=
  | Unicode (s : str)
  | Custom (id : Z).

(** A message of the bot on the platform: a mirror on a starboard. *)
Record Mirror : Type := mkMirror {
  mi_channel : Z;
  mi_content : str;
  mi_embed : option Embed;
  mi_reactions : list Emoji
}.

(** ** The world: the database and the platform

    [w_next_id] is the id the platform gives the next message sent;
    [w_can_send] and [w_can_react] are the permissions of the bot on the
    starboard channels; [w_guild_emojis] are the ids of the custom emojis
    of the guild. *)
Record World : Type := mkWorld {
  w_starboards : list Starboard;
  w_messages : list SqlMessage;
  w_users : list SqlUser;
  w_starboard_messages : list SbMessage;
  w_reactions : gmap Z Reaction;
  w_reaction_users : list ReactionUser;
  w_remote : gmap Z Mirror;
  w_next_id : Z;
  w_can_send : bool;
  w_can_react : bool;
  w_guild_emojis : list Z
}.

Definition set_links (f : list SbMessage → list SbMessage) (w : World) : World :=
  mkWorld (w_starboards w) (w_messages w) (w_users w)
          (f (w_starboard_messages w)) (w_reactions w) (w_reaction_users w)
          (w_remote w) (w_next_id w) (w_can_send w) (w_can_react w)
          (w_guild_emojis w).

Definition set_remote (f : gmap Z Mirror → gmap Z Mirror) (w : World) : World :=
  mkWorld (w_starboards w) (w_messages w) (w_users w)
          (w_starboard_messages w) (w_reactions w) (w_reaction_users w)
          (f (w_remote w)) (w_next_id w) (w_can_send w) (w_can_react w)
          (w_guild_emojis w).

Definition bump_next_id (w : World) : World :=
  mkWorld (w_starboards w) (w_messages w) (w_users w)
          (w_starboard_messages w) (w_reactions w) (w_reaction_users w)
          (w_remote w) (w_next_id w + 1) (w_can_send w) (w_can_react w)
          (w_guild_emojis w).

(** ** Effects

    A call of the engine reads and writes the world, leaves a trace of
    what it asked of the database, the cache and the platform, and either
    returns or raises. *)

Inductive Exn : Type :=
  | KeyError
  | TypeError
  | InvalidArgument.

Inductive Query : Type :=
  | SelectLink (orig sb : Z)
  | SelectReactions (mid : Z)
  | SelectReactionUsers (ids : list Z)
  | UpdatePoints (points id : Z)
  | DeleteLink (id : Z)
  | InsertLink (id orig sb : Z).

Inductive Call : Type :=
  | SendMessage (channel : Z) (text : str) (embed : option Embed)
  | EditMessage (id : Z) (text : option str) (embed : option Embed)
  | DeleteMessage (id : Z)
  | AddReaction (id : Z) (emoji : option Emoji).

Inductive Event : Type :=
  | Db (q : Query)
  | Remote (c : Call)
  | GuildLog (text kind : str).

Record Res (A : Type) : Type := mkRes {
  res_world : World;
  res_trace : list Event;
  res_val : Exn + A
}.
Arguments mkRes {A} _ _ _.
Arguments res_world {A} _.
Arguments res_trace {A} _.
Arguments res_val {A} _.

Definition M (A : Type) : Type := World → Res A.

Definition ret {A} (a : A) : M A := λ w, mkRes w [] (inr a).
Definition raise {A} (e : Exn) : M A := λ w, mkRes w [] (inl e).
Definition bind {A B} (m : M A) (f : A → M B) : M B := λ w,
  let r := m w in
  match res_val r with
  | inl e => mkRes (res_world r) (res_trace r) (inl e)
  | inr a =>
      let r' := f a (res_world r) in
      mkRes (res_world r') (res_trace r ++ res_trace r') (res_val r')
  end.
Definition emit (e : Event) : M unit := λ w, mkRes w [e] (inr tt).
Definition get_world : M World := λ w, mkRes w [] (inr w).
Definition modify (f : World → World) : M unit := λ w, mkRes (f w) [] (inr tt).
Definition lift_exn {A} (x : Exn + A) : M A := λ w, mkRes w [] x.

Notation "'do' x <- m ;; k" := (bind m (λ x, k))
  (at level 10, x name, m at level 99, k at level 200).
Notation "'run' m ;; k" := (bind m (λ _, k))
  (at level 10, m at level 99, k at level 200).

(** [for x in xs: body x] *)
Fixpoint for_each {A} (xs : list A) (body : A → M unit) : M unit :=
  match xs with
  | [] => ret tt
  | x :: rest => run body x ;; for_each rest body
  end.

(** ** The collaborators outside these sources

    The bot's message cache, the [utils] module and Python's [int] are
    not among the sources; the engine is stated over what they answer.
    [fetch_message guild channel id] is what [bot.cache.fetch_message]
    answers while the calls under study run, [None] when the message is
    not resolved;
    [safe_regex string pattern] is [utils.safe_regex], [None] standing
    for its [TimeoutError]; [py_int] is [int(s)], [None] standing for
    [ValueError]. *)
Record Bot : Type := mkBot {
  fetch_message : Z → Z → Z → option DMessage;
  safe_regex : str → str → option bool;
  escmd : str → str;
  pretty_emoji_string : str → str;
  py_int : str → option Z
}.

(** ** Database statements *)

(** [SELECT * FROM starboard_messages WHERE orig_id=$1 AND starboard_id=$2],
    first row. *)
Definition link_of (orig sb : Z) (r : SbMessage) : bool :=
  bool_decide (sm_orig_id r = orig) && bool_decide (sm_starboard_id r = sb).

Definition fetchrow_link (orig sb : Z) : M (option SbMessage) :=
  run emit (Db (SelectLink orig sb)) ;;
  do w <- get_world ;;
  ret (List.find (link_of orig sb) (w_starboard_messages w)).

(** [UPDATE starboard_messages SET points=$1 WHERE id=$2] *)
Definition update_points (points id : Z) (rows : list SbMessage) : list SbMessage :=
  (λ r, if bool_decide (sm_id r = id)
        then mkSbMessage (sm_id r) (sm_orig_id r) (sm_starboard_id r) points
        else r) <$> rows.

Definition set_points (points message_id : Z) : M unit :=
  run emit (Db (UpdatePoints points message_id)) ;;
  modify (set_links (update_points points message_id)).

(** [DELETE FROM starboard_messages WHERE id=$1] *)
Definition delete_rows (id : Z) (rows : list SbMessage) : list SbMessage :=
  filter (λ r, sm_id r ≠ id) rows.

Definition delete_link (id : Z) : M unit :=
  run emit (Db (DeleteLink id)) ;;
  modify (set_links (delete_rows id)).

(** Modelled from the spec: [bot.db.create_starboard_message], of the
    database class, which is outside the sources.  The spec has
    [store.create_starboard_message(mirror_id, orig_id, starboard_id)]
    create the link; its points are written by the [set_points] that
    follows it in [handle_starboard]. *)
Definition create_starboard_message (id orig sb : Z) : M unit :=
  run emit (Db (InsertLink id orig sb)) ;;
  modify (set_links (λ rows, rows ++ [mkSbMessage id orig sb 0])).

(** [SELECT * FROM reactions WHERE message_id=$1], as (id, row) pairs. *)
Definition select_reactions (mid : Z) : M (list (Z * Reaction)) :=
  run emit (Db (SelectReactions mid)) ;;
  do w <- get_world ;;
  ret (filter (λ kr, r_message_id kr.2 = mid) (map_to_list (w_reactions w))).

(** [SELECT * FROM reaction_users WHERE reaction_id=any($1)] *)
Definition select_reaction_users (ids : list Z) : M (list ReactionUser) :=
  run emit (Db (SelectReactionUsers ids)) ;;
  do w <- get_world ;;
  ret (filter (λ ru, ru_reaction_id ru ∈ ids) (w_reaction_users w)).

(** ** calculate_points *)

(** The dictionary [reactions]: id to emoji, filled row by row. *)
Definition reactions_dict (rows : list (Z * Reaction)) : gmap Z str :=
  foldl (λ d kr, <[kr.1 := r_emoji kr.2]> d) ∅ rows.

(** The loop over [reaction_users], with [used_users] and [points]. *)
Fixpoint count_votes (message : SqlMessage) (starboard : Starboard)
    (reactions : gmap Z str) (rows : list ReactionUser)
    (used_users : gset Z) (points : Z) : Exn + Z :=
  match rows with
  | [] => inr points
  | r :: rest =>
      if bool_decide (ru_user_id r ∈ used_users)
      then count_votes message starboard reactions rest used_users points
      else
        match reactions !! ru_reaction_id r with
        | None => inl KeyError
        | Some emoji =>
            if negb (bool_decide (emoji ∈ star_emojis starboard))
            then count_votes message starboard reactions rest used_users points
            else if negb (self_star starboard)
                    && bool_decide (Some (ru_user_id r) = m_author_id message)
            then count_votes message starboard reactions rest used_users points
            else count_votes message starboard reactions rest
                             ({[ru_user_id r]} ∪ used_users) (points + 1)
        end
  end.

Definition calculate_points (message : SqlMessage) (starboard : Starboard) : M Z :=
  do _reactions <- select_reactions (m_id message) ;;
  do reaction_users <- select_reaction_users (fst <$> _reactions) ;;
  lift_exn (count_votes message starboard (reactions_dict _reactions)
                        reaction_users ∅ 0).

(** ** try_regex *)

Definition regex_timeout_text (pattern jump : str) : str :=
  lit "I tried to match `" ++ pattern ++ lit "` to [a message](" ++ jump
  ++ lit "), but it took too long. Try improving the efficiency of your regex. If you need help, feel free to join the support server.".

(** [Some true], [Some false], or [None] after a timeout, which is
    reported through [guild_log]. *)
Definition try_regex (bot : Bot) (pattern : str) (message : DMessage)
    : M (option bool) :=
  let string := system_content message in
  let jump := jump_url message in
  match safe_regex bot string pattern with
  | Some true => ret (Some true)
  | Some false => ret (Some false)
  | None =>
      run emit (GuildLog (regex_timeout_text pattern jump) (lit "error")) ;;
      ret None
  end.

(** ** The eligibility decision: lines 376 to 418 of [handle_starboard] *)

Record Flags : Type := mkFlags {
  fl_add : bool;
  fl_delete : bool;
  fl_forced : bool;
  fl_frozen : bool
}.

Definition with_add_delete (a d : bool) (fl : Flags) : Flags :=
  mkFlags a d (fl_forced fl) (fl_frozen fl).

(** [if points >= required: add = True
     elif points <= required_remove: delete = True] *)
Definition rule_thresholds (starboard : Starboard) (points : Z) (fl : Flags) : Flags :=
  if required starboard <=? points
  then with_add_delete true (fl_delete fl) fl
  else if points <=? required_remove starboard
  then with_add_delete (fl_add fl) true fl
  else fl.

(** [sql_author["is_bot"]]: the author is a row, or [None] when the
    message has no author left. *)
Definition subscript_is_bot (sql_author : option SqlUser) : M bool :=
  match sql_author with
  | Some a => ret (is_bot a)
  | None => raise TypeError
  end.

(** [if (not allow_bots) and sql_author["is_bot"]] *)
Definition rule_bots (starboard : Starboard) (sql_author : option SqlUser)
    (fl : Flags) : M Flags :=
  if negb (allow_bots starboard)
  then do b <- subscript_is_bot sql_author ;;
       ret (if b then with_add_delete false true fl else fl)
  else ret fl.

(** [if link_deletes and (message is None)] *)
Definition rule_link_deletes (starboard : Starboard) (message : option DMessage)
    (fl : Flags) : Flags :=
  if link_deletes starboard && bool_decide (message = None)
  then with_add_delete false true fl else fl.

(** [if is_nsfw and not allow_nsfw] *)
Definition rule_nsfw (starboard : Starboard) (sql_message : SqlMessage)
    (fl : Flags) : Flags :=
  if is_nsfw sql_message && negb (allow_nsfw starboard)
  then with_add_delete false true fl else fl.

(** [if regex != "": if try_regex(...) is False: ...] *)
Definition rule_regex (bot : Bot) (starboard : Starboard) (message : DMessage)
    (fl : Flags) : M Flags :=
  if negb (bool_decide (regex starboard = []))
  then do r <- try_regex bot (regex starboard) message ;;
       ret (if bool_decide (r = Some false)
            then with_add_delete false true fl else fl)
  else ret fl.

(** [if exclude_regex != "": if try_regex(...) is True: ...] *)
Definition rule_exclude_regex (bot : Bot) (starboard : Starboard)
    (message : DMessage) (fl : Flags) : M Flags :=
  if negb (bool_decide (exclude_regex starboard = []))
  then do r <- try_regex bot (exclude_regex starboard) message ;;
       ret (if bool_decide (r = Some true)
            then with_add_delete false true fl else fl)
  else ret fl.

Definition rule_frozen (sql_message : SqlMessage) (fl : Flags) : Flags :=
  if frozen sql_message then mkFlags false false (fl_forced fl) true else fl.

Definition rule_forced (starboard : Starboard) (sql_message : SqlMessage)
    (fl : Flags) : Flags :=
  if bool_decide (sb_id starboard ∈ forced sql_message)
  then mkFlags true false true (fl_frozen fl) else fl.

Definition evaluate (bot : Bot) (starboard : Starboard) (sql_message : SqlMessage)
    (sql_author : option SqlUser) (points : Z) (message : option DMessage)
    : M Flags :=
  let fl := mkFlags false false false false in
  let fl := rule_thresholds starboard points fl in
  do fl <- rule_bots starboard sql_author fl ;;
  let fl := rule_link_deletes starboard message fl in
  let fl := rule_nsfw starboard sql_message fl in
  do fl <- match message with
           | Some m =>
               do fl <- rule_regex bot starboard m fl ;;
               rule_exclude_regex bot starboard m fl
           | None => ret fl
           end ;;
  let fl := rule_frozen sql_message fl in
  let fl := rule_forced starboard sql_message fl in
  ret fl.

(** ** embed_message: the description *)

Definition nl : str := [10%N].

(** What one embed of the source message adds to [content]. *)
Definition embed_text (bot : Bot) (content : str) (embed : DEmbed) : str :=
  if bool_decide (em_type embed = lit "rich")
     || bool_decide (em_type embed = lit "article")
  then
    let content :=
      match em_title embed with
      | Some title =>
          match em_url embed with
          | None =>
              content ++ (nl ++ nl ++ lit "__**" ++ escmd bot title
                          ++ lit "**__" ++ nl)
          | Some url =>
              content ++ (nl ++ nl ++ lit "__**[" ++ escmd bot title
                          ++ lit "](" ++ url ++ lit ")**__" ++ nl)
          end
      | None => content ++ nl
      end in
    let content :=
      content ++ match em_description embed with
                 | Some d => d ++ nl
                 | None => []
                 end in
    let content :=
      foldl (λ content field,
               let name := nl ++ lit "**" ++ escmd bot field.1 ++ lit "**" ++ nl in
               let value := field.2 ++ nl in
               content ++ (name ++ value))
            content (em_fields embed) in
    match em_footer_text embed with
    | Some text => content ++ (nl ++ escmd bot text ++ nl)
    | None => content
    end
  else content.

Definition embed_content (bot : Bot) (message : DMessage) : str :=
  foldl (embed_text bot) (system_content message) (dm_embeds message).

(** [if len(content) > 2048:
        to_remove = len(content + " ...") - 2048
        content = content[:-to_remove]] *)
Definition truncate_content (content : str) : str :=
  if 2048 <? Z.of_nat (length content)
  then
    let to_remove := Z.of_nat (length (content ++ lit " ...")) - 2048 in
    py_slice_to (- to_remove) content
  else content.

(** [embed_message], as far as the description goes: this is the embed
    [handle_starboard] sends and edits with.  The call is taken where it
    returns; what else it computes, and where it raises instead (the
    download of an upload, a colour that is not hexadecimal, the reply
    to a message that is lost), is in [embed_message_whole] further down. *)
Definition embed_message (bot : Bot) (message : DMessage) (color : option str)
    : Embed :=
  mkEmbed None color (truncate_content (embed_content bot message)).

(** ** Calls to the platform

    A send needs the permission to send on the channel and is refused
    with [Forbidden] without it; an edit or a delete of a message that is
    gone answers [NotFound], which the engine swallows wherever it makes
    these calls. *)

#[global] Instance Emoji_eq_dec : EqDecision Emoji.
Proof. solve_decision. Defined.

(** [channel.send(text, embed=embed)]: the id of the new message, or
    [None] for [discord.Forbidden]. *)
Definition remote_send (channel : Z) (text : str) (embed : option Embed)
    : M (option Z) :=
  run emit (Remote (SendMessage channel text embed)) ;;
  do w <- get_world ;;
  if w_can_send w
  then
    run modify (λ w, bump_next_id
                  (set_remote <[w_next_id w := mkMirror channel text embed []]> w)) ;;
    ret (Some (w_next_id w))
  else ret None.

(** [message.edit(content=..., embed=...)], either argument optional;
    [NotFound] is swallowed. *)
Definition edit_mirror (text : option str) (embed : option Embed) (mi : Mirror)
    : Mirror :=
  mkMirror (mi_channel mi)
           (default (mi_content mi) text)
           (match embed with Some e => Some e | None => mi_embed mi end)
           (mi_reactions mi).

Definition remote_edit (id : Z) (text : option str) (embed : option Embed)
    : M unit :=
  run emit (Remote (EditMessage id text embed)) ;;
  modify (set_remote (alter (edit_mirror text embed) id)).

(** [message.delete()]; [NotFound] is swallowed. *)
Definition remote_delete (id : Z) : M unit :=
  run emit (Remote (DeleteMessage id)) ;;
  modify (set_remote (delete id)).

Definition react_mirror (e : Emoji) (mi : Mirror) : Mirror :=
  mkMirror (mi_channel mi) (mi_content mi) (mi_embed mi)
           (if bool_decide (e ∈ mi_reactions mi) then mi_reactions mi
            else mi_reactions mi ++ [e]).

(** [m.add_reaction(emoji)]: [true] when done, [false] for
    [discord.Forbidden]; an emoji that is [None] is refused before any
    call is made. *)
Definition add_reaction (id : Z) (emoji : option Emoji) : M bool :=
  match emoji with
  | None => raise InvalidArgument
  | Some e =>
      run emit (Remote (AddReaction id emoji)) ;;
      do w <- get_world ;;
      if w_can_react w
      then run modify (set_remote (alter (react_mirror e) id)) ;; ret true
      else ret false
  end.

(** ** handle_starboard *)

Definition mention (channel : Z) : str :=
  lit "<#" ++ str_of_Z channel ++ lit ">".

Definition send_forbidden_text (starboard : Z) : str :=
  lit "I tried to send a starboard message to " ++ mention starboard
  ++ lit ", but I'm missing the proper permissions. Please make sure I have the `Send Messages` permission.".

Definition autoreact_forbidden_text (starboard : Z) : str :=
  lit "I tried to autoreact to a message on the starboard, but I'm missing the proper permissions. If you don't want me to autoreact to messages, set the AutoReact setting to False with `sb!s cs "
  ++ mention starboard ++ lit " --autoReact False`".

(** [' 🔒'] and [' ❄️'] *)
Definition lock_mark : str := [32; 128274]%N.
Definition snow_mark : str := [32; 10052; 65039]%N.

Definition plain_text (bot : Bot) (starboard : Starboard)
    (sql_message : SqlMessage) (points : Z) (fl : Flags) : str :=
  lit "**" ++ pretty_emoji_string bot (display_emoji starboard) ++ lit " "
  ++ str_of_Z points ++ lit " | <#" ++ str_of_Z (m_channel_id sql_message)
  ++ lit ">**"
  ++ (if fl_forced fl then lock_mark else [])
  ++ (if fl_frozen fl then snow_mark else []).

(** The emoji handed to [add_reaction] for one token of [star_emojis]:
    a token that reads as a non-zero integer is looked up among the
    emojis of the guild. *)
Definition reaction_emoji (bot : Bot) (w : World) (emoji : str) : option Emoji :=
  match py_int bot emoji with
  | Some emoji_id =>
      if bool_decide (emoji_id = 0) then Some (Unicode emoji)
      else if bool_decide (emoji_id ∈ w_guild_emojis w)
      then Some (Custom emoji_id) else None
  | None => Some (Unicode emoji)
  end.

Definition autoreact_one (bot : Bot) (starboard : Starboard) (m : Z)
    (emoji : str) : M unit :=
  do w <- get_world ;;
  do ok <- add_reaction m (reaction_emoji bot w emoji) ;;
  if ok then ret tt
  else emit (GuildLog (autoreact_forbidden_text (sb_id starboard)) (lit "error")).

(** Lines 465 to 511: the mirror is sent and linked. *)
Definition create_mirror (bot : Bot) (starboard : Starboard) (points : Z)
    (text : str) (embed : option Embed) (message : DMessage) : M unit :=
  do sent <- remote_send (sb_id starboard) text embed ;;
  match sent with
  | None =>
      emit (GuildLog (send_forbidden_text (sb_id starboard)) (lit "error"))
  | Some m =>
      run create_starboard_message m (dm_id message) (sb_id starboard) ;;
      run set_points points m ;;
      if autoreact starboard
      then for_each (star_emojis starboard) (autoreact_one bot starboard m)
      else ret tt
  end.

(** Lines 420 to 435: the mirror of the link is resolved, and a link
    whose mirror is not resolved is deleted. *)
Definition resolve_mirror (bot : Bot) (sql_message : SqlMessage)
    (sql_starboard_message : option SbMessage) : M (option DMessage) :=
  match sql_starboard_message with
  | Some l =>
      let starboard_message :=
        fetch_message bot (m_guild_id sql_message) (sm_starboard_id l) (sm_id l) in
      run (match starboard_message with
           | None => delete_link (sm_id l)
           | Some _ => ret tt
           end) ;;
      ret starboard_message
  | None => ret None
  end.

(** Lines 437 to 526: what is done to the mirror.  The source has the
    embed rendered at line 451 whenever the decision is not [delete] and
    the source message is resolved, also where the embed is not used;
    the call is taken where it returns (see [embed_message]). *)
Definition transition (bot : Bot) (starboard : Starboard)
    (sql_message : SqlMessage) (points : Z) (fl : Flags)
    (message starboard_message : option DMessage) : M unit :=
  match fl_delete fl, starboard_message with
  | true, Some sm =>
      run delete_link (dm_id sm) ;;
      remote_delete (dm_id sm)
  | true, None => ret tt
  | false, _ =>
      let embed := (λ m, embed_message bot m (color starboard)) <$> message in
      let text := plain_text bot starboard sql_message points fl in
      match starboard_message, message with
      | None, Some m =>
          if fl_add fl
          then create_mirror bot starboard points text embed m
          else ret tt
      | None, None => ret tt
      | Some sm, Some _ =>
          if link_edits starboard
          then remote_edit (dm_id sm) (Some text) embed
          else remote_edit (dm_id sm) (Some text) None
      | Some sm, None => remote_edit (dm_id sm) (Some text) None
      end
  end.

(** Lines 363 to 366: the points of the pass. *)
Definition pass_points (starboard : Starboard) (sql_message : SqlMessage)
    (sql_starboard_message : option SbMessage) : M Z :=
  if negb (frozen sql_message) || bool_decide (sql_starboard_message = None)
  then calculate_points sql_message starboard
  else match sql_starboard_message with
       | Some l => ret (sm_points l)
       | None => raise TypeError
       end.

Definition handle_starboard (bot : Bot) (sql_starboard : Starboard)
    (sql_message : SqlMessage) (sql_author : option SqlUser) : M unit :=
  do sql_starboard_message <-
    fetchrow_link (m_id sql_message) (sb_id sql_starboard) ;;
  do points <- pass_points sql_starboard sql_message sql_starboard_message ;;
  run (match sql_starboard_message with
       | Some l => set_points points (sm_id l)
       | None => ret tt
       end) ;;
  let message :=
    fetch_message bot (m_guild_id sql_message) (m_channel_id sql_message)
                  (m_id sql_message) in
  do fl <- evaluate bot sql_starboard sql_message sql_author points message ;;
  do starboard_message <- resolve_mirror bot sql_message sql_starboard_message ;;
  transition bot sql_starboard sql_message points fl message starboard_message.

(** ** handle_trashed_message and update_message *)

Definition trashed_embed (sql_message : SqlMessage) : Embed :=
  mkEmbed (Some (lit "Trashed Message")) None
    (lit "This message was trashed by a moderator. To untrash it, run ```"
     ++ nl ++ lit "sb!untrash " ++ str_of_Z (m_channel_id sql_message)
     ++ lit "-" ++ str_of_Z (m_id sql_message) ++ lit "```").

Definition handle_trashed_message (bot : Bot) (sql_starboard : Starboard)
    (sql_message : SqlMessage) (sql_author : option SqlUser) : M unit :=
  do sql_starboard_message <-
    fetchrow_link (m_id sql_message) (sb_id sql_starboard) ;;
  match sql_starboard_message with
  | None => ret tt
  | Some l =>
      match fetch_message bot (m_guild_id sql_message)
                          (sm_starboard_id l) (sm_id l) with
      | None => ret tt
      | Some starboard_message =>
          remote_edit (dm_id starboard_message) None
                      (Some (trashed_embed sql_message))
      end
  end.

(** Modelled from the spec: [bot.db.get_message], [bot.db.get_starboards]
    and [bot.db.get_user], of the database class, which is outside the
    sources.  The spec has [store.get_message(id) -> Message] and
    [store.get_starboards(guild_id) -> [Starboard]]; the user is looked
    up by id the same way, and a message without an author has none. *)
Definition get_message (w : World) (message_id : Z) : option SqlMessage :=
  List.find (λ m, bool_decide (m_id m = message_id)) (w_messages w).

Definition get_starboards (w : World) (guild_id : Z) : list Starboard :=
  filter (λ s, sb_guild_id s = guild_id) (w_starboards w).

Definition get_user (w : World) (user_id : option Z) : option SqlUser :=
  match user_id with
  | Some i => List.find (λ u, bool_decide (u_id u = i)) (w_users w)
  | None => None
  end.

Definition update_message (bot : Bot) (message_id guild_id : Z) : M unit :=
  do w <- get_world ;;
  match get_message w message_id with
  | None => ret tt
  | Some sql_message =>
      let sql_starboards := get_starboards w guild_id in
      let sql_author := get_user w (m_author_id sql_message) in
      if negb (trashed sql_message)
      then for_each sql_starboards
             (λ s, handle_starboard bot s sql_message sql_author)
      else for_each sql_starboards
             (λ s, handle_trashed_message bot s sql_message sql_author)
  end.

(** * Notions the properties are stated with *)

(** A row of [reaction_users] that the loop would count. *)
Definition counts (message : SqlMessage) (starboard : Starboard)
    (reactions : gmap Z str) (ru : ReactionUser) : Prop :=
  ∃ emoji, reactions !! ru_reaction_id ru = Some emoji
           ∧ emoji ∈ star_emojis starboard
           ∧ (self_star starboard = false →
              m_author_id message ≠ Some (ru_user_id ru)).

#[global] Instance counts_dec message starboard reactions ru :
  Decision (counts message starboard reactions ru).
Proof.
  unfold counts. destruct (reactions !! ru_reaction_id ru) as [e|].
  - destruct (decide (e ∈ star_emojis starboard
                      ∧ (self_star starboard = false →
                         m_author_id message ≠ Some (ru_user_id ru)))) as [H|H].
    + left. exists e. tauto.
    + right. intros (e' & [= <-] & ?). tauto.
  - right. by intros (e' & ? & _).
Defined.

Definition counted (message : SqlMessage) (starboard : Starboard)
    (reactions : gmap Z str) (rows : list ReactionUser) : gset Z :=
  list_to_set (ru_user_id <$> filter (counts message starboard reactions) rows).

Definition voter (w : World) (message : SqlMessage) (starboard : Starboard)
    (u : Z) : Prop :=
  ∃ ru r, ru ∈ w_reaction_users w
          ∧ ru_user_id ru = u
          ∧ w_reactions w !! ru_reaction_id ru = Some r
          ∧ r_message_id r = m_id message
          ∧ r_emoji r ∈ star_emojis starboard
          ∧ (self_star starboard = false → m_author_id message ≠ Some u).

Definition is_log (e : Event) : Prop :=
  match e with GuildLog _ _ => True | _ => False end.

(** A computation that reads nothing of the world and leaves it alone. *)
Definition pure_run {A} (m : M A) (t : list Event) (a : A) : Prop :=
  ∀ w, m w = mkRes w t (inr a).

(** The display marks of the flags, which only rules 7 and 8 set. *)
Definition unmarked (fl : Flags) : Prop :=
  fl_forced fl = false ∧ fl_frozen fl = false.

Definition regex_log (bot : Bot) (pattern : str) (m : DMessage) : list Event :=
  if negb (bool_decide (pattern = [])) then
    match safe_regex bot (system_content m) pattern with
    | Some _ => []
    | None => [GuildLog (regex_timeout_text pattern (jump_url m)) (lit "error")]
    end
  else [].

(** The decision in closed form: what [evaluate] returns when the author
    row is at hand ([evaluate_run]). *)
Definition flags_before_regex (sb : Starboard) (msg : SqlMessage) (a : SqlUser)
    (points : Z) (message : option DMessage) : Flags :=
  rule_nsfw sb msg
    (rule_link_deletes sb message
       (if negb (allow_bots sb) && is_bot a
        then with_add_delete false true
               (rule_thresholds sb points (mkFlags false false false false))
        else rule_thresholds sb points (mkFlags false false false false))).

Definition regex_flags (bot : Bot) (sb : Starboard) (message : option DMessage)
    (fl : Flags) : Flags :=
  match message with
  | Some m =>
      let fl :=
        if negb (bool_decide (regex sb = []))
           && bool_decide (safe_regex bot (system_content m) (regex sb)
                           = Some false)
        then with_add_delete false true fl else fl in
      if negb (bool_decide (exclude_regex sb = []))
         && bool_decide (safe_regex bot (system_content m) (exclude_regex sb)
                         = Some true)
      then with_add_delete false true fl else fl
  | None => fl
  end.

Definition decision (bot : Bot) (sb : Starboard) (msg : SqlMessage) (a : SqlUser)
    (points : Z) (message : option DMessage) : Flags :=
  rule_forced sb msg
    (rule_frozen msg
       (regex_flags bot sb message
          (flags_before_regex sb msg a points message))).

Definition decision_log (bot : Bot) (sb : Starboard) (message : option DMessage)
    : list Event :=
  match message with
  | Some m => regex_log bot (regex sb) m ++ regex_log bot (exclude_regex sb) m
  | None => []
  end.

(** What it means that no rule after the thresholds fires. *)
Definition no_later_rule (bot : Bot) (sb : Starboard) (msg : SqlMessage)
    (a : SqlUser) (message : option DMessage) : Prop :=
  ¬ (allow_bots sb = false ∧ is_bot a = true)
  ∧ ¬ (link_deletes sb = true ∧ message = None)
  ∧ ¬ (is_nsfw msg = true ∧ allow_nsfw sb = false)
  ∧ (∀ m, message = Some m → regex sb ≠ [] →
       safe_regex bot (system_content m) (regex sb) ≠ Some false)
  ∧ (∀ m, message = Some m → exclude_regex sb ≠ [] →
       safe_regex bot (system_content m) (exclude_regex sb) ≠ Some true)
  ∧ frozen msg = false
  ∧ sb_id sb ∉ forced msg.

(** The link, the points, the source message and the mirror of a pass. *)
Definition pass_link (sb : Starboard) (msg : SqlMessage) (w : World)
    : option SbMessage :=
  List.find (link_of (m_id msg) (sb_id sb)) (w_starboard_messages w).

Definition points_of (sb : Starboard) (msg : SqlMessage) (w : World) : Z :=
  match res_val (pass_points sb msg (pass_link sb msg w) w) with
  | inr p => p
  | inl _ => 0
  end.

Definition source_of (bot : Bot) (msg : SqlMessage) : option DMessage :=
  fetch_message bot (m_guild_id msg) (m_channel_id msg) (m_id msg).

Definition mirror_of (bot : Bot) (msg : SqlMessage) (link : option SbMessage)
    : option DMessage :=
  match link with
  | Some l => fetch_message bot (m_guild_id msg) (sm_starboard_id l) (sm_id l)
  | None => None
  end.

(** The world when the transition starts: the points are written on the
    link, and a link whose mirror is not resolved is deleted. *)
Definition before_transition (bot : Bot) (sb : Starboard) (msg : SqlMessage)
    (w : World) : World :=
  match pass_link sb msg w with
  | Some l =>
      let w1 := set_links (update_points (points_of sb msg w) (sm_id l)) w in
      match mirror_of bot msg (Some l) with
      | None => set_links (delete_rows (sm_id l)) w1
      | Some _ => w1
      end
  | None => w
  end.

Definition before_transition_trace (bot : Bot) (sb : Starboard)
    (msg : SqlMessage) (w : World) : list Event :=
  [Db (SelectLink (m_id msg) (sb_id sb))]
  ++ res_trace (pass_points sb msg (pass_link sb msg w) w)
  ++ match pass_link sb msg w with
     | Some l => [Db (UpdatePoints (points_of sb msg w) (sm_id l))]
     | None => []
     end
  ++ decision_log bot sb (source_of bot msg)
  ++ match pass_link sb msg w with
     | Some l =>
         match mirror_of bot msg (Some l) with
         | None => [Db (DeleteLink (sm_id l))]
         | Some _ => []
         end
     | None => []
     end.

(** An update of a mirror that leaves its channel, text and embed. *)
Definition keeps_text (g : Mirror → Mirror) : Prop :=
  ∀ x, mi_channel (g x) = mi_channel x ∧ mi_content (g x) = mi_content x
       ∧ mi_embed (g x) = mi_embed x.

(** The world after a mirror is sent and linked, before the reactions. *)
Definition linked_world (sb : Starboard) (points : Z) (text : str)
    (embed : option Embed) (m : DMessage) (w : World) : World :=
  set_links (update_points points (w_next_id w))
    (set_links (λ rows, rows ++ [mkSbMessage (w_next_id w) (dm_id m) (sb_id sb) 0])
       (bump_next_id
          (set_remote <[w_next_id w := mkMirror (sb_id sb) text embed []]> w))).

(** A write to the store. *)
Definition is_write (e : Event) : Prop :=
  match e with
  | Db (UpdatePoints _ _) | Db (DeleteLink _) | Db (InsertLink _ _ _) => True
  | _ => False
  end.

Definition is_remote_delete (e : Event) : Prop :=
  match e with Remote (DeleteMessage _) => True | _ => False end.

(** What [handle_trashed_message] asks for: the link, and an edit that
    puts the notice in place of the embed. *)
Definition trashed_event (msg : SqlMessage) (e : Event) : Prop :=
  match e with
  | Db (SelectLink _ _) => True
  | Remote (EditMessage _ None (Some em)) => em = trashed_embed msg
  | _ => False
  end.

Definition count_links (orig sb : Z) (rows : list SbMessage) : nat :=
  length (filter (λ r, link_of orig sb r) rows).

(** The uniqueness invariant of the data model, for one pair. *)
Definition at_most_one_link (orig sb : Z) (rows : list SbMessage) : Prop :=
  (count_links orig sb rows ≤ 1)%nat.

Definition with_points (p : Z) (r : SbMessage) : SbMessage :=
  mkSbMessage (sm_id r) (sm_orig_id r) (sm_starboard_id r) p.

Definition calc_points (msg : SqlMessage) (sb : Starboard) (w : World) : Z :=
  match res_val (calculate_points msg sb w) with
  | inr p => p
  | inl _ => 0
  end.

Definition pass_world (bot : Bot) (sb : Starboard) (msg : SqlMessage)
    (a : SqlUser) (w : World) : World :=
  res_world (handle_starboard bot sb msg (Some a) w).

(** The edit a pass makes to a mirror it keeps. *)
Definition pass_edit (bot : Bot) (sb : Starboard) (msg : SqlMessage) (p : Z)
    (fl : Flags) (message : option DMessage) : Mirror → Mirror :=
  edit_mirror (Some (plain_text bot sb msg p fl))
    (match message with
     | Some m =>
         if link_edits sb then Some (embed_message bot m (color sb)) else None
     | None => None
     end).

(** The cache answers with the message that was asked for. *)
Definition cache_ids (bot : Bot) : Prop :=
  ∀ g c i m, fetch_message bot g c i = Some m → dm_id m = i.

(** The pass sends a new mirror. *)
Definition sends_mirror (bot : Bot) (sb : Starboard) (msg : SqlMessage)
    (a : SqlUser) (w : World) : Prop :=
  w_can_send w = true
  ∧ ∃ text embed,
      Remote (SendMessage (sb_id sb) text embed)
      ∈ res_trace (handle_starboard bot sb msg (Some a) w).

(** What the transition does without a mirror: nothing, unless a mirror
    is to be created and the send goes through. *)
Definition creates (fl : Flags) (message : option DMessage) (w : World) : bool :=
  negb (fl_delete fl) && fl_add fl && bool_decide (is_Some message)
  && w_can_send w.

(** * Worlds for the examples *)

Definition star : str := [11088%N].

Definition scenario_A_starboard : Starboard :=
  mkStarboard 50 1 3 0 false true false true false false [star] star None [] [].

Definition scenario_A_message : SqlMessage :=
  mkSqlMessage 100 1 10 (Some 1) false [] false false.

Definition scenario_A_world : World :=
  mkWorld [scenario_A_starboard] [scenario_A_message]
          [mkSqlUser 1 false; mkSqlUser 2 false; mkSqlUser 3 false; mkSqlUser 4 false]
          []
          {[ 7 := mkReaction star 100 ]}
          [mkReactionUser 7 1; mkReactionUser 7 2; mkReactionUser 7 3;
           mkReactionUser 7 4]
          ∅ 1000 true true [].

(** Concrete collaborators and rows for the examples. *)
Definition quiet_bot : Bot :=
  mkBot (λ _ _ id, Some (mkDMessage id (lit "hello") (lit "https://discord.com/channels/1/10/100") []))
        (λ _ _, Some true) (λ s, s) (λ s, s) (λ _, None).

(** A bot whose regex guard always times out. *)
Definition slow_bot : Bot :=
  mkBot (fetch_message quiet_bot) (λ _ _, None) (λ s, s) (λ s, s) (λ _, None).

Definition live_100 : DMessage :=
  mkDMessage 100 (lit "hello") (lit "https://discord.com/channels/1/10/100") [].

Definition human : SqlUser := mkSqlUser 1 false.

(** Degenerate thresholds: [required = 3], [required_remove = 10]. *)
Definition tie_starboard : Starboard :=
  mkStarboard 50 1 3 10 false true false true false false [star] star None [] [].

Definition regex_starboard : Starboard :=
  mkStarboard 50 1 3 0 false true false true false false [star] star None
              (lit "a+") (lit "b+").

Definition forced_frozen_message : SqlMessage :=
  mkSqlMessage 100 1 10 (Some 1) true [50] false true.

Definition locked_world : World :=
  mkWorld [scenario_A_starboard] [scenario_A_message]
          [mkSqlUser 1 false; mkSqlUser 2 false; mkSqlUser 3 false; mkSqlUser 4 false]
          []
          {[ 7 := mkReaction star 100 ]}
          [mkReactionUser 7 1; mkReactionUser 7 2; mkReactionUser 7 3;
           mkReactionUser 7 4]
          ∅ 1000 false true [].

(** A cache that only resolves the source message 100. *)
Definition forgetful_bot : Bot :=
  mkBot (λ _ _ i, if bool_decide (i = 100) then Some live_100 else None)
        (λ _ _, Some true) (λ s, s) (λ s, s) (λ _, None).

(** Scenario A with a link to a mirror 201 that is gone. *)
Definition stale_world : World :=
  mkWorld [scenario_A_starboard] [scenario_A_message]
          [mkSqlUser 1 false; mkSqlUser 2 false; mkSqlUser 3 false; mkSqlUser 4 false]
          [mkSbMessage 201 100 50 3]
          {[ 7 := mkReaction star 100 ]}
          [mkReactionUser 7 1; mkReactionUser 7 2; mkReactionUser 7 3;
           mkReactionUser 7 4]
          ∅ 1000 true true [].

(** A frozen message forced onto starboard 50, with a link to a mirror
    201 that is gone; the link cached 7 points, the reactions give 3. *)
Definition stale_frozen_world : World :=
  mkWorld [scenario_A_starboard] [forced_frozen_message]
          [mkSqlUser 1 false; mkSqlUser 2 false; mkSqlUser 3 false; mkSqlUser 4 false]
          [mkSbMessage 201 100 50 7]
          {[ 7 := mkReaction star 100 ]}
          [mkReactionUser 7 1; mkReactionUser 7 2; mkReactionUser 7 3;
           mkReactionUser 7 4]
          ∅ 1000 true true [].

Definition trashed_message : SqlMessage :=
  mkSqlMessage 100 1 10 (Some 1) false [] true false.

(** A trashed message with a link to a mirror 201 that is on the platform. *)
Definition trashed_world : World :=
  mkWorld [scenario_A_starboard] [trashed_message]
          [mkSqlUser 1 false]
          [mkSbMessage 201 100 50 3]
          ∅ [] {[ 201 := mkMirror 50 (lit "**3**") None [] ]} 1000 true true [].

(** Two links for the pair (100, 50), both mirrors on the platform, and a
    message without reactions: the pass deletes. *)
Definition doubled_world : World :=
  mkWorld [scenario_A_starboard] [scenario_A_message] [mkSqlUser 1 false]
          [mkSbMessage 201 100 50 0; mkSbMessage 202 100 50 0]
          ∅ []
          {[ 201 := mkMirror 50 (lit "**0**") None [];
             202 := mkMirror 50 (lit "**0**") None [] ]}
          1000 true true [].

(** * Notions for the further properties *)

(** The world with other rows in [reaction_users]. *)
Definition with_reaction_users (rows : list ReactionUser) (w : World) : World :=
  mkWorld (w_starboards w) (w_messages w) (w_users w)
          (w_starboard_messages w) (w_reactions w) rows
          (w_remote w) (w_next_id w) (w_can_send w) (w_can_react w)
          (w_guild_emojis w).

(** The starboard with another [self_star] setting. *)
Definition with_self_star (b : bool) (sb : Starboard) : Starboard :=
  mkStarboard (sb_id sb) (sb_guild_id sb) (required sb) (required_remove sb)
              b (allow_bots sb) (allow_nsfw sb) (link_edits sb)
              (link_deletes sb) (autoreact sb) (star_emojis sb)
              (display_emoji sb) (color sb) (regex sb) (exclude_regex sb).

(** One of the rules 2 to 6 fires. *)
Definition rejects (bot : Bot) (sb : Starboard) (msg : SqlMessage) (a : SqlUser)
    (message : option DMessage) : bool :=
  (negb (allow_bots sb) && is_bot a)
  || (link_deletes sb && bool_decide (message = None))
  || (is_nsfw msg && negb (allow_nsfw sb))
  || match message with
     | Some m =>
         (negb (bool_decide (regex sb = []))
          && bool_decide (safe_regex bot (system_content m) (regex sb)
                          = Some false))
         || (negb (bool_decide (exclude_regex sb = []))
             && bool_decide (safe_regex bot (system_content m) (exclude_regex sb)
                             = Some true))
     | None => false
     end.

(** A frozen message that no starboard is forced to show. *)
Definition frozen_message : SqlMessage :=
  mkSqlMessage 100 1 10 (Some 1) false [] false true.

(** What a call may change: the links and the platform's messages, and
    the id of the next message, which only grows.  The other tables, the
    permissions and the emojis of the guild stay. *)
Definition only_links_and_mirrors (w w' : World) : Prop :=
  w_starboards w' = w_starboards w
  ∧ w_messages w' = w_messages w
  ∧ w_users w' = w_users w
  ∧ w_reactions w' = w_reactions w
  ∧ w_reaction_users w' = w_reaction_users w
  ∧ w_can_send w' = w_can_send w
  ∧ w_can_react w' = w_can_react w
  ∧ w_guild_emojis w' = w_guild_emojis w
  ∧ w_next_id w ≤ w_next_id w'.

Definition keeps_tables {A} (m : M A) : Prop :=
  ∀ w, only_links_and_mirrors w (res_world (m w)).

(** An event that asks nothing of the platform. *)
Definition is_local (e : Event) : Prop :=
  match e with Remote _ => False | _ => True end.

(** What the edit of a kept mirror leaves of it: its channel and its
    reactions stay, its text is the new line, and its embed is rendered
    again only when [link_edits] is on and the source is resolved. *)
Definition kept_mirror (bot : Bot) (sb : Starboard) (text : str)
    (message : option DMessage) (mi : Mirror) : Mirror :=
  mkMirror (mi_channel mi) text
           (match message with
            | Some m =>
                if link_edits sb then Some (embed_message bot m (color sb))
                else mi_embed mi
            | None => mi_embed mi
            end)
           (mi_reactions mi).

(** A world with a link 201 for (100, 50) and its mirror on the platform,
    and no reaction at all. *)
Definition linked_world_201 : World :=
  mkWorld [scenario_A_starboard] [scenario_A_message] [mkSqlUser 1 false]
          [mkSbMessage 201 100 50 3]
          ∅ []
          {[ 201 := mkMirror 50 (lit "**3**") None [Unicode star] ]}
          1000 true true [].

(** Scenario B: the link 201 and its mirror, and two stars left. *)
Definition scenario_B_world : World :=
  mkWorld [scenario_A_starboard] [scenario_A_message]
          [mkSqlUser 1 false; mkSqlUser 2 false; mkSqlUser 3 false]
          [mkSbMessage 201 100 50 3]
          {[ 7 := mkReaction star 100 ]}
          [mkReactionUser 7 1; mkReactionUser 7 2; mkReactionUser 7 3]
          {[ 201 := mkMirror 50 (lit "**3**") None [Unicode star] ]}
          1000 true true [].

Definition is_send (e : Event) : Prop :=
  match e with Remote (SendMessage _ _ _) => True | _ => False end.

Definition is_edit (e : Event) : Prop :=
  match e with Remote (EditMessage _ _ _) => True | _ => False end.

#[global] Instance is_send_dec (e : Event) : Decision (is_send e).
Proof. destruct e as [| [] |]; simpl; apply _. Defined.

(** What the autoreact loop leaves in the trace for one emoji when the
    bot may not react. *)
Definition refused_reaction (bot : Bot) (sb : Starboard) (n : Z) (w : World)
    (emoji : str) : list Event :=
  [Remote (AddReaction n (reaction_emoji bot w emoji));
   GuildLog (autoreact_forbidden_text (sb_id sb)) (lit "error")].

(** All the star emojis of the starboard are ones the bot can react
    with: Unicode emojis, or custom emojis of the guild. *)
Definition emojis_known (bot : Bot) (w : World) (emojis : list str) : Prop :=
  Forall (λ e, is_Some (reaction_emoji bot w e)) emojis.

(** The star emojis the autoreact loop gets to: those before the first
    custom emoji that the guild no longer has. *)
Fixpoint known_prefix (bot : Bot) (w : World) (emojis : list str) : list str :=
  match emojis with
  | [] => []
  | emoji :: rest =>
      match reaction_emoji bot w emoji with
      | Some _ => emoji :: known_prefix bot w rest
      | None => []
      end
  end.

(** A starboard whose first star emoji is a custom emoji, 999, and a bot
    that reads integers; the guild of [unreactive_world] has no emoji. *)
Definition custom_star_starboard : Starboard :=
  mkStarboard 50 1 3 0 false true false true false true
              [lit "999"; star] star None [] [].

Definition reading_bot : Bot :=
  mkBot (fetch_message quiet_bot) (λ _ _, Some true) (λ s, s) (λ s, s)
        (λ s, if bool_decide (s = lit "999") then Some 999 else None).

(** A starboard with two star emojis, and a world where the bot may not
    react. *)
Definition two_star_starboard : Starboard :=
  mkStarboard 50 1 3 0 false true false true false true
              [star; [127775%N]] star None [] [].

Definition unreactive_world : World :=
  mkWorld [two_star_starboard] [scenario_A_message] [mkSqlUser 1 false]
          [] ∅ [] {[ 1000 := mkMirror 50 (lit "**3**") None [] ]}
          1001 true false [].

Definition reactive_world : World :=
  mkWorld [two_star_starboard] [scenario_A_message] [mkSqlUser 1 false]
          [] ∅ [] {[ 1000 := mkMirror 50 (lit "**3**") None [] ]}
          1001 true true [].

(** A frozen message on scenario A's world. *)
Definition frozen_world : World :=
  mkWorld [scenario_A_starboard] [frozen_message]
          [mkSqlUser 1 false; mkSqlUser 2 false; mkSqlUser 3 false; mkSqlUser 4 false]
          []
          {[ 7 := mkReaction star 100 ]}
          [mkReactionUser 7 1; mkReactionUser 7 2; mkReactionUser 7 3;
           mkReactionUser 7 4]
          ∅ 1000 true true [].

(** The edits [update_message] makes for a trashed message: the notice on
    the mirror of every starboard whose link the cache resolves. *)
Definition trashed_edit (msg : SqlMessage) : Mirror → Mirror :=
  edit_mirror None (Some (trashed_embed msg)).

(** The mirrors a trashed message has on the given starboards, as the
    store links them and the cache resolves them. *)
Definition trashed_targets (bot : Bot) (msg : SqlMessage)
    (links : list SbMessage) (sbs : list Starboard) : list Z :=
  omap (λ sb,
          match List.find (link_of (m_id msg) (sb_id sb)) links with
          | Some l =>
              match fetch_message bot (m_guild_id msg) (sm_starboard_id l)
                                  (sm_id l) with
              | Some s => Some (dm_id s)
              | None => None
              end
          | None => None
          end) sbs.

Definition alter_all (f : Mirror → Mirror) (ids : list Z)
    (remote : gmap Z Mirror) : gmap Z Mirror :=
  foldl (λ remote i, alter f i remote) remote ids.

(** What [update_message] asks for, for a trashed message: for every
    starboard the link of the pair, and where there is one and the cache
    resolves its mirror, the edit that puts the notice on the mirror. *)
Definition trashed_trace (bot : Bot) (msg : SqlMessage)
    (links : list SbMessage) (sbs : list Starboard) : list Event :=
  List.flat_map
    (λ sb,
       Db (SelectLink (m_id msg) (sb_id sb))
       :: match List.find (link_of (m_id msg) (sb_id sb)) links with
          | Some l =>
              match fetch_message bot (m_guild_id msg) (sm_starboard_id l)
                                  (sm_id l) with
              | Some s => [Remote (EditMessage (dm_id s) None
                                     (Some (trashed_embed msg)))]
              | None => []
              end
          | None => []
          end) sbs.

(** ** orig_message *)

(** Modelled from the spec: [bot.db.get_starboard_message(message_id)],
    of the database class, which is outside the sources: the link whose
    mirror has this id, looked up like [get_message]. *)
Definition get_starboard_message (w : World) (message_id : Z)
    : option SbMessage :=
  List.find (λ r, bool_decide (sm_id r = message_id)) (w_starboard_messages w).

(** [orig_message]: the row of the source message, for the id of a mirror
    or of the source itself. *)
Definition orig_message (w : World) (message_id : Z) : option SqlMessage :=
  match get_starboard_message w message_id with
  | Some starboard_message => get_message w (sm_orig_id starboard_message)
  | None => get_message w message_id
  end.

(** The row of a message is in the store under its id. *)
Definition stored (w : World) (msg : SqlMessage) : Prop :=
  get_message w (m_id msg) = Some msg.

(** ** embed_message: the image and the files

    The part of [embed_message] that lays out the uploads and the media
    of the source's embeds (lines 37 to 53, 81 to 138 and 202 to 233),
    over the fields of the message it reads. *)

Record Attachment : Type := mkAttachment {
  at_filename : str;
  at_url : str;
  at_spoiler : bool
}.

(** A [discord.File] made by [attachment.to_file()]. *)
Record File : Type := mkFile {
  f_filename : str;
  f_from : str
}.

Definition to_file (a : Attachment) : File :=
  mkFile (at_filename a) (at_url a).

(** The media fields of an embed of the source; [None] is [Embed.Empty]. *)
Record EmbedMedia : Type := mkEmbedMedia {
  md_type : str;
  md_url : option str;
  md_image_url : option str;
  md_thumbnail_url : option str
}.

(** An entry of the list [urls]. *)
Record UrlEntry : Type := mkUrlEntry {
  u_name : str;
  u_display_url : option str;
  u_url : str;
  u_type : str;
  u_spoiler : bool;
  u_file : option File;
  u_show_link : bool
}.

Definition upload_entry (a : Attachment) : UrlEntry :=
  mkUrlEntry (at_filename a) (Some (at_url a)) (at_url a) (lit "upload")
             (at_spoiler a) (Some (to_file a)) true.

Definition embed_entries (embed : EmbedMedia) : list UrlEntry :=
  if bool_decide (md_type embed = lit "rich")
     || bool_decide (md_type embed = lit "article")
  then
    match md_image_url embed with
    | Some u => [mkUrlEntry (lit "Embed Image") (Some u) u (lit "image")
                            false None false]
    | None => []
    end
    ++ match md_thumbnail_url embed with
       | Some u => [mkUrlEntry (lit "Embed Thumbnail") (Some u) u (lit "image")
                               false None false]
       | None => []
       end
  else if bool_decide (md_type embed = lit "image") then
    match md_url embed with
    | Some u => [mkUrlEntry (lit "Image") (md_thumbnail_url embed) u
                            (lit "image") false None true]
    | None => []
    end
  else if bool_decide (md_type embed = lit "gifv") then
    match md_url embed with
    | Some u => [mkUrlEntry (lit "GIF") (md_thumbnail_url embed) u
                            (lit "gif") false None true]
    | None => []
    end
  else if bool_decide (md_type embed = lit "video") then
    match md_url embed with
    | Some u => [mkUrlEntry (lit "Video") (md_thumbnail_url embed) u
                            (lit "video") false None true]
    | None => []
    end
  else [].

Definition collect_urls (attachments : list Attachment)
    (embeds : list EmbedMedia) : list UrlEntry :=
  (upload_entry <$> attachments) ++ List.flat_map embed_entries embeds.

Definition image_types : list str :=
  [lit "png"; lit "jpg"; lit "jpeg"; lit "gif"; lit "gifv"; lit "svg";
   lit "webp"].

(** [any(url.endswith(t) for t in image_types)] *)
Definition is_image_url (url : str) : bool :=
  existsb (λ t, bool_decide (t `suffix_of` url)) image_types.

(** The state of the loop over [urls]: the image of the embed, once
    [set_image] was called, and [extra_attachments]. *)
Record Layout : Type := mkLayout {
  lo_image : option (option str);
  lo_extra : list File
}.

Definition spoilered (f : File) : File :=
  mkFile (lit "SPOILER_" ++ f_filename f) (f_from f).

Definition layout_step (nsfw : bool) (st : Layout) (data : UrlEntry)
    : Exn + Layout :=
  if bool_decide (u_type data = lit "upload") then
    let is_image := is_image_url (u_url data) in
    if is_image && negb nsfw && negb (u_spoiler data)
       && bool_decide (lo_image st = None)
    then inr (mkLayout (Some (u_display_url data)) (lo_extra st))
    else
      match u_file data with
      | Some f =>
          inr (mkLayout (lo_image st)
                        (lo_extra st ++ [if nsfw then spoilered f else f]))
      | None => inl KeyError
      end
  else if negb nsfw && bool_decide (lo_image st = None)
  then inr (mkLayout (Some (u_display_url data)) (lo_extra st))
  else inr st.

Fixpoint layout_loop (nsfw : bool) (st : Layout) (urls : list UrlEntry)
    : Exn + Layout :=
  match urls with
  | [] => inr st
  | data :: rest =>
      match layout_step nsfw st data with
      | inl e => inl e
      | inr st' => layout_loop nsfw st' rest
      end
  end.

(** The image and the files [embed_message] returns for a message. *)
Definition embed_layout (nsfw : bool) (attachments : list Attachment)
    (embeds : list EmbedMedia) : Exn + Layout :=
  layout_loop nsfw (mkLayout None []) (collect_urls attachments embeds).

(** An entry that may become the image of the embed, outside NSFW
    channels: an upload with an image name that is not a spoiler, or any
    medium of an embed. *)
Definition may_be_image (data : UrlEntry) : bool :=
  if bool_decide (u_type data = lit "upload")
  then is_image_url (u_url data) && negb (u_spoiler data)
  else true.

(** Whether the entry that becomes the image is an upload. *)
Definition image_is_upload (urls : list UrlEntry) : bool :=
  match List.find may_be_image urls with
  | Some d => bool_decide (u_type d = lit "upload")
  | None => false
  end.

(** ** base_events: command errors and the guild log *)

(** The classes of exception [on_command_error] tells apart; any other
    class is [Other], with its name. *)
Module errors.

Inductive ErrorType : Type :=
  | CommandNotFound
  | AllCommandsDisabled
  | ConversionError
  | DoesNotExist
  | AlreadyExists
  | CommandDisabled
  | MissingRequiredArgument
  | ChannelNotFound
  | RoleNotFound
  | NotOwner
  | CommandOnCooldown
  | Forbidden
  | InvalidArgument
  | ArgumentParsingError
  | Other (name : str).

#[global] Instance ErrorType_eq_dec : EqDecision ErrorType.
Proof. solve_decision. Defined.

(** [e.__class__.__name__] *)
Definition class_name (t : ErrorType) : str :=
  match t with
  | CommandNotFound => lit "CommandNotFound"
  | AllCommandsDisabled => lit "AllCommandsDisabled"
  | ConversionError => lit "ConversionError"
  | DoesNotExist => lit "DoesNotExist"
  | AlreadyExists => lit "AlreadyExists"
  | CommandDisabled => lit "CommandDisabled"
  | MissingRequiredArgument => lit "MissingRequiredArgument"
  | ChannelNotFound => lit "ChannelNotFound"
  | RoleNotFound => lit "RoleNotFound"
  | NotOwner => lit "NotOwner"
  | CommandOnCooldown => lit "CommandOnCooldown"
  | Forbidden => lit "Forbidden"
  | InvalidArgument => lit "InvalidArgument"
  | ArgumentParsingError => lit "ArgumentParsingError"
  | Other name => name
  end.

End errors.

Definition IGNORED_ERRORS : list errors.ErrorType :=
  [errors.CommandNotFound; errors.AllCommandsDisabled].

Definition EXPECTED_ERRORS : list errors.ErrorType :=
  [errors.ConversionError; errors.DoesNotExist; errors.AlreadyExists;
   errors.CommandDisabled; errors.MissingRequiredArgument;
   errors.ChannelNotFound; errors.RoleNotFound; errors.NotOwner;
   errors.CommandOnCooldown; errors.Forbidden; errors.InvalidArgument;
   errors.ArgumentParsingError].

(** An exception, as far as [on_command_error] reads it: its class,
    [str(e)], its traceback [format_tb] joined, and [e.original] where
    the exception has one. *)
Record Error : Type := mkError {
  err_type : errors.ErrorType;
  err_str : str;
  err_tb : str
}.

Inductive Raised : Type :=
  | Plain (e : Error)
  | Wrapping (outer original : Error).

(** [s[i:]] *)
Definition slice_from (s : str) (i : Z) : str :=
  if i <? 0 then drop (Z.to_nat (Z.max 0 (Z.of_nat (length s) + i))) s
  else drop (Z.to_nat i) s.

(** The value of the field of the embed: [full_tb]. *)
Definition full_tb (e tb : str) : str :=
  let full_tb := e ++ [8%N] ++ lit "```" ++ tb ++ lit "```" in
  if 1024 <? Z.of_nat (length full_tb) then
    let to_remove := (Z.of_nat (length full_tb) - 1024) + 10 in
    e ++ nl ++ lit "```..." ++ slice_from tb to_remove ++ lit "```"
  else full_tb.

(** What [on_command_error] does. *)
Inductive Answer : Type :=
  | CtxSendText (text : str)
  | CtxSendEmbed (embed : Embed) (field_name field_value : str)
  | AuthorSendText (text : str)
  | DispatchLogError (title : str) (e : Error).

Definition something_wrong (error_color : str) : Embed :=
  mkEmbed (Some (lit "Something's Not Right")) (Some error_color)
    (lit "Something went wrong while running this command. If the problem persists, please report this in the support server.").

Definition on_command_error (error_color channel_mention : str)
    (raised : Raised) : list Answer :=
  let e := match raised with
           | Wrapping _ original => original
           | Plain e => e
           end in
  if bool_decide (err_type e ∈ IGNORED_ERRORS) then []
  else if bool_decide (err_type e ∈ EXPECTED_ERRORS) then
    [CtxSendText (err_str e)]
  else if bool_decide (err_type e = errors.Forbidden) then
    [AuthorSendText
       (lit "I can't send messages in " ++ channel_mention
        ++ lit ", or I'm missing the `Embed Links` permission there.")]
  else
    [CtxSendEmbed (something_wrong error_color)
       (errors.class_name (err_type e)) (full_tb (err_str e) (err_tb e));
     DispatchLogError (lit "Command Error") e].

(** [self.type_map]: the title and the color of a kind of log. *)
Definition type_map (error_color theme_color : str) (log_type : str)
    : option (str * str) :=
  if bool_decide (log_type = lit "error") then Some (lit "Error", error_color)
  else if bool_decide (log_type = lit "info") then Some (lit "Info", theme_color)
  else None.

(** [on_guild_log message log_type guild]: [log_channel] is the column of
    the row of the guild, and [get_channel] tells which channels the guild
    has; the result is the channel and the embed sent, if any. *)
Definition on_guild_log (error_color theme_color : str)
    (log_channel : option Z) (get_channel : Z → bool)
    (message log_type : str) : Exn + option (Z * Embed) :=
  match log_channel with
  | None => inr None
  | Some c =>
      if negb (get_channel c) then inr None
      else
        match type_map error_color theme_color log_type with
        | None => inl KeyError
        | Some (title, color) =>
            inr (Some (c, mkEmbed (Some title) (Some color) message))
        end
  end.

(** The kinds of log [on_guild_log] has a title for. *)
Definition known_log (e : Event) : Prop :=
  match e with
  | GuildLog _ kind => kind = lit "error"
  | _ => True
  end.

Definition logs_known {A} (m : M A) : Prop :=
  ∀ w, Forall known_log (res_trace (m w)).

(** The exception [on_command_error] looks at: [e.original] where there
    is one. *)
Definition original_of (raised : Raised) : Error :=
  match raised with
  | Wrapping _ original => original
  | Plain e => e
  end.

(** What [on_guild_log] sends for a log of kind ["error"]. *)
Definition error_log_of (error_color : str) (log_channel : option Z)
    (get_channel : Z → bool) (text : str) : option (Z * Embed) :=
  match log_channel with
  | Some c =>
      if get_channel c
      then Some (c, mkEmbed (Some (lit "Error")) (Some error_color) text)
      else None
  | None => None
  end.

(** ** embed_message: the message replied to

    Lines 149 to 201 of [embed_message]: the field for the message the
    source replies to, and the field with the jumps. *)

(** [message.reference.resolved]: [None], a [discord.Message], or a
    [discord.DeletedReferencedMessage]. *)
Inductive Resolved : Type :=
  | Unresolved
  | ResolvedMessage (m : DMessage)
  | DeletedReferencedMessage (guild_id channel_id id : Z).

Record MessageReference : Type := mkMessageReference {
  ref_message_id : Z;
  resolved : Resolved
}.

(** Reading an attribute of [None]. *)
Inductive AttrExn : Type :=
  | AttributeError.

(** The fields the reply adds to the embed: the field with the text of
    the message replied to, if the source is a reply, as its name and its
    value, and the value of the field with the jumps. *)
Record ReplyFields : Type := mkReplyFields {
  rf_reply : option (str * str);
  rf_jumps : str
}.

Definition jump_to_message (message : DMessage) : str :=
  lit "**[Jump to Message](" ++ jump_url message ++ lit ")**".

(** [author_str m] is [str(m.author)]; [guild_id] and [channel_id] are
    those of the source. *)
Definition reply_fields (bot : Bot) (author_str : DMessage → str)
    (guild_id channel_id : Z) (message : DMessage)
    (reference : option MessageReference) : AttrExn + ReplyFields :=
  match reference with
  | None => inr (mkReplyFields None (jump_to_message message))
  | Some reference =>
      (* ref_message, whether it is a discord.Message, ref_author, ref_content *)
      let '(ref_message, ref_author, ref_content) :=
        match resolved reference with
        | Unresolved =>
            match fetch_message bot guild_id channel_id
                    (ref_message_id reference) with
            | None => (Unresolved, None, lit "*Message was deleted*")
            | Some m => (ResolvedMessage m, Some (author_str m), system_content m)
            end
        | ResolvedMessage m =>
            (ResolvedMessage m, Some (author_str m), system_content m)
        | DeletedReferencedMessage g c i =>
            (DeletedReferencedMessage g c i, None, lit "*Message was deleted*")
        end in
      let ref_content :=
        if bool_decide (ref_content = []) then lit "*File Only*"
        else ref_content in
      let field :=
        (lit "Replying to "
         ++ match ref_author with
            | Some a => if bool_decide (a = []) then lit "Unknown" else a
            | None => lit "Unknown"
            end,
         ref_content) in
      match ref_message with
      | ResolvedMessage m =>
          inr (mkReplyFields (Some field)
                 (lit "**[Replying to "
                  ++ match ref_author with Some a => a | None => lit "None" end
                  ++ lit "](" ++ jump_url m ++ lit ")**" ++ nl
                  ++ jump_to_message message))
      | DeletedReferencedMessage g c i =>
          inr (mkReplyFields (Some field)
                 (lit "**[Replying to Unknown (deleted)]"
                  ++ lit "(https://discord.com/channels/" ++ str_of_Z g
                  ++ lit "/" ++ str_of_Z c ++ lit "/" ++ str_of_Z i
                  ++ lit ")**" ++ nl
                  ++ jump_to_message message))
      | Unresolved => inl AttributeError
      end
  end.

(** ** embed_message: the field with the links *)

(** [sep.join(parts)] *)
Fixpoint join (sep : str) (parts : list str) : str :=
  match parts with
  | [] => []
  | [p] => p
  | p :: rest => p ++ sep ++ join sep rest
  end.

Definition link_line (d : UrlEntry) : str :=
  lit "**[" ++ u_name d ++ lit "](" ++ u_url d ++ lit ")**".

(** [to_show]; the field is added when it is not empty. *)
Definition to_show (urls : list UrlEntry) : str :=
  join nl (link_line <$> List.filter u_show_link urls).

Definition links_field (attachments : list Attachment)
    (embeds : list EmbedMedia) : option str :=
  let to_show := to_show (collect_urls attachments embeds) in
  if negb (Z.of_nat (length to_show) =? 0) then Some to_show else None.

(** An embed that is a link to an image, a GIF or a video. *)
Definition is_linked_medium (embed : EmbedMedia) : bool :=
  (bool_decide (md_type embed = lit "image")
   || bool_decide (md_type embed = lit "gifv")
   || bool_decide (md_type embed = lit "video"))
  && bool_decide (is_Some (md_url embed)).

(** ** embed_message: the whole, and the save command *)

(** The attributes of a [discord.Message] that [embed_message] reads
    besides those of [DMessage]: the guild and the channel, whether the
    channel is NSFW, the uploads, the media of the embeds, and the
    reference of a reply. *)
Record Attributes : Type := mkAttributes {
  ma_guild_id : Z;
  ma_channel_id : Z;
  ma_nsfw : bool;
  ma_attachments : list Attachment;
  ma_media : list EmbedMedia;
  ma_reference : option MessageReference
}.

(** What [embed_message] raises: the download of an upload that fails
    ([attachment.to_file()], line 42), [int(color, 16)] on a colour that
    is not hexadecimal (line 145), the reply to a lost message (line
    189), and what the loop over [urls] raises. *)
Inductive EmbedExn : Type :=
  | HTTPException
  | ValueError
  | ReplyError (e : AttrExn)
  | LayoutError (e : Exn).

(** What [embed_message] returns: the embed, with its fields, its image
    and its links, and the files. *)
Record Rendering : Type := mkRendering {
  rg_embed : Embed;
  rg_reply : ReplyFields;
  rg_layout : Layout;
  rg_links : option str
}.

(** [embed_message bot message color], in the order of the source: the
    uploads are downloaded, the description is collected and cut, the
    colour is read, the fields of the reply are added, then the image,
    the files and the links.  [download] tells which uploads the platform
    serves, [py_hex] is [int(_, 16)], [author_str] is [str(m.author)]. *)
Definition embed_message_whole (bot : Bot) (download : Attachment → bool)
    (py_hex : str → option Z) (author_str : DMessage → str)
    (attributes : Attributes) (message : DMessage) (color : option str)
    : EmbedExn + Rendering :=
  if negb (forallb download (ma_attachments attributes)) then inl HTTPException
  else if match color with
          | Some c => negb (bool_decide (is_Some (py_hex c)))
          | None => false
          end
  then inl ValueError
  else
    match reply_fields bot author_str (ma_guild_id attributes)
            (ma_channel_id attributes) message (ma_reference attributes) with
    | inl e => inl (ReplyError e)
    | inr reply =>
        match embed_layout (ma_nsfw attributes) (ma_attachments attributes)
                (ma_media attributes) with
        | inl e => inl (LayoutError e)
        | inr layout =>
            inr (mkRendering (embed_message bot message color) reply layout
                   (links_field (ma_attachments attributes)
                      (ma_media attributes)))
        end
    end.

(** What a command answers: a message in the channel of the command, or
    a rendering in a direct message to the author. *)
Inductive Reply : Type :=
  | CtxSend (text : str)
  | AuthorSend (sent : Rendering).

(** [Fun.save message]: the replies, or what the call raises before any
    reply.  [attributes_of] gives the attributes of a message of the
    platform, and [can_dm] tells whether the author accepts direct
    messages ([discord.Forbidden] otherwise). *)
Definition save (bot : Bot) (download : Attachment → bool)
    (py_hex : str → option Z) (author_str : DMessage → str)
    (attributes_of : DMessage → Attributes) (can_dm : bool)
    (message : DMessage) (w : World) : EmbedExn + list Reply :=
  let send m :=
    match embed_message_whole bot download py_hex author_str
            (attributes_of m) m None with
    | inl e => inl e
    | inr sent =>
        if can_dm then inr [AuthorSend sent]
        else inr [CtxSend (lit "I can't DM you, so you can't save that message.")]
    end in
  match orig_message w (dm_id message) with
  | Some orig_sql_message =>
      if trashed orig_sql_message
      then inr [CtxSend (lit "You cannot save a trashed message")]
      else
        match fetch_message bot (m_guild_id orig_sql_message)
                (m_channel_id orig_sql_message) (m_id orig_sql_message) with
        | None =>
            inr [CtxSend (lit "That message was deleted, so you can't save it.")]
        | Some orig_message => send orig_message
        end
  | None => send message
  end.

(** The message [save] renders, if it gets that far: the source of a
    stored message, unless it is trashed or the cache does not resolve
    it, and the message itself when it is not stored. *)
Definition saved_message (bot : Bot) (w : World) (message : DMessage)
    : option DMessage :=
  match orig_message w (dm_id message) with
  | Some o =>
      if trashed o then None
      else fetch_message bot (m_guild_id o) (m_channel_id o) (m_id o)
  | None => Some message
  end.

(** * Properties *)

(** Traces are compared with their appends to the right. *)
Ltac norm_trace :=
  rewrite ?app_nil_r;
  repeat first [rewrite <- app_assoc | rewrite <- app_comm_cons
               | progress cbn [app]].

(** A property of every event of a trace that is written out. *)
Ltac solve_listed :=
  repeat (apply Forall_cons_2; [simpl; tauto|]); apply Forall_nil_2.

(** ** calculate_points *)

Lemma count_votes_spec message starboard reactions rows used points :
  (∀ ru, ru ∈ rows → is_Some (reactions !! ru_reaction_id ru)) →
  count_votes message starboard reactions rows used points
  = inr (points + Z.of_nat (size (counted message starboard reactions rows ∖ used))).
Proof.
  revert used points.
  induction rows as [|ru rows IH]; intros used points Hdom.
  { simpl. unfold counted. simpl.
    replace ((∅ : gset Z) ∖ used) with (∅ : gset Z) by set_solver.
    rewrite size_empty. f_equal. lia. }
  assert (Hrest : ∀ r, r ∈ rows → is_Some (reactions !! ru_reaction_id r))
    by (intros r Hr; apply Hdom; by right).
  destruct (Hdom ru) as [emoji Hemoji]; [by left|].
  assert (Hskip : ∀ used', ru_user_id ru ∈ used' ∨ ¬ counts message starboard reactions ru →
            counted message starboard reactions (ru :: rows) ∖ used'
            = counted message starboard reactions rows ∖ used').
  { intros used' Hc. unfold counted. rewrite filter_cons.
    destruct (decide (counts message starboard reactions ru)); [|done].
    destruct Hc; [|done]. rewrite fmap_cons, list_to_set_cons. set_solver. }
  simpl. case_bool_decide as Hused.
  { rewrite IH by done. rewrite Hskip by (by left). done. }
  rewrite Hemoji. case_bool_decide as Hstar; simpl.
  2:{ rewrite IH by done. rewrite Hskip; [done|].
      right. intros (e & He & ? & _). congruence. }
  destruct (negb (self_star starboard)
            && bool_decide (Some (ru_user_id ru) = m_author_id message))
    eqn:Hself.
  { rewrite IH by done. rewrite Hskip; [done|].
    right. intros (e & _ & _ & Hne).
    apply andb_true_iff in Hself as [Hs Ha].
    apply negb_true_iff in Hs. apply bool_decide_eq_true in Ha.
    by apply Hne. }
  rewrite IH by done.
  assert (Hc : counts message starboard reactions ru).
  { exists emoji. split_and!; [done..|].
    intros Hs Ha. rewrite Hs in Hself. simpl in Hself.
    apply bool_decide_eq_false in Hself. by apply Hself. }
  assert (Heq : counted message starboard reactions (ru :: rows) ∖ used
                = {[ru_user_id ru]}
                  ∪ counted message starboard reactions rows ∖ ({[ru_user_id ru]} ∪ used)).
  { unfold counted. rewrite filter_cons.
    destruct (decide (counts message starboard reactions ru)); [|done].
    rewrite fmap_cons, list_to_set_cons.
    apply set_eq. intros x. set_unfold.
    destruct (decide (x = ru_user_id ru)); naive_solver. }
  rewrite Heq.
  rewrite (size_union (C:=gset Z) {[ru_user_id ru]}) by set_solver.
  rewrite size_singleton. f_equal. lia.
Qed.

Lemma elem_of_counted message starboard reactions rows u :
  u ∈ counted message starboard reactions rows
  ↔ ∃ ru, ru ∈ rows ∧ ru_user_id ru = u ∧ counts message starboard reactions ru.
Proof.
  unfold counted. rewrite elem_of_list_to_set, list_elem_of_fmap.
  split.
  - intros (ru & -> & Hru). apply list_elem_of_filter in Hru. naive_solver.
  - intros (ru & Hru & <- & Hc). exists ru. split; [done|].
    by apply list_elem_of_filter.
Qed.

(** The dictionary of the loop holds the emoji of every selected row. *)
Lemma foldl_dict_lookup (rows : list (Z * Reaction)) (d : gmap Z str) k :
  NoDup rows.*1 →
  foldl (λ d kr, <[kr.1 := r_emoji kr.2]> d) d rows !! k
  = match (list_to_map rows : gmap Z Reaction) !! k with
    | Some r => Some (r_emoji r)
    | None => d !! k
    end.
Proof.
  revert d. induction rows as [|[i r] rows IH]; intros d Hnd; [done|].
  simpl in *. apply NoDup_cons in Hnd as [Hi Hnd]. rewrite IH by done.
  destruct (decide (i = k)) as [->|Hne].
  - rewrite lookup_insert_eq.
    rewrite (not_elem_of_list_to_map_1 _ k) by done.
    by rewrite lookup_insert_eq.
  - rewrite !lookup_insert_ne by done. done.
Qed.

Lemma reactions_dict_lookup (m : gmap Z Reaction) mid k :
  reactions_dict (filter (λ kr, r_message_id kr.2 = mid) (map_to_list m)) !! k
  = match m !! k with
    | Some r => if decide (r_message_id r = mid) then Some (r_emoji r) else None
    | None => None
    end.
Proof.
  set (rows := filter _ _).
  assert (Hnd : NoDup rows.*1).
  { eapply NoDup_fmap_fst.
    - intros i x y Hx Hy.
      apply list_elem_of_filter in Hx as [_ Hx], Hy as [_ Hy].
      apply elem_of_map_to_list in Hx, Hy. congruence.
    - apply NoDup_filter, NoDup_map_to_list. }
  unfold reactions_dict. rewrite foldl_dict_lookup by done.
  rewrite lookup_empty.
  destruct (list_to_map rows !! k) as [r|] eqn:Hl.
  - apply elem_of_list_to_map in Hl; [|done].
    apply list_elem_of_filter in Hl as [Hmid Hin]. simpl in Hmid.
    apply elem_of_map_to_list in Hin. rewrite Hin.
    by destruct (decide _).
  - destruct (m !! k) as [r|] eqn:Hm; [|done].
    destruct (decide _) as [Hmid|]; [|done].
    apply not_elem_of_list_to_map in Hl. exfalso. apply Hl.
    apply list_elem_of_fmap. exists (k, r). split; [done|].
    apply list_elem_of_filter. split; [done|]. by apply elem_of_map_to_list.
Qed.

Lemma calculate_points_run message starboard w :
  let rows := filter (λ kr, r_message_id kr.2 = m_id message)
                     (map_to_list (w_reactions w)) in
  let users := filter (λ ru, ru_reaction_id ru ∈ rows.*1) (w_reaction_users w) in
  calculate_points message starboard w
  = mkRes w [Db (SelectReactions (m_id message));
             Db (SelectReactionUsers rows.*1)]
          (count_votes message starboard (reactions_dict rows) users ∅ 0).
Proof. reflexivity. Qed.

Lemma selected_reaction (m : gmap Z Reaction) mid k :
  k ∈ (filter (λ kr, r_message_id kr.2 = mid) (map_to_list m)).*1
  ↔ ∃ r, m !! k = Some r ∧ r_message_id r = mid.
Proof.
  rewrite list_elem_of_fmap. split.
  - intros ([k' r] & -> & Hin). apply list_elem_of_filter in Hin as [Hmid Hin].
    apply elem_of_map_to_list in Hin. by exists r.
  - intros (r & Hm & Hmid). exists (k, r). split; [done|].
    apply list_elem_of_filter. split; [done|]. by apply elem_of_map_to_list.
Qed.

Lemma calculate_points_voters w message starboard :
  ∃ (voters : gset Z) (points : Z),
    (∀ u, u ∈ voters ↔ voter w message starboard u)
    ∧ res_val (calculate_points message starboard w) = inr points
    ∧ points = Z.of_nat (size voters)
    ∧ 0 ≤ points
    ∧ res_world (calculate_points message starboard w) = w.
Proof.
  rewrite calculate_points_run. simpl.
  set (rows := filter _ (map_to_list (w_reactions w))).
  set (users := filter _ (w_reaction_users w)).
  set (dict := reactions_dict rows).
  exists (counted message starboard dict users), (Z.of_nat (size (counted message starboard dict users))).
  split_and!; [| |done|lia|done].
  - intros u. rewrite elem_of_counted. unfold voter, counts. split.
    + intros (ru & Hru & <- & e & He & Hstar & Hself).
      apply list_elem_of_filter in Hru as [Hsel Hru].
      unfold dict, rows in He. rewrite reactions_dict_lookup in He.
      destruct (w_reactions w !! ru_reaction_id ru) as [r|] eqn:Hr; [|done].
      destruct (decide _) as [Hmid|]; [|done]. injection He as <-.
      by exists ru, r.
    + intros (ru & r & Hru & <- & Hr & Hmid & Hstar & Hself).
      exists ru. split_and!; [|done|].
      * apply list_elem_of_filter. split; [|done].
        apply selected_reaction. by exists r.
      * exists (r_emoji r). split_and!; [|done..].
        unfold dict, rows. rewrite reactions_dict_lookup, Hr.
        by rewrite decide_True.
  - rewrite count_votes_spec.
    + f_equal. rewrite difference_empty_L. lia.
    + intros ru Hru. apply list_elem_of_filter in Hru as [Hsel _].
      apply selected_reaction in Hsel as (r & Hr & Hmid).
      unfold dict, rows. rewrite reactions_dict_lookup, Hr.
      by rewrite decide_True.
Qed.

(** C4: [calculate_points] returns the number of distinct users that have
    a reaction of the message whose emoji is one of the starboard's
    [star_emojis], the author left out when [self_star] is false; the
    result is a non-negative integer, the world is left as it was, and on
    scenario A (author U and users A, B, C all reacting with the star,
    [self_star] false) it is 3. *)
Theorem calculate_points_counts_distinct_voters :
  (∀ w message starboard,
     ∃ (voters : gset Z) (points : Z),
       (∀ u, u ∈ voters ↔ voter w message starboard u)
       ∧ res_val (calculate_points message starboard w) = inr points
       ∧ points = Z.of_nat (size voters)
       ∧ 0 ≤ points
       ∧ res_world (calculate_points message starboard w) = w)
  ∧ res_val (calculate_points scenario_A_message scenario_A_starboard
                              scenario_A_world) = inr 3.
Proof.
  split; [|by vm_compute].
  intros w message starboard. apply calculate_points_voters.
Qed.

(** ** The eligibility decision *)

Lemma pure_run_ret {A} (a : A) : pure_run (ret a) [] a.
Proof. by intros w. Qed.

Lemma pure_run_bind {A B} (m : M A) (f : A → M B) t a t' b :
  pure_run m t a → pure_run (f a) t' b → pure_run (bind m f) (t ++ t') b.
Proof.
  intros Hm Hf w. unfold bind. cbv zeta. rewrite (Hm w). cbn.
  rewrite (Hf w). reflexivity.
Qed.

Lemma unmarked_with_add_delete a d fl :
  unmarked fl → unmarked (with_add_delete a d fl).
Proof. by intros [??]. Qed.

Lemma rule_thresholds_unmarked sb points fl :
  unmarked fl → unmarked (rule_thresholds sb points fl).
Proof.
  intros H. unfold rule_thresholds.
  repeat case_match; auto using unmarked_with_add_delete.
Qed.

Lemma rule_bots_run sb a fl :
  pure_run (rule_bots sb (Some a) fl) []
           (if negb (allow_bots sb) && is_bot a
            then with_add_delete false true fl else fl).
Proof.
  intros w. unfold rule_bots, subscript_is_bot.
  destruct (allow_bots sb), (is_bot a); reflexivity.
Qed.

Lemma try_regex_run bot pattern m :
  pure_run (try_regex bot pattern m)
           (match safe_regex bot (system_content m) pattern with
            | Some _ => []
            | None => [GuildLog (regex_timeout_text pattern (jump_url m))
                                (lit "error")]
            end)
           (safe_regex bot (system_content m) pattern).
Proof.
  intros w. unfold try_regex.
  by destruct (safe_regex bot (system_content m) pattern) as [[|]|].
Qed.

Lemma regex_log_is_log bot pattern m : Forall is_log (regex_log bot pattern m).
Proof. unfold regex_log. repeat case_match; repeat constructor. Qed.

Lemma rule_regex_run bot sb m fl :
  pure_run (rule_regex bot sb m fl) (regex_log bot (regex sb) m)
    (if negb (bool_decide (regex sb = []))
        && bool_decide (safe_regex bot (system_content m) (regex sb) = Some false)
     then with_add_delete false true fl else fl).
Proof.
  intros w. unfold rule_regex, regex_log, bind. destruct (negb _); [|done].
  cbv zeta. rewrite (try_regex_run bot (regex sb) m w). cbn.
  by rewrite app_nil_r.
Qed.

Lemma rule_exclude_regex_run bot sb m fl :
  pure_run (rule_exclude_regex bot sb m fl) (regex_log bot (exclude_regex sb) m)
    (if negb (bool_decide (exclude_regex sb = []))
        && bool_decide (safe_regex bot (system_content m) (exclude_regex sb)
                        = Some true)
     then with_add_delete false true fl else fl).
Proof.
  intros w. unfold rule_exclude_regex, regex_log, bind. destruct (negb _); [|done].
  cbv zeta. rewrite (try_regex_run bot (exclude_regex sb) m w). cbn.
  by rewrite app_nil_r.
Qed.

Lemma decision_log_is_log bot sb message : Forall is_log (decision_log bot sb message).
Proof.
  destruct message; [|constructor].
  apply Forall_app; split; apply regex_log_is_log.
Qed.

Lemma flags_before_regex_unmarked sb msg a points message :
  unmarked (flags_before_regex sb msg a points message).
Proof.
  assert (H1 : unmarked (rule_thresholds sb points (mkFlags false false false false)))
    by (by apply rule_thresholds_unmarked).
  unfold flags_before_regex, rule_nsfw, rule_link_deletes.
  repeat case_match; auto using unmarked_with_add_delete.
Qed.

Lemma regex_flags_unmarked bot sb message fl :
  unmarked fl → unmarked (regex_flags bot sb message fl).
Proof.
  intros H. unfold regex_flags. destruct message; [|done].
  repeat case_match; auto using unmarked_with_add_delete.
Qed.

(** With an author row at hand the decision is always reached, reads
    nothing of the world and leaves it alone. *)
Lemma evaluate_run bot sb msg a points message :
  pure_run (evaluate bot sb msg (Some a) points message)
           (decision_log bot sb message)
           (decision bot sb msg a points message).
Proof.
  intros w. unfold evaluate, bind. cbv zeta.
  rewrite (rule_bots_run sb a _ w).
  simpl res_val. simpl res_world. cbv beta iota.
  destruct message as [m|]; [|reflexivity].
  rewrite (rule_regex_run bot sb m _ w).
  simpl res_val. simpl res_world. cbv beta iota.
  rewrite (rule_exclude_regex_run bot sb m _ w). cbn.
  rewrite ?app_nil_r. reflexivity.
Qed.

Lemma decision_frozen_mark bot sb msg a points message :
  fl_frozen (decision bot sb msg a points message) = frozen msg.
Proof.
  pose proof (regex_flags_unmarked bot sb message _
                (flags_before_regex_unmarked sb msg a points message)) as [_ H].
  unfold decision, rule_forced, rule_frozen.
  destruct (frozen msg), (bool_decide _); simpl; congruence.
Qed.

(** C5: a message forced onto the starboard is decided [add], not
    [delete], [forced], whatever the earlier rules and the freeze said. *)
Theorem forced_overrides_all bot sb msg a points message w :
  sb_id sb ∈ forced msg →
  evaluate bot sb msg (Some a) points message w
  = mkRes w (res_trace (evaluate bot sb msg (Some a) points message w))
          (inr (mkFlags true false true (frozen msg))).
Proof.
  intros Hforced. rewrite (evaluate_run bot sb msg a points message w). simpl.
  f_equal. f_equal.
  rewrite <- (decision_frozen_mark bot sb msg a points message).
  unfold decision, rule_forced. by rewrite bool_decide_eq_true_2.
Qed.

(** C1, as stated, fails: with [required = 3 <= points = 5 <= 10 =
    required_remove] and no later rule firing the decision is [add] and
    not [delete]. *)
Lemma tie_favors_removal_counterexample :
  required tie_starboard ≤ 5 ∧ 5 ≤ required_remove tie_starboard
  ∧ no_later_rule quiet_bot tie_starboard scenario_A_message human (Some live_100)
  ∧ res_val (evaluate quiet_bot tie_starboard scenario_A_message (Some human) 5
                      (Some live_100) scenario_A_world)
    = inr (mkFlags true false false false)
  ∧ ¬ ∃ fl, res_val (evaluate quiet_bot tie_starboard scenario_A_message
                              (Some human) 5 (Some live_100) scenario_A_world)
            = inr fl
            ∧ fl_delete fl = true ∧ fl_add fl = false.
Proof.
  split_and!; [done|done| |done|].
  - unfold no_later_rule. simpl. split_and!; try done; try by intros [??].
    by intros H%elem_of_nil.
  - intros (fl & [= <-] & H & _). done.
Qed.

(** C1, amended: when [points >= required] and [points <= required_remove]
    both hold and no later rule fires, the thresholds rule decides for
    addition: [add] is true and [delete] is false. *)
Theorem tie_favors_addition bot sb msg a points message w :
  required sb ≤ points →
  points ≤ required_remove sb →
  no_later_rule bot sb msg a message →
  evaluate bot sb msg (Some a) points message w
  = mkRes w (decision_log bot sb message) (inr (mkFlags true false false false)).
Proof.
  intros Hreq Hrem (Hb & Hl & Hn & Hrx & Hex & Hfz & Hfo).
  rewrite (evaluate_run bot sb msg a points message w). f_equal. f_equal.
  assert (Eb : negb (allow_bots sb) && is_bot a = false)
    by (destruct (allow_bots sb), (is_bot a); simpl; tauto).
  assert (El : link_deletes sb && bool_decide (message = None) = false).
  { destruct (link_deletes sb); [|done]. simpl.
    apply bool_decide_eq_false. tauto. }
  assert (En : is_nsfw msg && negb (allow_nsfw sb) = false)
    by (destruct (is_nsfw msg), (allow_nsfw sb); simpl; tauto).
  unfold decision, rule_forced, rule_frozen.
  rewrite Hfz, (bool_decide_eq_false_2 _ Hfo).
  assert (E0 : flags_before_regex sb msg a points message
               = mkFlags true false false false).
  { unfold flags_before_regex, rule_nsfw, rule_link_deletes, rule_thresholds.
    rewrite Eb, El, En. by rewrite (proj2 (Z.leb_le _ _) Hreq). }
  rewrite E0. unfold regex_flags. destruct message as [m|]; [|done].
  assert (Erx : negb (bool_decide (regex sb = []))
                && bool_decide (safe_regex bot (system_content m) (regex sb)
                                = Some false) = false).
  { destruct (decide (regex sb = [])) as [Hp|Hp].
    - by rewrite (bool_decide_eq_true_2 _ Hp).
    - rewrite (bool_decide_eq_false_2 _ Hp). simpl.
      apply bool_decide_eq_false. by apply Hrx. }
  assert (Eex : negb (bool_decide (exclude_regex sb = []))
                && bool_decide (safe_regex bot (system_content m) (exclude_regex sb)
                                = Some true) = false).
  { destruct (decide (exclude_regex sb = [])) as [Hp|Hp].
    - by rewrite (bool_decide_eq_true_2 _ Hp).
    - rewrite (bool_decide_eq_false_2 _ Hp). simpl.
      apply bool_decide_eq_false. by apply Hex. }
  cbv zeta. by rewrite Erx, Eex.
Qed.

Lemma tie_favors_addition_witness :
  (required tie_starboard ≤ 5
   ∧ 5 ≤ required_remove tie_starboard
   ∧ no_later_rule quiet_bot tie_starboard scenario_A_message human (Some live_100))
  ∧ evaluate quiet_bot tie_starboard scenario_A_message (Some human) 5
           (Some live_100) scenario_A_world
  = mkRes scenario_A_world
          (decision_log quiet_bot tie_starboard (Some live_100))
          (inr (mkFlags true false false false)).
Proof.
  assert (H : no_later_rule quiet_bot tie_starboard scenario_A_message human
                            (Some live_100)).
  { unfold no_later_rule. simpl. split_and!; try done; try by intros [??].
    by intros H%elem_of_nil. }
  split; [split_and!; [simpl; lia|simpl; lia|exact H]|].
  apply (tie_favors_addition quiet_bot tie_starboard scenario_A_message human 5
           (Some live_100) scenario_A_world); [simpl; lia|simpl; lia|exact H].
Defined.

Lemma forced_overrides_all_witness :
  sb_id scenario_A_starboard ∈ forced forced_frozen_message
  ∧ evaluate quiet_bot scenario_A_starboard forced_frozen_message (Some human) 0
           None scenario_A_world
  = mkRes scenario_A_world [] (inr (mkFlags true false true true)).
Proof.
  split; [simpl; apply list_elem_of_here|].
  apply (forced_overrides_all quiet_bot scenario_A_starboard forced_frozen_message
           human 0 None scenario_A_world).
  simpl. apply list_elem_of_here.
Defined.

(** ** Regex timeouts *)

(** C2, as stated, fails: with both patterns set and the guard timing out
    on both, a message over the threshold is still decided [add] and not
    [delete]; the two timeouts are logged. *)
Lemma regex_timeout_fail_closed_counterexample :
  regex regex_starboard ≠ [] ∧ exclude_regex regex_starboard ≠ []
  ∧ safe_regex slow_bot (system_content live_100) (regex regex_starboard) = None
  ∧ safe_regex slow_bot (system_content live_100) (exclude_regex regex_starboard)
    = None
  ∧ evaluate slow_bot regex_starboard scenario_A_message (Some human) 5
             (Some live_100) scenario_A_world
    = mkRes scenario_A_world
        [GuildLog (regex_timeout_text (regex regex_starboard) (jump_url live_100))
                  (lit "error");
         GuildLog (regex_timeout_text (exclude_regex regex_starboard)
                                      (jump_url live_100))
                  (lit "error")]
        (inr (mkFlags true false false false))
  ∧ ¬ ∃ fl, res_val (evaluate slow_bot regex_starboard scenario_A_message
                              (Some human) 5 (Some live_100) scenario_A_world)
            = inr fl
            ∧ fl_add fl = false ∧ fl_delete fl = true.
Proof.
  split_and!; [done..|].
  intros (fl & [= <-] & H & _). done.
Qed.

(** C2, amended: when each pattern that is set times out on the live
    message, the decision is the one rules 1 to 4, 7 and 8 make without
    the regex rules (a timeout forces neither [add=false] nor
    [delete=true]), one [guild_log] entry is emitted per pattern that
    timed out, and the entry names the pattern and the message. *)
Theorem regex_timeout_is_neutral bot sb msg a points m w :
  (regex sb = [] ∨ safe_regex bot (system_content m) (regex sb) = None) →
  (exclude_regex sb = []
   ∨ safe_regex bot (system_content m) (exclude_regex sb) = None) →
  evaluate bot sb msg (Some a) points (Some m) w
  = mkRes w
      ((if bool_decide (regex sb = []) then []
        else [GuildLog (regex_timeout_text (regex sb) (jump_url m)) (lit "error")])
       ++ (if bool_decide (exclude_regex sb = []) then []
           else [GuildLog (regex_timeout_text (exclude_regex sb) (jump_url m))
                          (lit "error")]))
      (inr (rule_forced sb msg
              (rule_frozen msg (flags_before_regex sb msg a points (Some m)))))
  ∧ ∀ pattern jump, ∃ pre mid post,
      regex_timeout_text pattern jump = pre ++ pattern ++ mid ++ jump ++ post.
Proof.
  intros Hrx Hex. split.
  - rewrite (evaluate_run bot sb msg a points (Some m) w).
    unfold decision, decision_log, regex_flags, regex_log. f_equal.
    + f_equal.
      * destruct (decide (regex sb = [])) as [Hp|Hp].
        -- by rewrite (bool_decide_eq_true_2 _ Hp).
        -- rewrite (bool_decide_eq_false_2 _ Hp). simpl.
           destruct Hrx as [? | ->]; done.
      * destruct (decide (exclude_regex sb = [])) as [Hp|Hp].
        -- by rewrite (bool_decide_eq_true_2 _ Hp).
        -- rewrite (bool_decide_eq_false_2 _ Hp). simpl.
           destruct Hex as [? | ->]; done.
    + do 3 f_equal. cbv zeta.
      assert (E1 : negb (bool_decide (regex sb = []))
                   && bool_decide (safe_regex bot (system_content m) (regex sb)
                                   = Some false) = false).
      { destruct Hrx as [Hp | ->]; [by rewrite (bool_decide_eq_true_2 _ Hp)|].
        rewrite (bool_decide_eq_false_2 (None = Some false)) by done.
        apply andb_false_r. }
      assert (E2 : negb (bool_decide (exclude_regex sb = []))
                   && bool_decide (safe_regex bot (system_content m)
                                              (exclude_regex sb) = Some true)
                   = false).
      { destruct Hex as [Hp | ->]; [by rewrite (bool_decide_eq_true_2 _ Hp)|].
        rewrite (bool_decide_eq_false_2 (None = Some true)) by done.
        apply andb_false_r. }
      by rewrite E1, E2.
  - intros pattern jump. unfold regex_timeout_text.
    by eexists _, _, _.
Qed.

Lemma regex_timeout_is_neutral_witness :
  ((regex regex_starboard = []
    ∨ safe_regex slow_bot (system_content live_100) (regex regex_starboard) = None)
   ∧ (exclude_regex regex_starboard = []
      ∨ safe_regex slow_bot (system_content live_100)
                   (exclude_regex regex_starboard) = None))
  ∧ res_val (evaluate slow_bot regex_starboard scenario_A_message (Some human) 5
                      (Some live_100) scenario_A_world)
    = inr (mkFlags true false false false).
Proof.
  split; [split; right; reflexivity|].
  destruct (regex_timeout_is_neutral slow_bot regex_starboard scenario_A_message
              human 5 live_100 scenario_A_world) as [H _];
    [right; reflexivity|right; reflexivity|].
  rewrite H. reflexivity.
Defined.

(** ** The points of a pass *)

(** C6: the pass uses the points cached on the link exactly when the
    message is frozen and a link exists; in every other case it runs
    [calculate_points], whose first query tells the two apart. *)
Theorem frozen_link_uses_cached_points sb msg link w :
  pass_points sb msg link w
  = match link with
    | Some l =>
        if frozen msg then mkRes w [] (inr (sm_points l))
        else calculate_points msg sb w
    | None => calculate_points msg sb w
    end
  ∧ (Db (SelectReactions (m_id msg)) ∈ res_trace (pass_points sb msg link w)
     ↔ ¬ (frozen msg = true ∧ is_Some link)).
Proof.
  assert (Hcalc : Db (SelectReactions (m_id msg))
                  ∈ res_trace (calculate_points msg sb w))
    by (rewrite calculate_points_run; apply list_elem_of_here).
  unfold pass_points. destruct link as [l|], (frozen msg); cbn [negb orb].
  - rewrite (bool_decide_eq_false_2 (Some l = None)) by done.
    split; [done|]. split.
    + by intros H%elem_of_nil.
    + intros H. exfalso. apply H. by split; [|exists l].
  - split; [done|]. split; [by intros _ [? _]|done].
  - rewrite (bool_decide_eq_true_2 (None = None)) by done.
    split; [done|]. split; [|done]. intros _ [_ [? ?]]. done.
  - split; [done|]. split; [by intros _ [? _]|done].
Qed.

(** ** The description of the embed *)

Lemma py_slice_to_back (content : str) (k : Z) :
  0 < k → k ≤ Z.of_nat (length content) →
  py_slice_to (- k) content = take (length content - Z.to_nat k) content.
Proof.
  intros Hk Hle. unfold py_slice_to.
  rewrite (proj2 (Z.ltb_lt _ _)) by lia. f_equal. lia.
Qed.

Lemma truncate_content_spec content :
  truncate_content content
  = if 2048 <? Z.of_nat (length content) then take 2044 content else content.
Proof.
  unfold truncate_content. destruct (2048 <? _) eqn:Hlen; [|done].
  apply Z.ltb_lt in Hlen. rewrite length_app. simpl (length (lit _)).
  rewrite py_slice_to_back by lia. f_equal. lia.
Qed.

(** C10: the description of the embed is at most 2048 code points long;
    a content longer than that is cut to its first 2044 code points, to
    which nothing is appended. *)
Theorem description_within_limit bot message color :
  let content := embed_content bot message in
  let description := e_description (embed_message bot message color) in
  (length description ≤ 2048)%nat
  ∧ description
    = (if 2048 <? Z.of_nat (length content) then take 2044 content else content)
  ∧ (if 2048 <? Z.of_nat (length content)
     then length description = 2044%nat
     else description = content).
Proof.
  intros content description. unfold description, embed_message. simpl.
  fold content. rewrite truncate_content_spec.
  destruct (2048 <? _) eqn:Hlen.
  - apply Z.ltb_lt in Hlen. rewrite length_take. split_and!; [lia|done|lia].
  - apply Z.ltb_ge in Hlen. split_and!; [lia|done|done].
Qed.

(** ** Running handle_starboard *)

Lemma bind_run {A B} (m : M A) (f : A → M B) w w' t a :
  m w = mkRes w' t (inr a) →
  bind m f w = mkRes (res_world (f a w')) (t ++ res_trace (f a w'))
                     (res_val (f a w')).
Proof. intros H. unfold bind. cbv zeta. rewrite H. reflexivity. Qed.

Lemma res_eta {A} (r : Res A) :
  r = mkRes (res_world r) (res_trace r) (res_val r).
Proof. by destruct r. Qed.

Lemma calculate_points_total msg sb w :
  ∃ p, calculate_points msg sb w
       = mkRes w (res_trace (calculate_points msg sb w)) (inr p).
Proof.
  destruct (calculate_points_voters w msg sb) as (_ & p & _ & Hv & _ & _ & Hw).
  exists p. rewrite (res_eta (calculate_points msg sb w)) at 1.
  by rewrite Hv, Hw.
Qed.

Lemma pass_points_run sb msg w :
  pass_points sb msg (pass_link sb msg w) w
  = mkRes w (res_trace (pass_points sb msg (pass_link sb msg w) w))
          (inr (points_of sb msg w)).
Proof.
  unfold points_of. generalize (pass_link sb msg w). intros link.
  unfold pass_points.
  destruct (calculate_points_total msg sb w) as [p Hp].
  destruct (negb (frozen msg) || bool_decide (link = None)) eqn:E.
  - rewrite Hp at 1. by rewrite Hp.
  - destruct link as [l|]; [done|].
    rewrite (bool_decide_eq_true_2 (None = None)), orb_true_r in E; done.
Qed.

Lemma fetchrow_link_run orig sb w :
  fetchrow_link orig sb w
  = mkRes w [Db (SelectLink orig sb)]
          (inr (List.find (link_of orig sb) (w_starboard_messages w))).
Proof. reflexivity. Qed.

Lemma set_points_run points i w :
  set_points points i w
  = mkRes (set_links (update_points points i) w) [Db (UpdatePoints points i)]
          (inr tt).
Proof. reflexivity. Qed.

Lemma delete_link_run (i : Z) (w : World) :
  delete_link i w
  = mkRes (set_links (delete_rows i) w) [Db (DeleteLink i)] (inr tt).
Proof. reflexivity. Qed.

Lemma create_starboard_message_run i orig sb w :
  create_starboard_message i orig sb w
  = mkRes (set_links (λ rows, rows ++ [mkSbMessage i orig sb 0]) w)
          [Db (InsertLink i orig sb)] (inr tt).
Proof. reflexivity. Qed.

Lemma remote_edit_run i text embed w :
  remote_edit i text embed w
  = mkRes (set_remote (alter (edit_mirror text embed) i) w)
          [Remote (EditMessage i text embed)] (inr tt).
Proof. reflexivity. Qed.

Lemma remote_delete_run (i : Z) (w : World) :
  remote_delete i w
  = mkRes (set_remote (delete i) w) [Remote (DeleteMessage i)] (inr tt).
Proof. reflexivity. Qed.

Lemma remote_send_run channel text embed w :
  remote_send channel text embed w
  = if w_can_send w
    then mkRes (bump_next_id
                  (set_remote <[w_next_id w := mkMirror channel text embed []]> w))
               [Remote (SendMessage channel text embed)] (inr (Some (w_next_id w)))
    else mkRes w [Remote (SendMessage channel text embed)] (inr None).
Proof. unfold remote_send, bind, emit, get_world. simpl. by destruct (w_can_send w). Qed.

Lemma resolve_mirror_run bot msg link w :
  resolve_mirror bot msg link w
  = mkRes (match link with
           | Some l =>
               match mirror_of bot msg (Some l) with
               | None => set_links (delete_rows (sm_id l)) w
               | Some _ => w
               end
           | None => w
           end)
          (match link with
           | Some l =>
               match mirror_of bot msg (Some l) with
               | None => [Db (DeleteLink (sm_id l))]
               | Some _ => []
               end
           | None => []
           end)
          (inr (mirror_of bot msg link)).
Proof.
  unfold resolve_mirror, mirror_of. destruct link as [l|]; [|done].
  by destruct (fetch_message bot _ _ _).
Qed.

Lemma handle_starboard_run bot sb msg a w :
  let p := points_of sb msg w in
  let message := source_of bot msg in
  let r := transition bot sb msg p (decision bot sb msg a p message) message
                      (mirror_of bot msg (pass_link sb msg w))
                      (before_transition bot sb msg w) in
  handle_starboard bot sb msg (Some a) w
  = mkRes (res_world r) (before_transition_trace bot sb msg w ++ res_trace r)
          (res_val r).
Proof.
  intros p message r. unfold handle_starboard.
  erewrite bind_run by apply fetchrow_link_run. fold (pass_link sb msg w).
  erewrite bind_run by apply pass_points_run. fold p.
  erewrite (bind_run _ _ w
              (match pass_link sb msg w with
               | Some l => set_links (update_points p (sm_id l)) w
               | None => w
               end)
              (match pass_link sb msg w with
               | Some l => [Db (UpdatePoints p (sm_id l))]
               | None => []
               end) tt)
    by (by destruct (pass_link sb msg w)).
  erewrite bind_run by apply (evaluate_run bot sb msg a p).
  erewrite bind_run by apply resolve_mirror_run.
  cbn [res_world res_trace res_val].
  unfold before_transition_trace, before_transition in *. fold p. fold message.
  subst r. destruct (pass_link sb msg w) as [l|]; cbv zeta.
  - destruct (mirror_of bot msg (Some l)); norm_trace; reflexivity.
  - norm_trace. reflexivity.
Qed.

(** ** Creating a mirror *)

Lemma set_remote_alter_id n w : set_remote (alter (λ x, x) n) w = w.
Proof. destruct w. unfold set_remote. simpl. f_equal. by apply alter_id. Qed.

Lemma set_remote_alter_alter g1 g2 n w :
  set_remote (alter g2 n) (set_remote (alter g1 n) w)
  = set_remote (alter (g2 ∘ g1) n) w.
Proof. unfold set_remote. simpl. f_equal. by rewrite alter_alter_eq. Qed.

Lemma autoreact_one_run bot sb n emoji w :
  autoreact_one bot sb n emoji w
  = match reaction_emoji bot w emoji with
    | None => mkRes w [] (inl InvalidArgument)
    | Some e =>
        if w_can_react w
        then mkRes (set_remote (alter (react_mirror e) n) w)
                   [Remote (AddReaction n (Some e))] (inr tt)
        else mkRes w [Remote (AddReaction n (Some e));
                      GuildLog (autoreact_forbidden_text (sb_id sb)) (lit "error")]
                   (inr tt)
    end.
Proof.
  unfold autoreact_one, add_reaction, bind, get_world, emit, raise, modify, ret.
  simpl. destruct (reaction_emoji bot w emoji); [|done].
  simpl. by destruct (w_can_react w).
Qed.

(** The autoreact loop only touches the reactions of the new mirror, also
    when it stops on an emoji the guild does not have. *)
Lemma autoreact_loop_world bot sb n emojis w :
  ∃ g, keeps_text g
       ∧ res_world (for_each emojis (autoreact_one bot sb n) w)
         = set_remote (alter g n) w.
Proof.
  revert w. induction emojis as [|emoji emojis IH]; intros w.
  { exists (λ x, x). split; [done|]. simpl. by rewrite set_remote_alter_id. }
  simpl. unfold bind. cbv zeta. rewrite autoreact_one_run.
  destruct (reaction_emoji bot w emoji) as [e|]; simpl.
  2:{ exists (λ x, x). split; [done|]. by rewrite set_remote_alter_id. }
  destruct (w_can_react w); simpl.
  - destruct (IH (set_remote (alter (react_mirror e) n) w)) as (g & Hg & ->).
    exists (g ∘ react_mirror e). split.
    + intros x. simpl. destruct (Hg (react_mirror e x)) as (-> & -> & ->). done.
    + by rewrite set_remote_alter_alter.
  - destruct (IH w) as (g & Hg & ->). by exists g.
Qed.

Lemma create_mirror_forbidden bot sb points text embed m w :
  w_can_send w = false →
  create_mirror bot sb points text embed m w
  = mkRes w [Remote (SendMessage (sb_id sb) text embed);
             GuildLog (send_forbidden_text (sb_id sb)) (lit "error")]
          (inr tt).
Proof.
  intros H. unfold create_mirror.
  erewrite bind_run by (rewrite remote_send_run, H; reflexivity).
  reflexivity.
Qed.

Lemma create_mirror_sent bot sb points text embed m w :
  w_can_send w = true →
  ∃ g t, keeps_text g
       ∧ res_world (create_mirror bot sb points text embed m w)
         = set_remote (alter g (w_next_id w))
                      (linked_world sb points text embed m w)
       ∧ res_trace (create_mirror bot sb points text embed m w)
         = Remote (SendMessage (sb_id sb) text embed) :: t.
Proof.
  intros H. unfold create_mirror.
  erewrite bind_run by (rewrite remote_send_run, H; reflexivity).
  cbv beta iota.
  erewrite bind_run by apply create_starboard_message_run.
  erewrite bind_run by apply set_points_run.
  fold (linked_world sb points text embed m w).
  cbn [res_world res_trace]. destruct (autoreact sb).
  - destruct (autoreact_loop_world bot sb (w_next_id w) (star_emojis sb)
                (linked_world sb points text embed m w)) as (g & Hg & ->).
    exists g. eexists. split_and!; [done|done|reflexivity].
  - exists (λ x, x). eexists. split_and!; [done| |reflexivity].
    simpl. by rewrite set_remote_alter_id.
Qed.

Lemma transition_create bot sb msg p fl m w :
  fl_delete fl = false → fl_add fl = true →
  transition bot sb msg p fl (Some m) None w
  = create_mirror bot sb p (plain_text bot sb msg p fl)
                  (Some (embed_message bot m (color sb))) m w.
Proof. intros Hd Ha. unfold transition. by rewrite Hd, Ha. Qed.

Lemma log_not_write t : Forall is_log t → Forall (λ e, ¬ is_write e) t.
Proof. intros H. eapply Forall_impl; [exact H|]. intros [| |]; simpl; tauto. Qed.

Lemma linked_world_link sb p text embed m w g :
  mkSbMessage (w_next_id w) (dm_id m) (sb_id sb) p
  ∈ w_starboard_messages
      (set_remote (alter g (w_next_id w)) (linked_world sb p text embed m w)).
Proof.
  simpl. unfold update_points. rewrite fmap_app. apply elem_of_app. right.
  simpl. rewrite bool_decide_eq_true_2 by done. apply list_elem_of_here.
Qed.

(** C9: when a mirror is to be created (no link, [add], not [delete],
    source resolved) and the send is refused for lack of permission, the
    call returns normally with the world exactly as it was, writes
    nothing to the store, and ends on the notification that names the
    [Send Messages] permission; when the send goes through, the link is
    stored with the points of the pass and the mirror is on the
    platform. *)
Theorem send_forbidden_creates_no_link bot sb msg a m w :
  pass_link sb msg w = None →
  source_of bot msg = Some m →
  fl_add (decision bot sb msg a (points_of sb msg w) (Some m)) = true →
  fl_delete (decision bot sb msg a (points_of sb msg w) (Some m)) = false →
  let r := handle_starboard bot sb msg (Some a) w in
  (if w_can_send w
   then mkSbMessage (w_next_id w) (dm_id m) (sb_id sb) (points_of sb msg w)
        ∈ w_starboard_messages (res_world r)
        ∧ is_Some (w_remote (res_world r) !! w_next_id w)
   else res_world r = w
        ∧ res_val r = inr tt
        ∧ Forall (λ e, ¬ is_write e) (res_trace r)
        ∧ ∃ t text embed,
            res_trace r
            = t ++ [Remote (SendMessage (sb_id sb) text embed);
                    GuildLog (send_forbidden_text (sb_id sb)) (lit "error")])
  ∧ ∃ pre post,
      send_forbidden_text (sb_id sb) = pre ++ lit "`Send Messages`" ++ post.
Proof.
  intros Hlink Hsrc Hadd Hdel r. split.
  2:{ unfold send_forbidden_text.
      exists (lit "I tried to send a starboard message to " ++ mention (sb_id sb)
              ++ lit ", but I'm missing the proper permissions. Please make sure I have the "),
             (lit " permission.").
      rewrite <- !app_assoc. do 2 f_equal. }
  subst r. rewrite handle_starboard_run.
  unfold before_transition, before_transition_trace.
  rewrite Hlink, Hsrc. cbn [mirror_of res_world res_trace res_val].
  rewrite transition_create by done.
  destruct (w_can_send w) eqn:Hsend.
  - destruct (create_mirror_sent bot sb (points_of sb msg w)
                (plain_text bot sb msg (points_of sb msg w)
                   (decision bot sb msg a (points_of sb msg w) (Some m)))
                (Some (embed_message bot m (color sb))) m w Hsend)
      as (g & t & Hg & -> & _).
    split; [apply linked_world_link|].
    simpl. rewrite lookup_alter_eq, lookup_insert_eq. by eexists.
  - rewrite create_mirror_forbidden by done.
    cbn [res_world res_trace res_val]. split_and!; [done|done| |].
    + unfold pass_points.
      rewrite (bool_decide_eq_true_2 (None = None)), orb_true_r by done.
      rewrite calculate_points_run. cbn [res_trace].
      pose proof (log_not_write _ (decision_log_is_log bot sb (Some m))).
      rewrite !Forall_app, !Forall_cons, !Forall_nil. simpl. tauto.
    + eexists _, _, _. rewrite app_nil_r.
      rewrite !app_assoc. reflexivity.
Qed.

Lemma send_forbidden_creates_no_link_witness :
  (pass_link scenario_A_starboard scenario_A_message locked_world = None
   ∧ source_of quiet_bot scenario_A_message = Some live_100
   ∧ fl_add (decision quiet_bot scenario_A_starboard scenario_A_message human
               (points_of scenario_A_starboard scenario_A_message locked_world)
               (Some live_100)) = true
   ∧ fl_delete (decision quiet_bot scenario_A_starboard scenario_A_message human
                  (points_of scenario_A_starboard scenario_A_message locked_world)
                  (Some live_100)) = false)
  ∧ res_world (handle_starboard quiet_bot scenario_A_starboard scenario_A_message
                                (Some human) locked_world) = locked_world.
Proof.
  split; [split_and!; by vm_compute|].
  pose proof (send_forbidden_creates_no_link quiet_bot scenario_A_starboard
                scenario_A_message human live_100 locked_world) as H.
  destruct H as [H _]; [by vm_compute..|].
  simpl in H. apply H.
Defined.

(** ** A link whose mirror is gone *)

Lemma delete_rows_update_points p i rows :
  delete_rows i (update_points p i rows) = delete_rows i rows.
Proof.
  unfold delete_rows, update_points.
  induction rows as [|r rows IH]; [done|].
  rewrite fmap_cons, !filter_cons, IH.
  destruct (decide (sm_id r = i)) as [E|E].
  - rewrite (bool_decide_eq_true_2 _ E). simpl.
    rewrite !decide_False by (by intros H; apply H). done.
  - rewrite (bool_decide_eq_false_2 _ E). by rewrite !decide_True.
Qed.

Lemma set_links_set_links f g w :
  set_links f (set_links g w) = set_links (f ∘ g) w.
Proof. reflexivity. Qed.

Lemma before_transition_stale bot sb msg l w :
  pass_link sb msg w = Some l →
  mirror_of bot msg (Some l) = None →
  before_transition bot sb msg w = set_links (delete_rows (sm_id l)) w.
Proof.
  intros Hl Hs. unfold before_transition. rewrite Hl. cbv zeta. rewrite Hs.
  unfold set_links. simpl. f_equal. apply delete_rows_update_points.
Qed.

Lemma pass_points_no_delete sb msg link w :
  Forall (λ e, ¬ is_remote_delete e) (res_trace (pass_points sb msg link w)).
Proof.
  unfold pass_points. destruct (negb _ || _).
  - rewrite calculate_points_run. cbn [res_trace].
    rewrite !Forall_cons, Forall_nil. simpl. tauto.
  - destruct link; apply Forall_nil_2.
Qed.

Lemma log_not_remote_delete t :
  Forall is_log t → Forall (λ e, ¬ is_remote_delete e) t.
Proof. intros H. eapply Forall_impl; [exact H|]. intros [| |]; simpl; tauto. Qed.

Lemma before_transition_no_delete bot sb msg w :
  Forall (λ e, ¬ is_remote_delete e) (before_transition_trace bot sb msg w).
Proof.
  unfold before_transition_trace.
  pose proof (pass_points_no_delete sb msg (pass_link sb msg w) w).
  pose proof (log_not_remote_delete _
                (decision_log_is_log bot sb (source_of bot msg))).
  apply Forall_app; split; [solve_listed|].
  apply Forall_app; split; [done|].
  apply Forall_app; split; [destruct (pass_link sb msg w); solve_listed|].
  apply Forall_app; split; [done|].
  destruct (pass_link sb msg w) as [l|]; [|solve_listed].
  destruct (mirror_of bot msg (Some l)); solve_listed.
Qed.

Lemma autoreact_loop_no_delete bot sb n emojis w :
  Forall (λ e, ¬ is_remote_delete e)
         (res_trace (for_each emojis (autoreact_one bot sb n) w)).
Proof.
  revert w. induction emojis as [|emoji emojis IH]; intros w; [solve_listed|].
  simpl. unfold bind. cbv zeta. rewrite autoreact_one_run.
  destruct (reaction_emoji bot w emoji) as [e|]; [|solve_listed].
  destruct (w_can_react w); cbn [res_val res_world res_trace];
    (apply Forall_app; split; [solve_listed|apply IH]).
Qed.

Lemma create_mirror_no_delete bot sb p text embed m w :
  Forall (λ e, ¬ is_remote_delete e)
         (res_trace (create_mirror bot sb p text embed m w)).
Proof.
  destruct (w_can_send w) eqn:Hsend.
  2:{ rewrite create_mirror_forbidden by done. solve_listed. }
  unfold create_mirror.
  erewrite bind_run by (rewrite remote_send_run, Hsend; reflexivity).
  cbv beta iota.
  erewrite bind_run by apply create_starboard_message_run.
  erewrite bind_run by apply set_points_run.
  cbn [res_trace]. rewrite !Forall_app. split_and!; try solve_listed.
  destruct (autoreact sb); [apply autoreact_loop_no_delete|solve_listed].
Qed.

(** Without a resolved mirror the transition never deletes on the
    platform. *)
Lemma transition_unlinked_no_delete bot sb msg p fl message w :
  Forall (λ e, ¬ is_remote_delete e)
         (res_trace (transition bot sb msg p fl message None w)).
Proof.
  unfold transition. destruct (fl_delete fl); [solve_listed|].
  destruct message as [m|]; [|solve_listed].
  destruct (fl_add fl); [apply create_mirror_no_delete|solve_listed].
Qed.

(** ** Trashed messages *)

Lemma alter_all_lookup f ids remote k :
  (∀ x, f (f x) = f x) →
  alter_all f ids remote !! k
  = if decide (k ∈ ids) then f <$> remote !! k else remote !! k.
Proof.
  intros Hf. revert remote.
  induction ids as [|i ids IH]; intros remote.
  { unfold alter_all. cbn [foldl].
    destruct (decide (k ∈ [])) as [H|]; [by apply elem_of_nil in H|done]. }
  unfold alter_all in *. cbn [foldl]. rewrite IH.
  destruct (decide (k = i)) as [->|Hk].
  - rewrite lookup_alter_eq. rewrite (decide_True (P := i ∈ i :: ids))
      by apply list_elem_of_here.
    destruct (decide (i ∈ ids)); [|done].
    destruct (remote !! i); simpl; by rewrite ?Hf.
  - rewrite lookup_alter_ne by done.
    destruct (decide (k ∈ ids)) as [Hin|Hin].
    + by rewrite decide_True by (by apply list_elem_of_further).
    + rewrite decide_False; [done|]. rewrite elem_of_cons. tauto.
Qed.

Lemma handle_trashed_message_full bot sb msg author w :
  handle_trashed_message bot sb msg author w
  = mkRes (set_remote
             (alter_all (trashed_edit msg)
                (trashed_targets bot msg (w_starboard_messages w) [sb])) w)
          (trashed_trace bot msg (w_starboard_messages w) [sb])
          (inr tt).
Proof.
  unfold handle_trashed_message, trashed_targets, trashed_trace.
  erewrite bind_run by apply fetchrow_link_run.
  cbn [omap list_omap List.flat_map app].
  destruct (List.find _ _) as [l|]; [|by destruct w].
  destruct (fetch_message bot _ _ _) as [s|]; [|by destruct w].
  rewrite remote_edit_run. reflexivity.
Qed.

Lemma trashed_loop_full bot msg author sbs w :
  for_each sbs (λ s, handle_trashed_message bot s msg author) w
  = mkRes (set_remote
             (alter_all (trashed_edit msg)
                (trashed_targets bot msg (w_starboard_messages w) sbs)) w)
          (trashed_trace bot msg (w_starboard_messages w) sbs)
          (inr tt).
Proof.
  revert w. induction sbs as [|sb sbs IH]; intros w.
  { simpl. by destruct w. }
  cbn [for_each]. erewrite bind_run by apply handle_trashed_message_full.
  rewrite IH. cbn [res_world res_trace res_val set_remote w_starboard_messages].
  f_equal.
  - unfold trashed_targets, set_remote. cbn [omap list_omap].
    destruct (List.find _ _) as [l|]; [|by destruct w].
    destruct (fetch_message bot _ _ _) as [s|]; by destruct w.
  - unfold trashed_trace. cbn [List.flat_map]. by rewrite app_nil_r.
Qed.

Lemma handle_trashed_message_run bot sb msg author w :
  ∃ w' t,
    handle_trashed_message bot sb msg author w = mkRes w' t (inr tt)
    ∧ w_starboard_messages w' = w_starboard_messages w
    ∧ dom (w_remote w') = dom (w_remote w)
    ∧ Forall (trashed_event msg) t.
Proof.
  unfold handle_trashed_message.
  erewrite bind_run by apply fetchrow_link_run.
  destruct (List.find _ _) as [l|].
  2:{ eexists _, _. split_and!; [reflexivity|done|done|]. solve_listed. }
  destruct (fetch_message bot _ _ _) as [s|].
  2:{ eexists _, _. split_and!; [reflexivity|done|done|]. solve_listed. }
  rewrite remote_edit_run. eexists _, _. split_and!; [reflexivity|done| |].
  - simpl. apply dom_alter_L.
  - cbn [res_trace app]. repeat (apply Forall_cons_2; [by simpl|]).
    apply Forall_nil_2.
Qed.

Lemma trashed_loop bot msg author sbs w :
  let r := for_each sbs (λ s, handle_trashed_message bot s msg author) w in
  w_starboard_messages (res_world r) = w_starboard_messages w
  ∧ dom (w_remote (res_world r)) = dom (w_remote w)
  ∧ res_val r = inr tt
  ∧ Forall (trashed_event msg) (res_trace r).
Proof.
  revert w. induction sbs as [|s sbs IH]; intros w.
  { simpl. split_and!; try done. }
  destruct (handle_trashed_message_run bot s msg author w)
    as (w' & t & Hrun & Hl & Hd & Ht).
  simpl. erewrite bind_run by exact Hrun.
  destruct (IH w') as (IHl & IHd & IHv & IHt).
  cbn [res_world res_trace res_val]. split_and!.
  - by rewrite IHl.
  - by rewrite IHd.
  - done.
  - by apply Forall_app.
Qed.

(** C3, as stated, fails: after [update_message] on a trashed message
    with a link whose mirror resolves, the link is still in the store and
    the mirror is still on the platform, its embed replaced by the
    notice. *)
Lemma trashed_link_destroyed_counterexample :
  get_message trashed_world 100 = Some trashed_message
  ∧ trashed trashed_message = true
  ∧ pass_link scenario_A_starboard trashed_message trashed_world
    = Some (mkSbMessage 201 100 50 3)
  ∧ w_starboard_messages (res_world (update_message quiet_bot 100 1 trashed_world))
    = [mkSbMessage 201 100 50 3]
  ∧ w_remote (res_world (update_message quiet_bot 100 1 trashed_world)) !! 201
    = Some (mkMirror 50 (lit "**3**") (Some (trashed_embed trashed_message)) [])
  ∧ res_trace (update_message quiet_bot 100 1 trashed_world)
    = [Db (SelectLink 100 50);
       Remote (EditMessage 201 None (Some (trashed_embed trashed_message)))].
Proof. split_and!; by vm_compute. Qed.

(** C3, amended: for a trashed message, [update_message] destroys no
    link: every row of [starboard_messages] is kept and no mirror is
    deleted from the platform.  For each starboard of the guild the pass
    looks the link of the pair up and, when there is one and the cache
    resolves its mirror, edits that mirror, putting the "Trashed Message"
    notice in place of its embed and leaving its channel, its text and
    its reactions; it does nothing else, and returns. *)
Theorem trashed_message_keeps_link bot message_id guild_id msg w :
  get_message w message_id = Some msg →
  trashed msg = true →
  let r := update_message bot message_id guild_id w in
  let links := w_starboard_messages w in
  let sbs := get_starboards w guild_id in
  w_starboard_messages (res_world r) = w_starboard_messages w
  ∧ dom (w_remote (res_world r)) = dom (w_remote w)
  ∧ res_val r = inr tt
  ∧ Forall (trashed_event msg) (res_trace r)
  ∧ res_trace r = trashed_trace bot msg links sbs
  ∧ (∀ k, w_remote (res_world r) !! k
          = if decide (k ∈ trashed_targets bot msg links sbs)
            then (λ mi, mkMirror (mi_channel mi) (mi_content mi)
                                 (Some (trashed_embed msg)) (mi_reactions mi))
                 <$> w_remote w !! k
            else w_remote w !! k)
  ∧ (∀ sb l s,
       sb ∈ sbs →
       pass_link sb msg w = Some l →
       mirror_of bot msg (Some l) = Some s →
       Remote (EditMessage (dm_id s) None (Some (trashed_embed msg)))
       ∈ res_trace r
       ∧ dm_id s ∈ trashed_targets bot msg links sbs).
Proof.
  intros Hmsg Htrashed r links sbs.
  assert (Hr : r = mkRes (set_remote
                            (alter_all (trashed_edit msg)
                               (trashed_targets bot msg links sbs)) w)
                         (trashed_trace bot msg links sbs) (inr tt)).
  { subst r. unfold update_message.
    erewrite bind_run by reflexivity. rewrite Hmsg, Htrashed.
    cbn [negb]. rewrite trashed_loop_full. by destruct w. }
  assert (Hold : w_starboard_messages (res_world r) = w_starboard_messages w
                 ∧ dom (w_remote (res_world r)) = dom (w_remote w)
                 ∧ res_val r = inr tt
                 ∧ Forall (trashed_event msg) (res_trace r)).
  { subst r. unfold update_message.
    erewrite bind_run by reflexivity. rewrite Hmsg, Htrashed.
    cbn [negb res_world res_trace res_val app].
    apply trashed_loop. }
  destruct Hold as (H1 & H2 & H3 & H4).
  split_and!; try done.
  - by rewrite Hr.
  - intros k. rewrite Hr. cbn [res_world set_remote w_remote].
    by rewrite alter_all_lookup.
  - intros sb l s Hsb Hl Hs. rewrite Hr. cbn [res_trace].
    unfold pass_link in Hl. unfold mirror_of in Hs. split.
    + unfold trashed_trace. apply list_elem_of_In, in_flat_map.
      exists sb. split; [by apply list_elem_of_In|].
      fold links in Hl. rewrite Hl, Hs. right. by left.
    + unfold trashed_targets. apply list_elem_of_omap.
      exists sb. split; [done|]. fold links in Hl. by rewrite Hl, Hs.
Qed.

Lemma trashed_message_keeps_link_witness :
  (get_message trashed_world 100 = Some trashed_message
   ∧ trashed trashed_message = true)
  ∧ w_starboard_messages (res_world (update_message quiet_bot 100 1 trashed_world))
    = w_starboard_messages trashed_world
  ∧ res_trace (update_message quiet_bot 100 1 trashed_world)
    = [Db (SelectLink 100 50);
       Remote (EditMessage 201 None (Some (trashed_embed trashed_message)))]
  ∧ w_remote (res_world (update_message quiet_bot 100 1 trashed_world)) !! 201
    = Some (mkMirror 50 (lit "**3**") (Some (trashed_embed trashed_message)) []).
Proof.
  split; [split; reflexivity|].
  pose proof (trashed_message_keeps_link quiet_bot 100 1 trashed_message
                trashed_world eq_refl eq_refl) as (H1 & _ & _ & _ & H5 & H6 & _).
  split_and!.
  - exact H1.
  - rewrite H5. reflexivity.
  - rewrite (H6 201). reflexivity.
Defined.

(** ** Links of a pair in the store *)

Lemma count_links_cons orig sb r rows :
  count_links orig sb (r :: rows)
  = ((if link_of orig sb r then 1 else 0) + count_links orig sb rows)%nat.
Proof.
  unfold count_links. rewrite filter_cons.
  destruct (link_of orig sb r); simpl; by rewrite ?decide_True, ?decide_False.
Qed.

Lemma find_none_count orig sb rows :
  List.find (link_of orig sb) rows = None ↔ count_links orig sb rows = 0%nat.
Proof.
  induction rows as [|r rows IH]; [done|].
  rewrite count_links_cons. simpl. destruct (link_of orig sb r); [done|].
  by rewrite IH.
Qed.

Lemma find_some_link orig sb rows l :
  List.find (link_of orig sb) rows = Some l → link_of orig sb l = true.
Proof. intros H. by apply find_some in H as [_ ?]. Qed.

Lemma link_of_with_points orig sb p r :
  link_of orig sb (with_points p r) = link_of orig sb r.
Proof. done. Qed.

Lemma count_links_update_points orig sb p i rows :
  count_links orig sb (update_points p i rows) = count_links orig sb rows.
Proof.
  induction rows as [|r rows IH]; [done|].
  unfold update_points in *. rewrite fmap_cons, !count_links_cons, IH.
  by destruct (bool_decide (sm_id r = i)).
Qed.

Lemma find_update_points orig sb p i rows :
  List.find (link_of orig sb) (update_points p i rows)
  = (λ r, if bool_decide (sm_id r = i) then with_points p r else r)
      <$> List.find (link_of orig sb) rows.
Proof.
  induction rows as [|r rows IH]; [done|].
  unfold update_points in *. rewrite fmap_cons. cbn [List.find].
  rewrite IH. destruct (bool_decide (sm_id r = i)) eqn:E.
  - change (link_of orig sb (mkSbMessage _ _ _ p)) with (link_of orig sb r).
    destruct (link_of orig sb r); simpl; by rewrite ?E.
  - destruct (link_of orig sb r); simpl; by rewrite ?E.
Qed.

Lemma update_points_idemp p i rows :
  update_points p i (update_points p i rows) = update_points p i rows.
Proof.
  unfold update_points. rewrite <- list_fmap_compose.
  apply list_fmap_ext. intros _ r _. simpl.
  destruct (bool_decide (sm_id r = i)) eqn:E; simpl; by rewrite E.
Qed.

Lemma count_links_delete_rows orig sb i rows :
  (count_links orig sb (delete_rows i rows) ≤ count_links orig sb rows)%nat.
Proof.
  induction rows as [|r rows IH]; [done|].
  unfold delete_rows in *. rewrite filter_cons.
  destruct (decide (sm_id r ≠ i)); rewrite !count_links_cons; lia.
Qed.

Lemma find_delete_rows_none orig sb rows l :
  at_most_one_link orig sb rows →
  List.find (link_of orig sb) rows = Some l →
  count_links orig sb (delete_rows (sm_id l) rows) = 0%nat.
Proof.
  unfold at_most_one_link. induction rows as [|r rows IH]; [done|].
  rewrite count_links_cons. simpl. unfold delete_rows in *.
  rewrite filter_cons. destruct (link_of orig sb r) eqn:E.
  - intros Hc [= ->]. rewrite decide_False by (by intros H; apply H).
    pose proof (count_links_delete_rows orig sb (sm_id l) rows) as Hd.
    unfold delete_rows in Hd. lia.
  - intros Hc Hf. destruct (decide _).
    + rewrite count_links_cons, E. by apply IH.
    + by apply IH.
Qed.

Lemma count_links_app orig sb rows rows' :
  count_links orig sb (rows ++ rows')
  = (count_links orig sb rows + count_links orig sb rows')%nat.
Proof. unfold count_links. by rewrite filter_app, length_app. Qed.

Lemma find_app_none orig sb rows r :
  List.find (link_of orig sb) rows = None →
  List.find (link_of orig sb) (rows ++ [r])
  = if link_of orig sb r then Some r else None.
Proof.
  induction rows as [|r' rows IH]; simpl; [done|].
  destruct (link_of orig sb r'); [done|]. apply IH.
Qed.

(** ** One pass, as a function on worlds *)

Lemma points_of_cases sb msg w :
  points_of sb msg w
  = match pass_link sb msg w with
    | Some l => if frozen msg then sm_points l else calc_points msg sb w
    | None => calc_points msg sb w
    end.
Proof.
  unfold points_of, pass_points, calc_points.
  destruct (pass_link sb msg w) as [l|], (frozen msg); cbn [negb orb];
    rewrite ?(bool_decide_eq_false_2 (Some l = None)),
            ?(bool_decide_eq_true_2 (None = None)) by done; done.
Qed.

Lemma calc_points_ext msg sb w w' :
  w_reactions w' = w_reactions w →
  w_reaction_users w' = w_reaction_users w →
  calc_points msg sb w' = calc_points msg sb w.
Proof.
  intros H1 H2. unfold calc_points. rewrite !calculate_points_run.
  cbn [res_val]. by rewrite H1, H2.
Qed.

Lemma decision_frozen_points bot sb msg a p p' message :
  frozen msg = true →
  decision bot sb msg a p message = decision bot sb msg a p' message.
Proof.
  intros Hf.
  pose proof (regex_flags_unmarked bot sb message _
                (flags_before_regex_unmarked sb msg a p message)) as [H1 _].
  pose proof (regex_flags_unmarked bot sb message _
                (flags_before_regex_unmarked sb msg a p' message)) as [H2 _].
  unfold decision, rule_frozen. rewrite Hf. by rewrite H1, H2.
Qed.

Lemma decision_delete_unfrozen bot sb msg a p message :
  fl_delete (decision bot sb msg a p message) = true → frozen msg = false.
Proof.
  unfold decision, rule_forced, rule_frozen.
  destruct (frozen msg), (bool_decide _); simpl; congruence.
Qed.

Lemma pass_world_run bot sb msg a w :
  pass_world bot sb msg a w
  = res_world
      (transition bot sb msg (points_of sb msg w)
         (decision bot sb msg a (points_of sb msg w) (source_of bot msg))
         (source_of bot msg) (mirror_of bot msg (pass_link sb msg w))
         (before_transition bot sb msg w)).
Proof. unfold pass_world. by rewrite handle_starboard_run. Qed.

Lemma set_links_fixed f w :
  f (w_starboard_messages w) = w_starboard_messages w → set_links f w = w.
Proof. intros H. destruct w. unfold set_links. simpl in *. by rewrite H. Qed.

Lemma set_remote_fixed f w :
  f (w_remote w) = w_remote w → set_remote f w = w.
Proof. intros H. destruct w. unfold set_remote. simpl in *. by rewrite H. Qed.

Lemma transition_keep bot sb msg p fl message s w :
  fl_delete fl = false →
  res_world (transition bot sb msg p fl message (Some s) w)
  = set_remote (alter (pass_edit bot sb msg p fl message) (dm_id s)) w.
Proof.
  intros Hd. unfold transition, pass_edit. rewrite Hd.
  destruct message as [m|]; [|done]. by destruct (link_edits sb).
Qed.

Lemma transition_remove bot sb msg p fl message s w :
  fl_delete fl = true →
  res_world (transition bot sb msg p fl message (Some s) w)
  = set_remote (delete (dm_id s)) (set_links (delete_rows (dm_id s)) w).
Proof. intros Hd. unfold transition. by rewrite Hd. Qed.

Lemma transition_idle bot sb msg p fl message w :
  creates fl message w = false →
  res_world (transition bot sb msg p fl message None w) = w.
Proof.
  unfold creates, transition. destruct (fl_delete fl); [done|].
  destruct message as [m|]; [|done]. destruct (fl_add fl); [|done].
  rewrite (bool_decide_eq_true_2 (is_Some (Some m))) by (by eexists).
  simpl. intros Hs. by rewrite create_mirror_forbidden.
Qed.

Lemma pass_edit_idemp bot sb msg p fl message x :
  pass_edit bot sb msg p fl message (pass_edit bot sb msg p fl message x)
  = pass_edit bot sb msg p fl message x.
Proof.
  unfold pass_edit, edit_mirror. simpl. by destruct message, (link_edits sb).
Qed.

(** A world without a link in which nothing is to be created is left as
    it is. *)
Lemma pass_stable_unlinked bot sb msg a w :
  pass_link sb msg w = None →
  creates (decision bot sb msg a (points_of sb msg w) (source_of bot msg))
          (source_of bot msg) w = false →
  pass_world bot sb msg a w = w.
Proof.
  intros Hl Hc. rewrite pass_world_run. unfold before_transition.
  rewrite Hl. simpl. by apply transition_idle.
Qed.

(** A world with a resolved link that is kept, whose points are written
    and whose mirror shows what the pass would write, is left as it is. *)
Lemma pass_stable_linked bot sb msg a w l s :
  pass_link sb msg w = Some l →
  mirror_of bot msg (Some l) = Some s →
  let p := points_of sb msg w in
  let fl := decision bot sb msg a p (source_of bot msg) in
  fl_delete fl = false →
  update_points p (sm_id l) (w_starboard_messages w) = w_starboard_messages w →
  alter (pass_edit bot sb msg p fl (source_of bot msg)) (dm_id s) (w_remote w)
  = w_remote w →
  pass_world bot sb msg a w = w.
Proof.
  intros Hl Hs p fl Hd Hp He. rewrite pass_world_run. fold p fl.
  unfold before_transition. rewrite Hl. cbv zeta. rewrite Hs. fold p.
  rewrite transition_keep by done.
  rewrite (set_links_fixed _ w) by done. by apply set_remote_fixed.
Qed.

Lemma creates_true fl message w :
  creates fl message w = true →
  fl_delete fl = false ∧ fl_add fl = true ∧ w_can_send w = true
  ∧ ∃ m, message = Some m.
Proof.
  unfold creates. intros H.
  apply andb_true_iff in H as [H Hs]. apply andb_true_iff in H as [H Hm].
  apply andb_true_iff in H as [Hd Ha]. apply negb_true_iff in Hd.
  apply bool_decide_eq_true in Hm as [m ->]. split_and!; try done. by exists m.
Qed.

Lemma edit_after_create bot sb msg p fl m g :
  keeps_text g →
  let sent := mkMirror (sb_id sb) (plain_text bot sb msg p fl)
                       (Some (embed_message bot m (color sb))) [] in
  pass_edit bot sb msg p fl (Some m) (g sent) = g sent.
Proof.
  intros Hg sent. destruct (Hg sent) as (Hc & Ht & He).
  unfold pass_edit, edit_mirror. simpl in *.
  destruct (g sent) as [c t e r]. simpl in *. subst.
  by destruct (link_edits sb).
Qed.

(** Two passes from a world without a link for the pair: the second
    leaves what the first made. *)
Lemma pass_twice_unlinked bot sb msg a wb p :
  pass_link sb msg wb = None →
  cache_ids bot →
  (frozen msg = false → p = calc_points msg sb wb) →
  let message := source_of bot msg in
  let fl := decision bot sb msg a p message in
  (creates fl message wb = true →
   is_Some (fetch_message bot (m_guild_id msg) (sb_id sb) (w_next_id wb))) →
  let w1 := res_world (transition bot sb msg p fl message None wb) in
  pass_world bot sb msg a w1 = w1
  ∧ at_most_one_link (m_id msg) (sb_id sb) (w_starboard_messages w1).
Proof.
  intros Hl Hid Hp message fl Hf w1.
  assert (Hcount : count_links (m_id msg) (sb_id sb) (w_starboard_messages wb)
                   = 0%nat) by (by apply find_none_count).
  destruct (creates fl message wb) eqn:Hc.
  - (* a mirror is sent and linked *)
    destruct (creates_true _ _ _ Hc) as (Hd & Ha & Hsend & m & Hm).
    destruct (Hf eq_refl) as [s Hs].
    assert (Hsid : dm_id s = w_next_id wb) by (by apply Hid in Hs).
    assert (Hmid : dm_id m = m_id msg).
    { unfold message, source_of in Hm. by apply Hid in Hm. }
    subst w1. rewrite Hm. rewrite transition_create by done.
    destruct (create_mirror_sent bot sb p (plain_text bot sb msg p fl)
                (Some (embed_message bot m (color sb))) m wb Hsend)
      as (g & t & Hg & -> & _).
    set (n := w_next_id wb).
    set (w1 := set_remote (alter g n) (linked_world sb p _ _ m wb)).
    set (l' := mkSbMessage n (m_id msg) (sb_id sb) p).
    assert (Hl1 : pass_link sb msg w1 = Some l').
    { unfold pass_link, w1. simpl. rewrite find_update_points.
      rewrite find_app_none by done. fold n. rewrite Hmid.
      unfold link_of. simpl. rewrite !bool_decide_eq_true_2 by done. simpl.
      by rewrite bool_decide_eq_true_2. }
    assert (Hp1 : points_of sb msg w1 = p).
    { rewrite points_of_cases, Hl1. destruct (frozen msg) eqn:Hfz; [done|].
      rewrite Hp by done. by apply calc_points_ext. }
    split.
    + apply (pass_stable_linked bot sb msg a w1 l' s); rewrite ?Hp1.
      * done.
      * done.
      * fold message fl. done.
      * unfold w1. simpl. apply update_points_idemp.
      * fold message fl. rewrite Hm, Hsid. unfold w1. simpl. fold n.
        rewrite alter_alter_eq, !alter_insert_eq. f_equal. simpl.
        by apply edit_after_create.
    + unfold at_most_one_link, w1. simpl.
      rewrite count_links_update_points, count_links_app, Hcount.
      rewrite count_links_cons.
      change (count_links (m_id msg) (sb_id sb) []) with 0%nat.
      destruct (link_of _ _ _); lia.
  - (* nothing is sent *)
    subst w1. rewrite transition_idle by done. split.
    + apply pass_stable_unlinked; [done|].
      rewrite points_of_cases, Hl. fold message.
      destruct (frozen msg) eqn:Hfz.
      * by rewrite (decision_frozen_points bot sb msg a _ p message).
      * by rewrite <- Hp.
    + unfold at_most_one_link. lia.
Qed.

(** When the transition creates a mirror, the pass sends one. *)
Lemma creates_sends bot sb msg a w :
  mirror_of bot msg (pass_link sb msg w) = None →
  creates (decision bot sb msg a (points_of sb msg w) (source_of bot msg))
          (source_of bot msg) (before_transition bot sb msg w) = true →
  w_can_send (before_transition bot sb msg w) = w_can_send w →
  sends_mirror bot sb msg a w.
Proof.
  intros Hs Hc Hsame.
  destruct (creates_true _ _ _ Hc) as (Hd & Ha & Hsend & m & Hm).
  split; [by rewrite <- Hsame|].
  rewrite handle_starboard_run. cbn [res_trace]. rewrite Hs, Hm.
  rewrite Hm in Hd, Ha. rewrite transition_create by done.
  destruct (create_mirror_sent bot sb (points_of sb msg w)
              (plain_text bot sb msg (points_of sb msg w)
                 (decision bot sb msg a (points_of sb msg w) (Some m)))
              (Some (embed_message bot m (color sb))) m
              (before_transition bot sb msg w) Hsend)
    as (g & t & _ & _ & ->).
  eexists _, _. apply elem_of_app. right. apply list_elem_of_here.
Qed.

(** ** A link whose mirror is gone, again *)

Lemma decision_frozen_unforced bot sb msg a p message :
  frozen msg = true → sb_id sb ∉ forced msg →
  fl_add (decision bot sb msg a p message) = false.
Proof.
  intros Hfz Hfo. unfold decision, rule_forced, rule_frozen.
  by rewrite Hfz, (bool_decide_eq_false_2 _ Hfo).
Qed.

(** C7, as stated, fails: the pass does not always go on as if no link
    had existed.  The message is frozen and forced onto the starboard,
    and its link, whose mirror is gone, cached 7 points while the
    reactions give 3.  The pass drops the link and sends a new mirror
    with the 7 points of the dropped link; from the same store without
    the link the pass sends a mirror with 3 points. *)
Lemma stale_link_as_if_none_counterexample :
  let sb := scenario_A_starboard in
  let msg := forced_frozen_message in
  let w := stale_frozen_world in
  let w0 := set_links (delete_rows 201) w in
  pass_link sb msg w = Some (mkSbMessage 201 100 50 7)
  ∧ mirror_of forgetful_bot msg (Some (mkSbMessage 201 100 50 7)) = None
  ∧ pass_link sb msg w0 = None
  ∧ w_starboard_messages (pass_world forgetful_bot sb msg human w)
    = [mkSbMessage 1000 100 50 7]
  ∧ w_starboard_messages (pass_world forgetful_bot sb msg human w0)
    = [mkSbMessage 1000 100 50 3]
  ∧ pass_world forgetful_bot sb msg human w
    ≠ pass_world forgetful_bot sb msg human w0.
Proof.
  split_and!; by vm_compute.
Qed.

(** C7, amended: when a link exists and the cache does not resolve its
    mirror, the link is deleted from the store, no delete is asked of the
    platform, and the pass goes on as the transition does without a
    mirror on the store without that link, with the points it read
    before the link was dropped: for a frozen message those are the
    points cached on the dropped link.  When the message is then [add],
    not [delete], its source resolved and the send allowed, the mirror is
    sent to the starboard with the line and the embed of the pass, and
    linked with these points, in the same pass; otherwise the store stays
    without the link.  The pass ends in the world it would have ended in
    had the link not been there, unless the message is frozen and forced
    and the dropped link cached other points than the reactions give. *)
Theorem stale_link_is_dropped bot sb msg a l w :
  pass_link sb msg w = Some l →
  mirror_of bot msg (Some l) = None →
  let p := points_of sb msg w in
  let message := source_of bot msg in
  let fl := decision bot sb msg a p message in
  let w1 := set_links (delete_rows (sm_id l)) w in
  let r := handle_starboard bot sb msg (Some a) w in
  let r' := transition bot sb msg p fl message None w1 in
  res_world r = res_world r'
  ∧ res_val r = res_val r'
  ∧ (∃ t, res_trace r = t ++ [Db (DeleteLink (sm_id l))] ++ res_trace r')
  ∧ Forall (λ e, ¬ is_remote_delete e) (res_trace r)
  ∧ Forall (λ row, sm_id row ≠ sm_id l) (w_starboard_messages w1)
  ∧ p = (if frozen msg then sm_points l else calc_points msg sb w)
  ∧ match message with
    | Some m =>
        if fl_add fl && negb (fl_delete fl) && w_can_send w
        then mkSbMessage (w_next_id w) (dm_id m) (sb_id sb) p
             ∈ w_starboard_messages (res_world r)
             ∧ w_starboard_messages (res_world r)
               = update_points p (w_next_id w)
                   (w_starboard_messages w1
                    ++ [mkSbMessage (w_next_id w) (dm_id m) (sb_id sb) 0])
             ∧ Remote (SendMessage (sb_id sb) (plain_text bot sb msg p fl)
                         (Some (embed_message bot m (color sb))))
               ∈ res_trace r
             ∧ ∃ mi, w_remote (res_world r) !! w_next_id w = Some mi
                     ∧ mi_channel mi = sb_id sb
                     ∧ mi_content mi = plain_text bot sb msg p fl
                     ∧ mi_embed mi = Some (embed_message bot m (color sb))
        else res_world r = w1
    | None => res_world r = w1
    end
  ∧ (pass_link sb msg w1 = None →
     (frozen msg = true → sb_id sb ∈ forced msg →
      sm_points l = calc_points msg sb w) →
     res_world r = pass_world bot sb msg a w1).
Proof.
  intros Hl Hs p message fl w1 r r'.
  assert (Hr : r = mkRes (res_world r')
                         (before_transition_trace bot sb msg w ++ res_trace r')
                         (res_val r')).
  { subst r r'. rewrite handle_starboard_run. fold p message fl.
    rewrite Hl, Hs. by rewrite (before_transition_stale bot sb msg l w). }
  assert (Hp : p = if frozen msg then sm_points l else calc_points msg sb w).
  { unfold p. by rewrite points_of_cases, Hl. }
  rewrite Hr. cbn [res_world res_trace res_val].
  split_and!; [done|done| | | |done| |].
  - unfold before_transition_trace. rewrite Hl, Hs. eexists.
    rewrite !app_assoc. reflexivity.
  - apply Forall_app. split; [apply before_transition_no_delete|].
    apply transition_unlinked_no_delete.
  - subst w1. simpl. unfold delete_rows. apply Forall_forall.
    intros row Hrow. by apply list_elem_of_filter in Hrow as [? _].
  - subst r'. unfold transition.
    destruct message as [m|], (fl_delete fl) eqn:Hd, (fl_add fl) eqn:Ha;
      simpl; try done.
    destruct (w_can_send w) eqn:Hsend.
    + destruct (create_mirror_sent bot sb p (plain_text bot sb msg p fl)
                  (Some (embed_message bot m (color sb))) m w1 Hsend)
        as (g & t & Hg & Hw & Ht).
      rewrite Hw, Ht. split_and!.
      * apply (linked_world_link sb p _ _ m w1 g).
      * reflexivity.
      * apply list_elem_of_further, elem_of_app. right.
        apply list_elem_of_here.
      * exists (g (mkMirror (sb_id sb) (plain_text bot sb msg p fl)
                     (Some (embed_message bot m (color sb))) [])).
        split.
        { simpl. by rewrite lookup_alter_eq, lookup_insert_eq. }
        destruct (Hg (mkMirror (sb_id sb) (plain_text bot sb msg p fl)
                        (Some (embed_message bot m (color sb))) []))
          as (-> & -> & ->).
        done.
    + by rewrite create_mirror_forbidden.
  - intros Hl1 Hcached. rewrite pass_world_run. unfold before_transition.
    rewrite Hl1. simpl mirror_of. fold message.
    assert (Hp1 : points_of sb msg w1 = calc_points msg sb w).
    { rewrite points_of_cases, Hl1. by apply calc_points_ext. }
    rewrite Hp1. subst r'.
    destruct (frozen msg) eqn:Hfz; [|by rewrite <- Hp].
    destruct (decide (sb_id sb ∈ forced msg)) as [Hfo|Hfo].
    { by rewrite <- (Hcached eq_refl Hfo), <- Hp. }
    assert (Hfl : decision bot sb msg a (calc_points msg sb w) message = fl)
      by (by apply decision_frozen_points).
    rewrite Hfl.
    assert (Hc : creates fl message w1 = false).
    { unfold creates, fl.
      rewrite (decision_frozen_unforced bot sb msg a p message) by done.
      by rewrite andb_false_r. }
    by rewrite !transition_idle.
Qed.

Lemma stale_link_is_dropped_witness :
  (pass_link scenario_A_starboard scenario_A_message stale_world
   = Some (mkSbMessage 201 100 50 3)
   ∧ mirror_of forgetful_bot scenario_A_message (Some (mkSbMessage 201 100 50 3))
     = None)
  ∧ Forall (λ e, ¬ is_remote_delete e)
           (res_trace (handle_starboard forgetful_bot scenario_A_starboard
                                        scenario_A_message (Some human) stale_world))
  ∧ w_starboard_messages
      (res_world (handle_starboard forgetful_bot scenario_A_starboard
                    scenario_A_message (Some human) stale_world))
    = [mkSbMessage 1000 100 50 3].
Proof.
  split; [split; by vm_compute|].
  pose proof (stale_link_is_dropped forgetful_bot scenario_A_starboard
                scenario_A_message human (mkSbMessage 201 100 50 3) stale_world)
    as H.
  destruct H as (_ & _ & _ & H4 & _ & _ & H7 & _); [by vm_compute..|].
  split; [exact H4|].
  assert (Hsrc : source_of forgetful_bot scenario_A_message = Some live_100)
    by reflexivity.
  rewrite Hsrc in H7.
  match type of H7 with
  | if ?c then _ else _ =>
      assert (Hc : c = true) by (by vm_compute); rewrite Hc in H7
  end.
  destruct H7 as (_ & Hrows & _). rewrite Hrows. by vm_compute.
Defined.

(** ** Idempotence *)

(** C8, as stated, fails on two counts.  From a store that holds two
    links for the pair, each pass deletes one of them, so the second pass
    changes the store and the platform again.  And from scenario A, with
    no link at all, under a cache that does not resolve the mirror the
    first pass sends, the second pass drops the new link and sends a
    second mirror. *)
Lemma reconcile_idempotent_counterexample :
  (pass_world quiet_bot scenario_A_starboard scenario_A_message human
     (pass_world quiet_bot scenario_A_starboard scenario_A_message human
                 doubled_world)
   ≠ pass_world quiet_bot scenario_A_starboard scenario_A_message human
                doubled_world)
  ∧ at_most_one_link 100 50 (w_starboard_messages scenario_A_world)
  ∧ cache_ids forgetful_bot
  ∧ size (w_remote (pass_world forgetful_bot scenario_A_starboard
                               scenario_A_message human scenario_A_world))
    = 1%nat
  ∧ size (w_remote (pass_world forgetful_bot scenario_A_starboard
                      scenario_A_message human
                      (pass_world forgetful_bot scenario_A_starboard
                                  scenario_A_message human scenario_A_world)))
    = 2%nat.
Proof.
  split_and!.
  - intros H. apply (f_equal w_starboard_messages) in H.
    vm_compute in H. discriminate.
  - unfold at_most_one_link. vm_compute. lia.
  - intros g c i m. simpl. case_bool_decide; [|done]. intros [= <-]. by subst.
  - by vm_compute.
  - by vm_compute.
Qed.

(** C8, amended: from a store that holds at most one link for the pair,
    with a cache that answers with the message asked for and resolves the
    mirror the first pass sends (if it sends one), a second pass right
    after the first leaves the store and the platform exactly as the
    first left them, and at most one link for the pair exists
    afterwards. *)
Theorem reconcile_idempotent bot sb msg a w :
  at_most_one_link (m_id msg) (sb_id sb) (w_starboard_messages w) →
  cache_ids bot →
  (sends_mirror bot sb msg a w →
   is_Some (fetch_message bot (m_guild_id msg) (sb_id sb) (w_next_id w))) →
  let w1 := pass_world bot sb msg a w in
  pass_world bot sb msg a w1 = w1
  ∧ at_most_one_link (m_id msg) (sb_id sb) (w_starboard_messages w1).
Proof.
  intros Hu Hid Hf w1. subst w1.
  destruct (pass_link sb msg w) as [l|] eqn:Hl.
  2:{ (* no link *)
    assert (Hb : before_transition bot sb msg w = w)
      by (unfold before_transition; by rewrite Hl).
    rewrite (pass_world_run bot sb msg a w), Hl, Hb. simpl mirror_of.
    apply pass_twice_unlinked; [done|done| |].
    - intros _. by rewrite points_of_cases, Hl.
    - intros Hc. apply Hf. apply creates_sends; rewrite ?Hl, ?Hb; done. }
  destruct (mirror_of bot msg (Some l)) as [s|] eqn:Hs.
  2:{ (* a link whose mirror is gone *)
    assert (Hb : before_transition bot sb msg w
                 = set_links (delete_rows (sm_id l)) w)
      by (by apply before_transition_stale).
    rewrite (pass_world_run bot sb msg a w), Hl, Hs, Hb.
    apply pass_twice_unlinked; [|done| |].
    - apply find_none_count. simpl. by apply find_delete_rows_none.
    - intros Hfz. rewrite points_of_cases, Hl, Hfz. by apply calc_points_ext.
    - intros Hc. apply Hf. apply creates_sends; rewrite ?Hl, ?Hs, ?Hb; done. }
  (* a link whose mirror is resolved *)
  assert (Hsid : dm_id s = sm_id l) by (by apply Hid in Hs).
  set (p := points_of sb msg w).
  set (fl := decision bot sb msg a p (source_of bot msg)).
  assert (Hb : before_transition bot sb msg w
               = set_links (update_points p (sm_id l)) w).
  { unfold before_transition. rewrite Hl. cbv zeta. by rewrite Hs. }
  rewrite (pass_world_run bot sb msg a w), Hl, Hs, Hb. fold p fl.
  destruct (fl_delete fl) eqn:Hd.
  - (* the link and the mirror are deleted *)
    rewrite transition_remove by done. rewrite Hsid.
    set (w1 := set_remote _ _).
    assert (Hc1 : count_links (m_id msg) (sb_id sb) (w_starboard_messages w1)
                  = 0%nat).
    { unfold w1. simpl. rewrite delete_rows_update_points.
      by apply find_delete_rows_none. }
    assert (Hl1 : pass_link sb msg w1 = None) by (by apply find_none_count).
    split; [|unfold at_most_one_link; lia].
    apply pass_stable_unlinked; [done|].
    assert (Hfz : frozen msg = false)
      by (by apply (decision_delete_unfrozen bot sb msg a p (source_of bot msg))).
    assert (Hp1 : points_of sb msg w1 = p).
    { rewrite points_of_cases, Hl1. unfold p.
      rewrite points_of_cases, Hl, Hfz. by apply calc_points_ext. }
    rewrite Hp1. fold fl. unfold creates. by rewrite Hd.
  - (* the mirror is kept and edited *)
    rewrite transition_keep by done.
    set (w1 := set_remote _ _).
    assert (Hl1 : pass_link sb msg w1 = Some (with_points p l)).
    { unfold pass_link, w1. simpl. rewrite find_update_points.
      fold (pass_link sb msg w). rewrite Hl. simpl.
      by rewrite bool_decide_eq_true_2. }
    assert (Hp1 : points_of sb msg w1 = p).
    { rewrite points_of_cases, Hl1. simpl. unfold p.
      rewrite points_of_cases, Hl.
      destruct (frozen msg); [done|]. by apply calc_points_ext. }
    split.
    + apply (pass_stable_linked bot sb msg a w1 (with_points p l) s);
        rewrite ?Hp1; fold fl; [done|done|done| |].
      * unfold w1. simpl. apply update_points_idemp.
      * unfold w1. simpl. rewrite alter_alter_eq. apply alter_ext.
        intros x _. simpl. apply pass_edit_idemp.
    + unfold at_most_one_link, w1. simpl.
      by rewrite count_links_update_points.
Qed.

Lemma reconcile_idempotent_witness :
  (at_most_one_link (m_id scenario_A_message) (sb_id scenario_A_starboard)
                    (w_starboard_messages scenario_A_world)
   ∧ cache_ids quiet_bot
   ∧ (sends_mirror quiet_bot scenario_A_starboard scenario_A_message human
                   scenario_A_world →
      is_Some (fetch_message quiet_bot (m_guild_id scenario_A_message)
                             (sb_id scenario_A_starboard)
                             (w_next_id scenario_A_world))))
  ∧ pass_world quiet_bot scenario_A_starboard scenario_A_message human
      (pass_world quiet_bot scenario_A_starboard scenario_A_message human
                  scenario_A_world)
    = pass_world quiet_bot scenario_A_starboard scenario_A_message human
                 scenario_A_world.
Proof.
  assert (H1 : at_most_one_link (m_id scenario_A_message)
                 (sb_id scenario_A_starboard)
                 (w_starboard_messages scenario_A_world))
    by (unfold at_most_one_link; vm_compute; lia).
  assert (H2 : cache_ids quiet_bot) by (by intros g c i m [= <-]).
  assert (H3 : sends_mirror quiet_bot scenario_A_starboard scenario_A_message
                 human scenario_A_world →
               is_Some (fetch_message quiet_bot (m_guild_id scenario_A_message)
                          (sb_id scenario_A_starboard)
                          (w_next_id scenario_A_world)))
    by (intros _; by eexists).
  split; [by split_and!|].
  apply (reconcile_idempotent quiet_bot scenario_A_starboard scenario_A_message
           human scenario_A_world H1 H2 H3).
Defined.

(** * Further properties of the engine *)

(** ** The score *)

Lemma voters_determine_points w w' msg sb :
  (∀ u, voter w' msg sb u ↔ voter w msg sb u) →
  res_val (calculate_points msg sb w') = res_val (calculate_points msg sb w).
Proof.
  intros Hsame.
  destruct (calculate_points_voters w msg sb) as (V & p & HV & -> & -> & _).
  destruct (calculate_points_voters w' msg sb) as (V' & p' & HV' & -> & -> & _).
  do 3 f_equal. apply set_eq. intros u. by rewrite HV, HV'.
Qed.

(** X1: the score does not depend on the order in which the rows of
    [reaction_users] come back: any permutation of them gives the same
    points. *)
Theorem calculate_points_order_independent w msg sb rows :
  rows ≡ₚ w_reaction_users w →
  res_val (calculate_points msg sb (with_reaction_users rows w))
  = res_val (calculate_points msg sb w).
Proof.
  intros Hperm. apply voters_determine_points. intros u. unfold voter. simpl.
  split; intros (ru & r & Hru & H); exists ru, r; split; try done.
  - by rewrite <- Hperm.
  - by rewrite Hperm.
Qed.

Lemma calculate_points_order_independent_witness :
  reverse (w_reaction_users scenario_A_world) ≡ₚ w_reaction_users scenario_A_world
  ∧ res_val (calculate_points scenario_A_message scenario_A_starboard
               (with_reaction_users (reverse (w_reaction_users scenario_A_world))
                                    scenario_A_world))
    = res_val (calculate_points scenario_A_message scenario_A_starboard
                                scenario_A_world).
Proof.
  split; [apply reverse_Permutation|].
  apply (calculate_points_order_independent scenario_A_world scenario_A_message
           scenario_A_starboard).
  apply reverse_Permutation.
Defined.

(** X2: allowing self stars changes the score by the author's own vote
    and nothing else: the points with [self_star] on are the points with
    it off, or one more. *)
Theorem self_star_adds_at_most_one w msg sb :
  ∃ p q,
    res_val (calculate_points msg (with_self_star false sb) w) = inr p
    ∧ res_val (calculate_points msg (with_self_star true sb) w) = inr q
    ∧ p ≤ q ≤ p + 1.
Proof.
  destruct (calculate_points_voters w msg (with_self_star false sb))
    as (V & p & HV & Hp & -> & _).
  destruct (calculate_points_voters w msg (with_self_star true sb))
    as (V' & q & HV' & Hq & -> & _).
  eexists _, _. split_and!; [done|done| |].
  - apply inj_le, subseteq_size. intros u. rewrite HV, HV'. unfold voter. simpl.
    intros (ru & r & ? & ? & ? & ? & ? & _). exists ru, r. by split_and!.
  - destruct (m_author_id msg) as [author|] eqn:Ha.
    + assert (Hsub : V' ⊆ {[author]} ∪ V).
      { intros u. rewrite elem_of_union, elem_of_singleton, HV, HV'.
        unfold voter. simpl. intros (ru & r & ? & ? & ? & ? & ? & _).
        destruct (decide (u = author)) as [->|Hne]; [by left|right].
        exists ru, r. split_and!; try done. intros _. rewrite Ha. congruence. }
      apply subseteq_size in Hsub.
      pose proof (size_union_alt {[author]} V) as Hu.
      rewrite size_singleton in Hu.
      pose proof (subseteq_size (V ∖ {[author]}) V ltac:(set_solver)). lia.
    + assert (Hsub : V' ⊆ V).
      { intros u. rewrite HV, HV'. unfold voter. simpl.
        intros (ru & r & ? & ? & ? & ? & ? & _). exists ru, r.
        split_and!; try done. intros _. by rewrite Ha. }
      apply subseteq_size in Hsub. lia.
Qed.

(** ** The decision *)

Lemma decision_unfrozen bot sb msg a points message :
  frozen msg = false → sb_id sb ∉ forced msg →
  decision bot sb msg a points message
  = mkFlags (negb (rejects bot sb msg a message) && (required sb <=? points))
            (rejects bot sb msg a message
             || (negb (required sb <=? points)
                 && (points <=? required_remove sb)))
            false false.
Proof.
  intros Hfz Hfo. unfold decision, rule_forced, rule_frozen.
  rewrite Hfz, (bool_decide_eq_false_2 _ Hfo).
  unfold regex_flags, flags_before_regex, rule_nsfw, rule_link_deletes,
    rule_thresholds, rejects, with_add_delete.
  destruct (negb (allow_bots sb) && is_bot a),
    (link_deletes sb && bool_decide (message = None)),
    (is_nsfw msg && negb (allow_nsfw sb)),
    (required sb <=? points), (points <=? required_remove sb);
    destruct message as [m|]; simpl;
    repeat (match goal with
            | |- context [negb ?b && bool_decide ?P] =>
                destruct (negb b && bool_decide P); simpl
            end); reflexivity.
Qed.

(** X3: for a message that is neither frozen nor forced the eight rules
    come down to this: [add] holds when no rejection rule (bots,
    link_deletes, NSFW, regex, exclude_regex) fires and the points reach
    [required]; [delete] holds when a rejection rule fires, or the points
    are below [required] and at most [required_remove]. *)
Theorem unfrozen_decision bot sb msg a points message w :
  frozen msg = false →
  sb_id sb ∉ forced msg →
  res_val (evaluate bot sb msg (Some a) points message w)
  = inr (mkFlags (negb (rejects bot sb msg a message) && (required sb <=? points))
                 (rejects bot sb msg a message
                  || (negb (required sb <=? points)
                      && (points <=? required_remove sb)))
                 false false).
Proof.
  intros Hfz Hfo. rewrite (evaluate_run bot sb msg a points message w).
  simpl. f_equal. by apply decision_unfrozen.
Qed.

Lemma unfrozen_decision_witness :
  (frozen scenario_A_message = false
   ∧ sb_id regex_starboard ∉ forced scenario_A_message)
  ∧ res_val (evaluate quiet_bot regex_starboard scenario_A_message (Some human) 5
                      (Some live_100) scenario_A_world)
    = inr (mkFlags false true false false).
Proof.
  assert (H : sb_id regex_starboard ∉ forced scenario_A_message)
    by (simpl; apply not_elem_of_nil).
  split; [by split|].
  rewrite (unfrozen_decision quiet_bot regex_starboard scenario_A_message human 5
             (Some live_100) scenario_A_world eq_refl H).
  reflexivity.
Defined.

(** X4: a frozen message that is not forced is decided neither [add] nor
    [delete], whatever its points, its author and the filters say; only
    the frozen mark is set. *)
Theorem frozen_decision bot sb msg a points message w :
  frozen msg = true →
  sb_id sb ∉ forced msg →
  res_val (evaluate bot sb msg (Some a) points message w)
  = inr (mkFlags false false false true).
Proof.
  intros Hfz Hfo. rewrite (evaluate_run bot sb msg a points message w).
  simpl. f_equal.
  pose proof (regex_flags_unmarked bot sb message _
                (flags_before_regex_unmarked sb msg a points message)) as [H _].
  unfold decision, rule_forced, rule_frozen.
  by rewrite Hfz, (bool_decide_eq_false_2 _ Hfo), H.
Qed.

Lemma frozen_decision_witness :
  (frozen frozen_message = true ∧ sb_id tie_starboard ∉ forced frozen_message)
  ∧ res_val (evaluate quiet_bot tie_starboard frozen_message (Some human) 5
                      (Some live_100) scenario_A_world)
    = inr (mkFlags false false false true).
Proof.
  assert (H : sb_id tie_starboard ∉ forced frozen_message)
    by (simpl; apply not_elem_of_nil).
  split; [by split|].
  apply (frozen_decision quiet_bot tie_starboard frozen_message human 5
           (Some live_100) scenario_A_world eq_refl H).
Defined.

(** X5: whatever the inputs, the decision never holds [add] and [delete]
    together. *)
Theorem never_add_and_delete bot sb msg a points message w :
  ∃ fl, res_val (evaluate bot sb msg (Some a) points message w) = inr fl
        ∧ fl_add fl && fl_delete fl = false.
Proof.
  rewrite (evaluate_run bot sb msg a points message w). simpl.
  eexists. split; [done|].
  destruct (decide (sb_id sb ∈ forced msg)) as [Hfo|Hfo].
  { unfold decision, rule_forced. by rewrite (bool_decide_eq_true_2 _ Hfo). }
  destruct (frozen msg) eqn:Hfz.
  - unfold decision, rule_forced, rule_frozen.
    by rewrite Hfz, (bool_decide_eq_false_2 _ Hfo).
  - rewrite decision_unfrozen by done. simpl.
    destruct (rejects bot sb msg a message), (required sb <=? points); done.
Qed.

(** ** What a pass leaves alone *)

Lemma only_links_and_mirrors_refl w : only_links_and_mirrors w w.
Proof. unfold only_links_and_mirrors. split_and!; try done. Qed.

Lemma only_links_and_mirrors_trans w1 w2 w3 :
  only_links_and_mirrors w1 w2 → only_links_and_mirrors w2 w3 →
  only_links_and_mirrors w1 w3.
Proof.
  unfold only_links_and_mirrors.
  intros (-> & -> & -> & -> & -> & -> & -> & -> & ?)
         (-> & -> & -> & -> & -> & -> & -> & -> & ?).
  split_and!; try done. lia.
Qed.

Lemma keeps_ret {A} (a : A) : keeps_tables (ret a).
Proof. intros w. apply only_links_and_mirrors_refl. Qed.

Lemma keeps_raise {A} e : keeps_tables (@raise A e).
Proof. intros w. apply only_links_and_mirrors_refl. Qed.

Lemma keeps_emit e : keeps_tables (emit e).
Proof. intros w. apply only_links_and_mirrors_refl. Qed.

Lemma keeps_get_world : keeps_tables get_world.
Proof. intros w. apply only_links_and_mirrors_refl. Qed.

Lemma keeps_lift_exn {A} (x : Exn + A) : keeps_tables (lift_exn x).
Proof. intros w. apply only_links_and_mirrors_refl. Qed.

Lemma keeps_modify f :
  (∀ w, only_links_and_mirrors w (f w)) → keeps_tables (modify f).
Proof. intros H w. apply H. Qed.

Lemma keeps_bind {A B} (m : M A) (f : A → M B) :
  keeps_tables m → (∀ a, keeps_tables (f a)) → keeps_tables (bind m f).
Proof.
  intros Hm Hf w. unfold bind. cbv zeta.
  destruct (res_val (m w)) as [e|a] eqn:E; cbn [res_world]; [apply Hm|].
  eapply only_links_and_mirrors_trans; [apply Hm|apply Hf].
Qed.

Lemma keeps_for_each {A} (xs : list A) (body : A → M unit) :
  (∀ x, keeps_tables (body x)) → keeps_tables (for_each xs body).
Proof.
  intros H. induction xs as [|x xs IH]; simpl; [apply keeps_ret|].
  apply keeps_bind; [apply H|by intros _].
Qed.

Lemma set_links_keeps f w : only_links_and_mirrors w (set_links f w).
Proof. unfold only_links_and_mirrors. simpl. split_and!; try done. Qed.

Lemma set_remote_keeps f w : only_links_and_mirrors w (set_remote f w).
Proof. unfold only_links_and_mirrors. simpl. split_and!; try done. Qed.

Lemma bump_next_id_keeps w : only_links_and_mirrors w (bump_next_id w).
Proof. unfold only_links_and_mirrors. simpl. split_and!; try done. lia. Qed.

(** Every computation of the engine is put together from these. *)
Ltac keeps :=
  repeat first
    [ progress intros
    | apply keeps_ret | apply keeps_raise | apply keeps_emit
    | apply keeps_get_world | apply keeps_lift_exn
    | apply keeps_modify;
      first [apply set_links_keeps | apply set_remote_keeps
            | intros; eapply only_links_and_mirrors_trans;
              [apply set_remote_keeps|apply bump_next_id_keeps] ]
    | apply keeps_bind | apply keeps_for_each
    | match goal with
      | |- keeps_tables (match ?x with _ => _ end) => destruct x
      | |- keeps_tables (if ?b then _ else _) => destruct b
      end ].

Lemma handle_starboard_keeps bot sb msg author :
  keeps_tables (handle_starboard bot sb msg author).
Proof.
  unfold handle_starboard, fetchrow_link, pass_points, calculate_points,
    select_reactions, select_reaction_users, set_points, evaluate, rule_bots,
    subscript_is_bot, rule_regex, rule_exclude_regex, try_regex, resolve_mirror,
    transition, delete_link, remote_delete, remote_edit, create_mirror,
    remote_send, create_starboard_message, set_points, autoreact_one,
    add_reaction.
  keeps.
Qed.

Lemma handle_trashed_message_keeps bot sb msg author :
  keeps_tables (handle_trashed_message bot sb msg author).
Proof.
  unfold handle_trashed_message, fetchrow_link, remote_edit. keeps.
Qed.

(** X6: whatever [update_message] and [handle_starboard] do, and however
    they end (also when they raise), they only touch the links and the
    messages on the platform: the starboards, the messages, the users,
    the reactions and their users are left as they were, and the id of
    the next message never goes back. *)
Theorem pass_only_touches_links_and_mirrors bot :
  (∀ sb msg author w,
     only_links_and_mirrors w (res_world (handle_starboard bot sb msg author w)))
  ∧ (∀ message_id guild_id w,
       only_links_and_mirrors w
         (res_world (update_message bot message_id guild_id w))).
Proof.
  split; [intros; apply handle_starboard_keeps|].
  intros message_id guild_id. unfold update_message.
  apply keeps_bind; [apply keeps_get_world|]. intros w0.
  destruct (get_message w0 message_id) as [m|]; [|apply keeps_ret].
  destruct (negb (trashed m)); apply keeps_for_each; intros s.
  - apply handle_starboard_keeps.
  - apply handle_trashed_message_keeps.
Qed.

(** ** A link whose mirror is resolved *)

Lemma transition_remove_run bot sb msg p fl message s w :
  fl_delete fl = true →
  transition bot sb msg p fl message (Some s) w
  = mkRes (set_remote (delete (dm_id s)) (set_links (delete_rows (dm_id s)) w))
          [Db (DeleteLink (dm_id s)); Remote (DeleteMessage (dm_id s))]
          (inr tt).
Proof. intros Hd. unfold transition. by rewrite Hd. Qed.

Lemma transition_keep_run bot sb msg p fl message s w :
  fl_delete fl = false →
  transition bot sb msg p fl message (Some s) w
  = mkRes (set_remote (alter (pass_edit bot sb msg p fl message) (dm_id s)) w)
          [Remote (EditMessage (dm_id s) (Some (plain_text bot sb msg p fl))
                     (match message with
                      | Some m =>
                          if link_edits sb
                          then Some (embed_message bot m (color sb)) else None
                      | None => None
                      end))]
          (inr tt).
Proof.
  intros Hd. unfold transition, pass_edit. rewrite Hd.
  destruct message as [m|]; [|done]. by destruct (link_edits sb).
Qed.

Lemma before_transition_resolved bot sb msg l s w :
  pass_link sb msg w = Some l →
  mirror_of bot msg (Some l) = Some s →
  before_transition bot sb msg w
  = set_links (update_points (points_of sb msg w) (sm_id l)) w.
Proof.
  intros Hl Hs. unfold before_transition. rewrite Hl. cbv zeta. by rewrite Hs.
Qed.

(** X7: when the link's mirror is resolved and the decision is [delete],
    the pass deletes the rows of that mirror from the store and then the
    mirror from the platform, in this order, and returns; no other
    message of the platform is touched and nothing is sent. *)
Theorem ineligible_mirror_is_removed bot sb msg a l s w :
  pass_link sb msg w = Some l →
  mirror_of bot msg (Some l) = Some s →
  fl_delete (decision bot sb msg a (points_of sb msg w) (source_of bot msg))
  = true →
  let r := handle_starboard bot sb msg (Some a) w in
  res_val r = inr tt
  ∧ w_starboard_messages (res_world r)
    = delete_rows (dm_id s)
        (update_points (points_of sb msg w) (sm_id l) (w_starboard_messages w))
  ∧ Forall (λ row, sm_id row ≠ dm_id s) (w_starboard_messages (res_world r))
  ∧ w_remote (res_world r) = delete (dm_id s) (w_remote w)
  ∧ w_next_id (res_world r) = w_next_id w
  ∧ ∃ t, Forall is_local t
         ∧ res_trace r = t ++ [Db (DeleteLink (dm_id s));
                               Remote (DeleteMessage (dm_id s))].
Proof.
  intros Hl Hs Hd r. subst r. rewrite handle_starboard_run.
  rewrite Hl, Hs, (before_transition_resolved bot sb msg l s w) by done.
  rewrite transition_remove_run by done.
  cbn [res_world res_trace res_val]. split_and!; try done.
  - simpl. unfold delete_rows. apply Forall_forall. intros row Hrow.
    by apply list_elem_of_filter in Hrow as [? _].
  - eexists. split; [|reflexivity].
    unfold before_transition_trace. rewrite Hl, Hs.
    assert (Hp : Forall is_local
                   (res_trace (pass_points sb msg (Some l) w))).
    { unfold pass_points. destruct (negb _ || _); [|apply Forall_nil_2].
      rewrite calculate_points_run. solve_listed. }
    assert (Hlog : Forall is_local (decision_log bot sb (source_of bot msg))).
    { eapply Forall_impl; [apply decision_log_is_log|]. by intros [| |]. }
    repeat (apply Forall_app; split); try done; solve_listed.
Qed.

Lemma ineligible_mirror_is_removed_witness :
  (pass_link scenario_A_starboard scenario_A_message linked_world_201
   = Some (mkSbMessage 201 100 50 3)
   ∧ mirror_of quiet_bot scenario_A_message (Some (mkSbMessage 201 100 50 3))
     = Some (mkDMessage 201 (lit "hello")
               (lit "https://discord.com/channels/1/10/100") [])
   ∧ fl_delete (decision quiet_bot scenario_A_starboard scenario_A_message human
                  (points_of scenario_A_starboard scenario_A_message
                             linked_world_201)
                  (source_of quiet_bot scenario_A_message)) = true)
  ∧ w_remote (res_world (handle_starboard quiet_bot scenario_A_starboard
                           scenario_A_message (Some human) linked_world_201))
    = delete 201 (w_remote linked_world_201).
Proof.
  split; [split_and!; by vm_compute|].
  pose proof (ineligible_mirror_is_removed quiet_bot scenario_A_starboard
                scenario_A_message human (mkSbMessage 201 100 50 3)
                (mkDMessage 201 (lit "hello")
                   (lit "https://discord.com/channels/1/10/100") [])
                linked_world_201) as H.
  destruct H as (_ & _ & _ & H & _); [by vm_compute..|].
  exact H.
Defined.

(** ** When a mirror is sent *)

Lemma before_transition_is_local bot sb msg w :
  Forall is_local (before_transition_trace bot sb msg w).
Proof.
  unfold before_transition_trace.
  assert (Hp : Forall is_local
                 (res_trace (pass_points sb msg (pass_link sb msg w) w))).
  { unfold pass_points. destruct (negb _ || _).
    - rewrite calculate_points_run. solve_listed.
    - destruct (pass_link sb msg w); apply Forall_nil_2. }
  assert (Hlog : Forall is_local (decision_log bot sb (source_of bot msg))).
  { eapply Forall_impl; [apply decision_log_is_log|]. by intros [| |]. }
  repeat (apply Forall_app; split); try done; try solve_listed.
  - destruct (pass_link sb msg w); solve_listed.
  - destruct (pass_link sb msg w) as [l|]; [|solve_listed].
    destruct (mirror_of bot msg (Some l)); solve_listed.
Qed.

Lemma local_not_send t e : Forall is_local t → e ∈ t → ¬ is_send e.
Proof.
  intros Ht He. rewrite Forall_forall in Ht. specialize (Ht e He).
  destruct e as [| [] |]; simpl in *; tauto.
Qed.

Lemma autoreact_loop_no_send bot sb n emojis w :
  Forall (λ e, ¬ is_send e)
         (res_trace (for_each emojis (autoreact_one bot sb n) w)).
Proof.
  revert w. induction emojis as [|emoji emojis IH]; intros w; [solve_listed|].
  simpl. unfold bind. cbv zeta. rewrite autoreact_one_run.
  destruct (reaction_emoji bot w emoji) as [e|]; [|solve_listed].
  destruct (w_can_react w); cbn [res_val res_world res_trace];
    (apply Forall_app; split; [solve_listed|apply IH]).
Qed.

Lemma filter_none {A} (P : A → Prop) `{∀ x, Decision (P x)} (l : list A) :
  Forall (λ x, ¬ P x) l → filter P l = [].
Proof.
  induction 1 as [|x l Hx _ IH]; [done|]. by rewrite filter_cons_False.
Qed.

Lemma create_mirror_trace bot sb p text embed m w :
  ∃ t, res_trace (create_mirror bot sb p text embed m w)
       = Remote (SendMessage (sb_id sb) text embed) :: t
       ∧ Forall (λ e, ¬ is_send e) t.
Proof.
  destruct (w_can_send w) eqn:Hsend.
  2:{ rewrite create_mirror_forbidden by done. eexists. split; [done|].
      solve_listed. }
  unfold create_mirror.
  erewrite bind_run by (rewrite remote_send_run, Hsend; reflexivity).
  cbv beta iota.
  erewrite bind_run by apply create_starboard_message_run.
  erewrite bind_run by apply set_points_run.
  cbn [res_trace app]. eexists. split; [done|].
  repeat (apply Forall_cons_2; [simpl; tauto|]).
  destruct (autoreact sb); [apply autoreact_loop_no_send|solve_listed].
Qed.

(** X9: a pass sends at most one message, and only to create a mirror:
    when a send is in the trace, no mirror of the pair was resolved, the
    decision is [add] and not [delete], the source message is resolved,
    and what is sent to the starboard's channel is the line of the pass
    with the embed of the source. *)
Theorem sends_only_to_create bot sb msg a w channel text embed :
  Remote (SendMessage channel text embed)
  ∈ res_trace (handle_starboard bot sb msg (Some a) w) →
  let p := points_of sb msg w in
  let fl := decision bot sb msg a p (source_of bot msg) in
  mirror_of bot msg (pass_link sb msg w) = None
  ∧ fl_add fl = true
  ∧ fl_delete fl = false
  ∧ channel = sb_id sb
  ∧ text = plain_text bot sb msg p fl
  ∧ (∃ m, source_of bot msg = Some m
          ∧ embed = Some (embed_message bot m (color sb)))
  ∧ length (filter is_send (res_trace (handle_starboard bot sb msg (Some a) w)))
    = 1%nat.
Proof.
  intros Hin p fl. rewrite handle_starboard_run in Hin |- *.
  cbn [res_trace] in *. fold p fl in Hin |- *.
  set (w0 := before_transition bot sb msg w) in *.
  assert (Hpre : filter is_send (before_transition_trace bot sb msg w) = []).
  { apply filter_none, Forall_forall. intros e He.
    by apply (local_not_send _ e (before_transition_is_local bot sb msg w)). }
  rewrite filter_app, Hpre. cbn [app].
  apply elem_of_app in Hin as [Hin|Hin].
  { by apply (local_not_send _ _ (before_transition_is_local bot sb msg w)) in Hin. }
  destruct (mirror_of bot msg (pass_link sb msg w)) as [s|].
  { destruct (fl_delete fl) eqn:Hd.
    - rewrite transition_remove_run in Hin by done. cbn [res_trace] in Hin.
      set_solver.
    - rewrite transition_keep_run in Hin by done. cbn [res_trace] in Hin.
      set_solver. }
  unfold transition in Hin |- *.
  destruct (fl_delete fl) eqn:Hd; [by apply elem_of_nil in Hin|].
  destruct (source_of bot msg) as [m|]; [|by apply elem_of_nil in Hin].
  destruct (fl_add fl) eqn:Ha; [|by apply elem_of_nil in Hin].
  cbn [fmap option_fmap option_map] in *.
  destruct (create_mirror_trace bot sb p (plain_text bot sb msg p fl)
              (Some (embed_message bot m (color sb))) m w0) as (t & Ht & Hno).
  rewrite Ht in Hin |- *.
  rewrite filter_cons_True, (filter_none _ _ Hno) by done.
  apply elem_of_cons in Hin as [[= -> -> ->]|Hin].
  - split_and!; try done. by exists m.
  - rewrite Forall_forall in Hno. by apply Hno in Hin.
Qed.

Lemma sends_only_to_create_witness :
  Remote (SendMessage 50
            (plain_text quiet_bot scenario_A_starboard scenario_A_message 3
                        (mkFlags true false false false))
            (Some (embed_message quiet_bot live_100 None)))
  ∈ res_trace (handle_starboard quiet_bot scenario_A_starboard scenario_A_message
                                (Some human) scenario_A_world)
  ∧ length (filter is_send
              (res_trace (handle_starboard quiet_bot scenario_A_starboard
                            scenario_A_message (Some human) scenario_A_world)))
    = 1%nat.
Proof.
  assert (H : Remote (SendMessage 50
                (plain_text quiet_bot scenario_A_starboard scenario_A_message 3
                            (mkFlags true false false false))
                (Some (embed_message quiet_bot live_100 None)))
              ∈ res_trace (handle_starboard quiet_bot scenario_A_starboard
                             scenario_A_message (Some human) scenario_A_world)).
  { vm_compute. do 3 apply list_elem_of_further. apply list_elem_of_here. }
  split; [exact H|].
  apply (sends_only_to_create quiet_bot scenario_A_starboard scenario_A_message
           human scenario_A_world _ _ _ H).
Defined.

(** ** When a mirror is edited *)

Lemma autoreact_loop_no_edit bot sb n emojis w :
  Forall (λ e, ¬ is_edit e)
         (res_trace (for_each emojis (autoreact_one bot sb n) w)).
Proof.
  revert w. induction emojis as [|emoji emojis IH]; intros w; [solve_listed|].
  simpl. unfold bind. cbv zeta. rewrite autoreact_one_run.
  destruct (reaction_emoji bot w emoji) as [e|]; [|solve_listed].
  destruct (w_can_react w); cbn [res_val res_world res_trace];
    (apply Forall_app; split; [solve_listed|apply IH]).
Qed.

Lemma create_mirror_no_edit bot sb p text embed m w :
  Forall (λ e, ¬ is_edit e)
         (res_trace (create_mirror bot sb p text embed m w)).
Proof.
  destruct (w_can_send w) eqn:Hsend.
  2:{ rewrite create_mirror_forbidden by done. solve_listed. }
  unfold create_mirror.
  erewrite bind_run by (rewrite remote_send_run, Hsend; reflexivity).
  cbv beta iota.
  erewrite bind_run by apply create_starboard_message_run.
  erewrite bind_run by apply set_points_run.
  cbn [res_trace]. rewrite !Forall_app. split_and!; try solve_listed.
  destruct (autoreact sb); [apply autoreact_loop_no_edit|solve_listed].
Qed.

(** X8: a pass edits a message only to update a mirror it keeps.  When
    an edit is in the trace of the pass, the pair has a link, the cache
    resolved its mirror and the decision is not [delete]; the edit is
    the last thing the pass does and the only thing it asks of the
    platform; it puts the line of the pass on that mirror, with the embed
    of the source when [link_edits] is on and the source is resolved and
    without an embed otherwise; the pass returns, the link is kept with
    the points of the pass written on it, the mirror keeps its channel
    and its reactions, and no other message on the platform changes.
    And when the source is not resolved, so that nothing is rendered, a
    resolved mirror that is not to be deleted always gets this edit. *)
Theorem edit_updates_kept_mirror bot sb msg a w :
  let p := points_of sb msg w in
  let message := source_of bot msg in
  let fl := decision bot sb msg a p message in
  let r := handle_starboard bot sb msg (Some a) w in
  (∀ i text embed,
     Remote (EditMessage i text embed) ∈ res_trace r →
     ∃ l s,
       pass_link sb msg w = Some l
       ∧ mirror_of bot msg (Some l) = Some s
       ∧ fl_delete fl = false
       ∧ i = dm_id s
       ∧ text = Some (plain_text bot sb msg p fl)
       ∧ embed = match message with
                 | Some m =>
                     if link_edits sb
                     then Some (embed_message bot m (color sb)) else None
                 | None => None
                 end
       ∧ res_val r = inr tt
       ∧ w_starboard_messages (res_world r)
         = update_points p (sm_id l) (w_starboard_messages w)
       ∧ (∀ k, w_remote (res_world r) !! k
               = if decide (k = dm_id s)
                 then kept_mirror bot sb (plain_text bot sb msg p fl) message
                      <$> w_remote w !! k
                 else w_remote w !! k)
       ∧ w_next_id (res_world r) = w_next_id w
       ∧ ∃ t, Forall is_local t
              ∧ res_trace r = t ++ [Remote (EditMessage i text embed)])
  ∧ (∀ l s,
       pass_link sb msg w = Some l →
       mirror_of bot msg (Some l) = Some s →
       fl_delete fl = false →
       message = None →
       Remote (EditMessage (dm_id s) (Some (plain_text bot sb msg p fl)) None)
       ∈ res_trace r).
Proof.
  intros p message fl r.
  assert (Hrun : r = mkRes
            (res_world (transition bot sb msg p fl message
                          (mirror_of bot msg (pass_link sb msg w))
                          (before_transition bot sb msg w)))
            (before_transition_trace bot sb msg w
             ++ res_trace (transition bot sb msg p fl message
                             (mirror_of bot msg (pass_link sb msg w))
                             (before_transition bot sb msg w)))
            (res_val (transition bot sb msg p fl message
                        (mirror_of bot msg (pass_link sb msg w))
                        (before_transition bot sb msg w)))).
  { subst r. by rewrite handle_starboard_run. }
  assert (Hlocal : ∀ e, e ∈ before_transition_trace bot sb msg w → ¬ is_edit e).
  { intros e He.
    pose proof (before_transition_is_local bot sb msg w) as Hl.
    rewrite Forall_forall in Hl. specialize (Hl e He).
    destruct e as [| [] |]; simpl in *; tauto. }
  rewrite Hrun. cbn [res_world res_trace res_val]. split.
  - intros i text embed Hin.
    apply elem_of_app in Hin as [Hin|Hin]; [by apply Hlocal in Hin|].
    destruct (pass_link sb msg w) as [l|] eqn:Hl.
    2:{ exfalso. cbn [mirror_of] in Hin. unfold transition in Hin.
        destruct (fl_delete fl); [by apply elem_of_nil in Hin|].
        destruct message as [m|]; [|by apply elem_of_nil in Hin].
        destruct (fl_add fl); [|by apply elem_of_nil in Hin].
        cbn [fmap option_fmap option_map] in Hin.
        pose proof (create_mirror_no_edit bot sb p (plain_text bot sb msg p fl)
                      (Some (embed_message bot m (color sb))) m
                      (before_transition bot sb msg w)) as Hno.
        rewrite Forall_forall in Hno. by apply Hno in Hin. }
    destruct (mirror_of bot msg (Some l)) as [s|] eqn:Hs.
    2:{ exfalso. unfold transition in Hin.
        destruct (fl_delete fl); [by apply elem_of_nil in Hin|].
        destruct message as [m|]; [|by apply elem_of_nil in Hin].
        destruct (fl_add fl); [|by apply elem_of_nil in Hin].
        cbn [fmap option_fmap option_map] in Hin.
        pose proof (create_mirror_no_edit bot sb p (plain_text bot sb msg p fl)
                      (Some (embed_message bot m (color sb))) m
                      (before_transition bot sb msg w)) as Hno.
        rewrite Forall_forall in Hno. by apply Hno in Hin. }
    destruct (fl_delete fl) eqn:Hd.
    { exfalso. rewrite transition_remove_run in Hin by done.
      cbn [res_trace] in Hin. set_solver. }
    rewrite transition_keep_run in Hin |- * by done.
    cbn [res_world res_trace res_val] in Hin |- *.
    apply list_elem_of_singleton in Hin. injection Hin as -> -> ->.
    exists l, s.
    rewrite (before_transition_resolved bot sb msg l s w) by done.
    split_and!; try done.
    + intros k. simpl. rewrite lookup_alter.
      destruct (decide (k = dm_id s)) as [->|Hk].
      * case_decide; [|done].
        destruct (w_remote w !! dm_id s) as [mi|]; [|done]. simpl. f_equal.
        unfold pass_edit, edit_mirror, kept_mirror. simpl.
        by destruct message, (link_edits sb).
      * case_decide; [congruence|done].
    + eexists. split; [apply before_transition_is_local|done].
  - intros l s Hl Hs Hd Hm. rewrite Hl, Hs.
    rewrite transition_keep_run by done. cbn [res_trace].
    apply elem_of_app. right. rewrite Hm. apply list_elem_of_here.
Qed.

Lemma edit_updates_kept_mirror_witness :
  Remote (EditMessage 201
            (Some (plain_text quiet_bot scenario_A_starboard scenario_A_message
                     2 (mkFlags false false false false)))
            (Some (embed_message quiet_bot
                     (mkDMessage 100 (lit "hello")
                        (lit "https://discord.com/channels/1/10/100") [])
                     None)))
  ∈ res_trace (handle_starboard quiet_bot scenario_A_starboard
                 scenario_A_message (Some human) scenario_B_world)
  ∧ w_starboard_messages
      (res_world (handle_starboard quiet_bot scenario_A_starboard
                    scenario_A_message (Some human) scenario_B_world))
    = [mkSbMessage 201 100 50 2].
Proof.
  assert (Hin : Remote (EditMessage 201
                  (Some (plain_text quiet_bot scenario_A_starboard
                           scenario_A_message 2 (mkFlags false false false false)))
                  (Some (embed_message quiet_bot
                           (mkDMessage 100 (lit "hello")
                              (lit "https://discord.com/channels/1/10/100") [])
                           None)))
                ∈ res_trace (handle_starboard quiet_bot scenario_A_starboard
                               scenario_A_message (Some human) scenario_B_world)).
  { vm_compute. repeat first [by left | right]. }
  split; [exact Hin|].
  destruct (edit_updates_kept_mirror quiet_bot scenario_A_starboard
              scenario_A_message human scenario_B_world) as [H _].
  destruct (H _ _ _ Hin) as (l & s & Hl & _ & _ & _ & _ & _ & _ & Hrows & _).
  rewrite Hrows. vm_compute in Hl. injection Hl as <-. by vm_compute.
Defined.

(** ** The autoreact loop *)

Lemma reaction_emoji_set_remote bot f w emoji :
  reaction_emoji bot (set_remote f w) emoji = reaction_emoji bot w emoji.
Proof. reflexivity. Qed.

(** X10: when the bot may not react, the autoreact loop leaves the world
    as it was and adds no reaction.  It goes through the star emojis in
    order: each Unicode emoji and each custom emoji of the guild is tried
    and answered by one notification.  When all the star emojis are of
    these, the loop returns normally; at the first custom emoji that the
    guild no longer has, [add_reaction] is handed [None] and raises
    [InvalidArgument] before any call, and the loop ends there, the
    later emojis neither tried nor reported. *)
Theorem autoreact_reports_each_refusal bot sb n emojis w :
  w_can_react w = false →
  for_each emojis (autoreact_one bot sb n) w
  = mkRes w
      (List.flat_map (refused_reaction bot sb n w) (known_prefix bot w emojis))
      (if bool_decide (known_prefix bot w emojis = emojis)
       then inr tt else inl InvalidArgument)
  ∧ (emojis_known bot w emojis ↔ known_prefix bot w emojis = emojis).
Proof.
  intros Hperm. split.
  - induction emojis as [|emoji emojis IH]; [done|].
    cbn [for_each known_prefix]. unfold bind. cbv zeta.
    rewrite autoreact_one_run.
    destruct (reaction_emoji bot w emoji) as [e|] eqn:He.
    + rewrite Hperm. cbn [res_val res_world res_trace]. rewrite IH.
      cbn [List.flat_map res_world res_trace res_val].
      unfold refused_reaction at 2. rewrite He. cbn [app].
      f_equal. destruct (decide (known_prefix bot w emojis = emojis)) as [Hk|Hk].
      * by rewrite !bool_decide_eq_true_2 by congruence.
      * by rewrite !bool_decide_eq_false_2 by congruence.
    + cbn [res_val res_world res_trace List.flat_map].
      by rewrite bool_decide_eq_false_2.
  - unfold emojis_known. induction emojis as [|emoji emojis IH]; [done|].
    cbn [known_prefix]. rewrite Forall_cons.
    destruct (reaction_emoji bot w emoji) as [e|].
    + split.
      * intros [_ H]. f_equal. by apply IH.
      * intros [= H]. split; [by eexists|by apply IH].
    + split; [by intros [[? ?] _]|done].
Qed.

Lemma autoreact_reports_each_refusal_witness :
  w_can_react unreactive_world = false
  ∧ for_each (star_emojis two_star_starboard)
             (autoreact_one quiet_bot two_star_starboard 1000) unreactive_world
    = mkRes unreactive_world
        [Remote (AddReaction 1000 (Some (Unicode star)));
         GuildLog (autoreact_forbidden_text 50) (lit "error");
         Remote (AddReaction 1000 (Some (Unicode [127775%N])));
         GuildLog (autoreact_forbidden_text 50) (lit "error")]
        (inr tt)
  ∧ for_each (star_emojis custom_star_starboard)
             (autoreact_one reading_bot custom_star_starboard 1000)
             unreactive_world
    = mkRes unreactive_world [] (inl InvalidArgument).
Proof.
  split; [reflexivity|]. split.
  - destruct (autoreact_reports_each_refusal quiet_bot two_star_starboard 1000
                (star_emojis two_star_starboard) unreactive_world eq_refl)
      as [H _].
    rewrite H. reflexivity.
  - destruct (autoreact_reports_each_refusal reading_bot custom_star_starboard
                1000 (star_emojis custom_star_starboard) unreactive_world
                eq_refl) as [H _].
    rewrite H. reflexivity.
Defined.

Lemma react_mirror_elem e mi : e ∈ mi_reactions (react_mirror e mi).
Proof.
  unfold react_mirror. simpl. case_bool_decide; [done|].
  apply elem_of_app. right. apply list_elem_of_here.
Qed.

Lemma react_mirror_mono e x mi :
  x ∈ mi_reactions mi → x ∈ mi_reactions (react_mirror e mi).
Proof.
  intros H. unfold react_mirror. simpl. case_bool_decide; [done|].
  apply elem_of_app. by left.
Qed.

(** X11: when the bot may react and knows all the star emojis, the loop
    returns normally and leaves on the mirror every star emoji as a
    reaction, beside the reactions that were there; the text and the
    embed of the mirror are not touched. *)
Theorem autoreact_adds_every_star bot sb n emojis w mi :
  w_can_react w = true →
  emojis_known bot w emojis →
  w_remote w !! n = Some mi →
  let r := for_each emojis (autoreact_one bot sb n) w in
  res_val r = inr tt
  ∧ ∃ mi', w_remote (res_world r) !! n = Some mi'
      ∧ (∀ x, x ∈ mi_reactions mi → x ∈ mi_reactions mi')
      ∧ (∀ emoji, emoji ∈ emojis →
           ∃ x, reaction_emoji bot w emoji = Some x ∧ x ∈ mi_reactions mi')
      ∧ mi_content mi' = mi_content mi
      ∧ mi_embed mi' = mi_embed mi.
Proof.
  intros Hperm Hknown. revert w mi Hperm Hknown.
  induction emojis as [|emoji emojis IH]; intros w mi Hperm Hknown Hmi r.
  { subst r. simpl. split; [done|]. exists mi. split_and!; try done.
    intros ? H. by apply elem_of_nil in H. }
  apply Forall_cons in Hknown as [[e He] Hknown].
  subst r. simpl. unfold bind. cbv zeta. rewrite autoreact_one_run, He, Hperm.
  cbn [res_val res_world res_trace].
  set (w1 := set_remote (alter (react_mirror e) n) w).
  destruct (IH w1 (react_mirror e mi)) as (Hv & mi' & Hmi' & Hold & Hnew & Hc & Hem).
  - done.
  - eapply Forall_impl; [exact Hknown|]. intros x Hx. exact Hx.
  - unfold w1. simpl. by rewrite lookup_alter_eq, Hmi.
  - split; [done|]. exists mi'. split_and!; try done.
    + intros x Hx. by apply Hold, react_mirror_mono.
    + intros x Hx. apply elem_of_cons in Hx as [->|Hx].
      * exists e. split; [done|]. apply Hold, react_mirror_elem.
      * destruct (Hnew x Hx) as (y & Hy & Hin). by exists y.
Qed.

Lemma autoreact_adds_every_star_witness :
  (w_can_react reactive_world = true
   ∧ emojis_known quiet_bot reactive_world (star_emojis two_star_starboard)
   ∧ w_remote reactive_world !! 1000 = Some (mkMirror 50 (lit "**3**") None []))
  ∧ res_val (for_each (star_emojis two_star_starboard)
                      (autoreact_one quiet_bot two_star_starboard 1000)
                      reactive_world)
    = inr tt.
Proof.
  assert (H : emojis_known quiet_bot reactive_world
                (star_emojis two_star_starboard))
    by (repeat constructor; by eexists).
  split; [by split_and!|].
  apply (autoreact_adds_every_star quiet_bot two_star_starboard 1000
           (star_emojis two_star_starboard) reactive_world
           (mkMirror 50 (lit "**3**") None []) eq_refl H eq_refl).
Defined.

(** ** Points on a link *)

(** X12: [set_points] on an id that no link has leaves the store as it
    is, and of two [set_points] on the same id the second one stands. *)
Theorem set_points_last_write_wins p q i w :
  (Forall (λ row, sm_id row ≠ i) (w_starboard_messages w) →
   res_world (set_points p i w) = w)
  ∧ res_world (set_points q i (res_world (set_points p i w)))
    = res_world (set_points q i w).
Proof.
  rewrite !set_points_run. cbn [res_world]. split.
  - intros Hno. apply set_links_fixed. unfold update_points.
    induction Hno as [|row rows Hrow _ IH]; [done|].
    rewrite fmap_cons, IH. by rewrite bool_decide_eq_false_2.
  - unfold set_links. simpl. f_equal. unfold update_points.
    rewrite <- list_fmap_compose. apply list_fmap_ext. intros _ row _. simpl.
    destruct (bool_decide (sm_id row = i)) eqn:E; simpl; by rewrite E.
Qed.

(** ** Passes that do nothing *)

(** X13: [update_message] does nothing at all, and returns, when the
    message has no row or the guild has no starboard. *)
Theorem update_message_without_work bot message_id guild_id w :
  get_message w message_id = None ∨ get_starboards w guild_id = [] →
  update_message bot message_id guild_id w = mkRes w [] (inr tt).
Proof.
  intros H. unfold update_message. erewrite bind_run by reflexivity.
  destruct (get_message w message_id) as [m|]; [|done].
  destruct H as [H|H]; [done|]. rewrite H. by destruct (negb (trashed m)).
Qed.

Lemma update_message_without_work_witness :
  (get_message scenario_A_world 7 = None
   ∨ get_starboards scenario_A_world 1 = [])
  ∧ update_message quiet_bot 7 1 scenario_A_world
    = mkRes scenario_A_world [] (inr tt).
Proof.
  split; [by left|].
  apply (update_message_without_work quiet_bot 7 1 scenario_A_world). by left.
Defined.

(** X14: a frozen message that is not forced and has no link is left
    alone, whatever its points are.  The pass leaves the store and the
    messages of the platform as they were: it writes no row, and it
    sends, edits and deletes no message and adds no reaction.  This is so
    however the pass ends: with the source resolved the pass still has
    the embed rendered, to no use, and where nothing is rendered, the
    source not being resolved, the pass returns. *)
Theorem frozen_first_sight_is_noop bot sb msg a w :
  frozen msg = true →
  sb_id sb ∉ forced msg →
  pass_link sb msg w = None →
  let r := handle_starboard bot sb msg (Some a) w in
  res_world r = w
  ∧ Forall is_local (res_trace r)
  ∧ Forall (λ e, ¬ is_write e) (res_trace r)
  ∧ (source_of bot msg = None → res_val r = inr tt).
Proof.
  intros Hfz Hfo Hl r. subst r. rewrite handle_starboard_run.
  cbn [res_world res_trace res_val].
  assert (Hfl : decision bot sb msg a (points_of sb msg w) (source_of bot msg)
                = mkFlags false false false true).
  { pose proof (regex_flags_unmarked bot sb (source_of bot msg) _
                  (flags_before_regex_unmarked sb msg a (points_of sb msg w)
                     (source_of bot msg))) as [H _].
    unfold decision, rule_forced, rule_frozen.
    by rewrite Hfz, (bool_decide_eq_false_2 _ Hfo), H. }
  assert (Hw : Forall (λ e, ¬ is_write e) (before_transition_trace bot sb msg w)).
  { unfold before_transition_trace. rewrite Hl. unfold pass_points.
    rewrite (bool_decide_eq_true_2 (None = None)), orb_true_r by done.
    rewrite calculate_points_run. cbn [res_trace].
    pose proof (log_not_write _ (decision_log_is_log bot sb (source_of bot msg))).
    rewrite !Forall_app, !Forall_cons, !Forall_nil. simpl. tauto. }
  rewrite Hfl, Hl. unfold before_transition. rewrite Hl.
  unfold transition. cbn [fl_delete fl_add mirror_of].
  destruct (source_of bot msg); cbn [res_world res_trace res_val];
    rewrite app_nil_r;
    (split_and!; [done|apply before_transition_is_local|done|done]).
Qed.

Lemma frozen_first_sight_is_noop_witness :
  (frozen frozen_message = true
   ∧ sb_id scenario_A_starboard ∉ forced frozen_message
   ∧ pass_link scenario_A_starboard frozen_message frozen_world = None)
  ∧ res_world (handle_starboard quiet_bot scenario_A_starboard frozen_message
                                (Some human) frozen_world) = frozen_world.
Proof.
  assert (H : sb_id scenario_A_starboard ∉ forced frozen_message)
    by (simpl; apply not_elem_of_nil).
  split; [by split_and!|].
  apply (frozen_first_sight_is_noop quiet_bot scenario_A_starboard frozen_message
           human frozen_world eq_refl H eq_refl).
Defined.

(** ** The description, again *)

Lemma embed_text_extends bot content embed :
  content `prefix_of` embed_text bot content embed.
Proof.
  unfold embed_text. destruct (_ || _); [|done].
  assert (Hfold : ∀ fields c,
            c `prefix_of`
              foldl (λ content field,
                       let name := nl ++ lit "**" ++ escmd bot field.1
                                   ++ lit "**" ++ nl in
                       let value := field.2 ++ nl in
                       content ++ (name ++ value)) c fields).
  { induction fields as [|f fields IH]; intros c; [done|]. simpl.
    etrans; [|apply IH]. by apply prefix_app_r. }
  etrans; [|destruct (em_footer_text embed);
            [apply prefix_app_r; reflexivity|reflexivity]].
  etrans; [|apply Hfold]. apply prefix_app_r.
  destruct (em_title embed); [destruct (em_url embed)|]; by apply prefix_app_r.
Qed.

Lemma embed_text_plain bot content embed :
  em_type embed ≠ lit "rich" → em_type embed ≠ lit "article" →
  embed_text bot content embed = content.
Proof.
  intros H1 H2. unfold embed_text.
  by rewrite (bool_decide_eq_false_2 _ H1), (bool_decide_eq_false_2 _ H2).
Qed.

(** X15: the text collected for the description always begins with the
    text of the message itself, and the description is a beginning of
    that collected text; embeds that are neither [rich] nor [article]
    (images, gifs, videos) add nothing to it. *)
Theorem description_begins_with_message bot message color :
  system_content message `prefix_of` embed_content bot message
  ∧ e_description (embed_message bot message color)
    `prefix_of` embed_content bot message
  ∧ (Forall (λ e, em_type e ≠ lit "rich" ∧ em_type e ≠ lit "article")
            (dm_embeds message) →
     embed_content bot message = system_content message).
Proof.
  unfold embed_content. split_and!.
  - generalize (system_content message).
    induction (dm_embeds message) as [|e es IH]; intros c; [done|]. simpl.
    etrans; [apply embed_text_extends|apply IH].
  - simpl. fold (embed_content bot message). rewrite truncate_content_spec.
    destruct (2048 <? _); [apply prefix_take|done].
  - intros Hall. generalize (system_content message).
    induction Hall as [|e es [H1 H2] _ IH]; intros c; [done|]. simpl.
    rewrite embed_text_plain by done. apply IH.
Qed.

(** ** Trashed messages, again *)

Lemma trashed_loop_world bot msg author sbs w :
  res_world (for_each sbs (λ s, handle_trashed_message bot s msg author) w)
  = set_remote (alter_all (trashed_edit msg)
                  (trashed_targets bot msg (w_starboard_messages w) sbs)) w.
Proof.
  revert w. induction sbs as [|sb sbs IH]; intros w.
  { simpl. by destruct w. }
  cbn [for_each]. unfold handle_trashed_message at 1.
  erewrite (bind_run (bind _ _)).
  2:{ erewrite bind_run by apply fetchrow_link_run.
      instantiate (1 := tt).
      instantiate (1 := match List.find (link_of (m_id msg) (sb_id sb))
                                (w_starboard_messages w) with
                        | Some l =>
                            match fetch_message bot (m_guild_id msg)
                                    (sm_starboard_id l) (sm_id l) with
                            | Some s => [Db (SelectLink (m_id msg) (sb_id sb));
                                         Remote (EditMessage (dm_id s) None
                                                   (Some (trashed_embed msg)))]
                            | None => [Db (SelectLink (m_id msg) (sb_id sb))]
                            end
                        | None => [Db (SelectLink (m_id msg) (sb_id sb))]
                        end).
      instantiate (1 := match List.find (link_of (m_id msg) (sb_id sb))
                                (w_starboard_messages w) with
                        | Some l =>
                            match fetch_message bot (m_guild_id msg)
                                    (sm_starboard_id l) (sm_id l) with
                            | Some s =>
                                set_remote (alter (trashed_edit msg) (dm_id s)) w
                            | None => w
                            end
                        | None => w
                        end).
      destruct (List.find _ _) as [l|]; [|done].
      by destruct (fetch_message bot _ _ _). }
  cbn [res_world]. rewrite IH. unfold trashed_targets. cbn [omap list_omap].
  destruct (List.find _ _) as [l|]; [|done].
  destruct (fetch_message bot _ _ _) as [s|]; [|done].
  by destruct w.
Qed.

(** X16: for a trashed message, running [update_message] a second time
    changes nothing more, and the one run only replaces embeds: every
    message on the platform keeps its channel, its text and its
    reactions, and its embed either stays or becomes the notice. *)
Theorem trashed_update_is_idempotent bot message_id guild_id msg w :
  get_message w message_id = Some msg →
  trashed msg = true →
  let w1 := res_world (update_message bot message_id guild_id w) in
  res_world (update_message bot message_id guild_id w1) = w1
  ∧ ∀ k, ∃ keep : bool,
      w_remote w1 !! k
      = (if keep then w_remote w !! k
         else (λ mi, mkMirror (mi_channel mi) (mi_content mi)
                              (Some (trashed_embed msg)) (mi_reactions mi))
              <$> w_remote w !! k).
Proof.
  intros Hmsg Htr w1.
  assert (Hrun : ∀ w0, get_message w0 message_id = Some msg →
            res_world (update_message bot message_id guild_id w0)
            = set_remote
                (alter_all (trashed_edit msg)
                   (trashed_targets bot msg (w_starboard_messages w0)
                      (get_starboards w0 guild_id))) w0).
  { intros w0 H0. unfold update_message. erewrite bind_run by reflexivity.
    rewrite H0, Htr. cbn [negb res_world]. apply trashed_loop_world. }
  assert (Hf : ∀ x, trashed_edit msg (trashed_edit msg x) = trashed_edit msg x)
    by done.
  subst w1. rewrite (Hrun w Hmsg). split.
  - rewrite Hrun by done. unfold set_remote. simpl. f_equal.
    apply map_eq. intros k. rewrite !alter_all_lookup by done.
    destruct (decide _); [|done].
    destruct (w_remote w !! k); simpl; by rewrite ?Hf.
  - intros k. simpl. rewrite alter_all_lookup by done.
    destruct (decide _); [exists false|exists true]; done.
Qed.

Lemma trashed_update_is_idempotent_witness :
  (get_message trashed_world 100 = Some trashed_message
   ∧ trashed trashed_message = true)
  ∧ res_world (update_message quiet_bot 100 1
                 (res_world (update_message quiet_bot 100 1 trashed_world)))
    = res_world (update_message quiet_bot 100 1 trashed_world).
Proof.
  split; [by split|].
  apply (trashed_update_is_idempotent quiet_bot 100 1 trashed_message
           trashed_world eq_refl eq_refl).
Defined.

(** ** From a mirror back to its source *)

Lemma find_id_app_fresh (rows : list SbMessage) (r : SbMessage) :
  Forall (λ row, sm_id row ≠ sm_id r) rows →
  List.find (λ x, bool_decide (sm_id x = sm_id r)) (rows ++ [r]) = Some r.
Proof.
  induction 1 as [|row rows Hrow _ IH]; simpl.
  - by rewrite bool_decide_eq_true_2.
  - by rewrite bool_decide_eq_false_2.
Qed.

(** X17: a mirror leads back to its source.  After a pass that creates a
    mirror (no link, [add], not [delete], source resolved, send allowed)
    under an id the store does not hold yet, [orig_message] on the id of
    the new mirror gives the row of the source message, as it does on the
    id of the source itself. *)
Theorem created_mirror_leads_back bot sb msg a m w :
  stored w msg →
  cache_ids bot →
  pass_link sb msg w = None →
  source_of bot msg = Some m →
  fl_add (decision bot sb msg a (points_of sb msg w) (Some m)) = true →
  fl_delete (decision bot sb msg a (points_of sb msg w) (Some m)) = false →
  w_can_send w = true →
  Forall (λ row, sm_id row ≠ w_next_id w) (w_starboard_messages w) →
  let w1 := res_world (handle_starboard bot sb msg (Some a) w) in
  orig_message w1 (w_next_id w) = Some msg
  ∧ get_starboard_message w1 (w_next_id w)
    = Some (mkSbMessage (w_next_id w) (m_id msg) (sb_id sb) (points_of sb msg w)).
Proof.
  intros Hst Hid Hl Hm Ha Hd Hsend Hfresh w1.
  assert (Hmid : dm_id m = m_id msg) by (by apply Hid in Hm).
  assert (Hw1 : ∃ g, w1 = set_remote (alter g (w_next_id w))
                            (linked_world sb (points_of sb msg w)
                               (plain_text bot sb msg (points_of sb msg w)
                                  (decision bot sb msg a (points_of sb msg w)
                                     (Some m)))
                               (Some (embed_message bot m (color sb))) m w)).
  { subst w1. rewrite handle_starboard_run. cbn [res_world].
    unfold before_transition. rewrite Hl, Hm. cbn [mirror_of].
    rewrite transition_create by done.
    destruct (create_mirror_sent bot sb (points_of sb msg w)
                (plain_text bot sb msg (points_of sb msg w)
                   (decision bot sb msg a (points_of sb msg w) (Some m)))
                (Some (embed_message bot m (color sb))) m w Hsend)
      as (g & t & _ & -> & _).
    by exists g. }
  destruct Hw1 as [g ->].
  assert (Hrow : get_starboard_message
                   (set_remote (alter g (w_next_id w))
                      (linked_world sb (points_of sb msg w)
                         (plain_text bot sb msg (points_of sb msg w)
                            (decision bot sb msg a (points_of sb msg w) (Some m)))
                         (Some (embed_message bot m (color sb))) m w))
                   (w_next_id w)
                 = Some (mkSbMessage (w_next_id w) (m_id msg) (sb_id sb)
                                     (points_of sb msg w))).
  { unfold get_starboard_message. simpl. unfold update_points.
    rewrite fmap_app. simpl. rewrite bool_decide_eq_true_2 by done.
    rewrite Hmid.
    apply (find_id_app_fresh _
             (mkSbMessage (w_next_id w) (m_id msg) (sb_id sb)
                          (points_of sb msg w))).
    simpl. apply Forall_fmap. eapply Forall_impl; [exact Hfresh|].
    intros row Hrow. simpl. by destruct (bool_decide _). }
  split; [|exact Hrow].
  unfold orig_message. rewrite Hrow. simpl. exact Hst.
Qed.

Lemma created_mirror_leads_back_witness :
  (stored scenario_A_world scenario_A_message
   ∧ cache_ids quiet_bot
   ∧ pass_link scenario_A_starboard scenario_A_message scenario_A_world = None
   ∧ source_of quiet_bot scenario_A_message = Some live_100
   ∧ fl_add (decision quiet_bot scenario_A_starboard scenario_A_message human
               (points_of scenario_A_starboard scenario_A_message scenario_A_world)
               (Some live_100)) = true
   ∧ fl_delete (decision quiet_bot scenario_A_starboard scenario_A_message human
                  (points_of scenario_A_starboard scenario_A_message
                             scenario_A_world)
                  (Some live_100)) = false
   ∧ w_can_send scenario_A_world = true
   ∧ Forall (λ row, sm_id row ≠ w_next_id scenario_A_world)
            (w_starboard_messages scenario_A_world))
  ∧ orig_message
      (res_world (handle_starboard quiet_bot scenario_A_starboard
                    scenario_A_message (Some human) scenario_A_world))
      (w_next_id scenario_A_world)
    = Some scenario_A_message.
Proof.
  assert (H2 : cache_ids quiet_bot) by (by intros g c i m [= <-]).
  assert (H8 : Forall (λ row, sm_id row ≠ w_next_id scenario_A_world)
                 (w_starboard_messages scenario_A_world))
    by apply Forall_nil_2.
  split; [split_and!; try done; by vm_compute|].
  apply (created_mirror_leads_back quiet_bot scenario_A_starboard
           scenario_A_message human live_100 scenario_A_world);
    try done; by vm_compute.
Defined.

(** ** The image and the files of the embed *)

Lemma embed_entries_not_upload embed :
  Forall (λ d, u_type d ≠ lit "upload") (embed_entries embed).
Proof.
  unfold embed_entries.
  repeat case_match; repeat (apply Forall_app; split);
    repeat (apply Forall_cons_2; [by simpl|]); apply Forall_nil_2.
Qed.

Lemma layout_loop_media nsfw st urls :
  Forall (λ d, u_type d ≠ lit "upload") urls →
  ∃ image, layout_loop nsfw st urls = inr (mkLayout image (lo_extra st))
           ∧ (nsfw = true → image = lo_image st).
Proof.
  intros H. revert st. induction H as [|d urls Hd _ IH]; intros st.
  { exists (lo_image st). by destruct st. }
  simpl. unfold layout_step. rewrite (bool_decide_eq_false_2 _ Hd).
  destruct (negb nsfw && bool_decide (lo_image st = None)) eqn:E.
  - destruct (IH (mkLayout (Some (u_display_url d)) (lo_extra st)))
      as (image & -> & Hn).
    exists image. split; [done|]. intros ->. done.
  - apply IH.
Qed.

(** X19: in an NSFW channel the embed gets no image at all, and every
    upload is attached again, in order, under a name that begins with
    [SPOILER_]; nothing of the media of the embeds is shown. *)
Theorem nsfw_layout_spoilers_everything attachments embeds :
  embed_layout true attachments embeds
  = inr (mkLayout None (spoilered ∘ to_file <$> attachments)).
Proof.
  unfold embed_layout, collect_urls.
  assert (Hup : ∀ atts st,
            lo_image st = None →
            layout_loop true st
              ((upload_entry <$> atts) ++ List.flat_map embed_entries embeds)
            = inr (mkLayout None
                     (lo_extra st ++ (spoilered ∘ to_file <$> atts)))).
  { induction atts as [|a atts IH]; intros st Hst.
    - simpl. rewrite app_nil_r.
      destruct (layout_loop_media true st (List.flat_map embed_entries embeds))
        as (image & -> & Himg).
      + apply Forall_flat_map, Forall_forall. intros e _.
        apply embed_entries_not_upload.
      + by rewrite Himg, Hst.
    - rewrite fmap_cons. cbn [app layout_loop]. unfold layout_step at 1.
      cbn [upload_entry u_type u_url u_spoiler u_file].
      rewrite bool_decide_eq_true_2 by done.
      rewrite andb_false_r. cbn [negb andb].
      rewrite IH by done. cbn [lo_extra]. by rewrite <- app_assoc. }
  by rewrite (Hup attachments (mkLayout None [])).
Qed.

Lemma layout_loop_set nsfw image extra urls :
  (∀ d, d ∈ urls → u_type d = lit "upload" → is_Some (u_file d)) →
  ∃ extra', layout_loop nsfw (mkLayout (Some image) extra) urls
            = inr (mkLayout (Some image) extra')
            ∧ length extra'
              = (length extra
                 + length (filter (λ d, u_type d = lit "upload") urls))%nat.
Proof.
  revert extra. induction urls as [|d urls IH]; intros extra Hfiles.
  { exists extra. split; [done|]. simpl. lia. }
  assert (Hrest : ∀ d', d' ∈ urls → u_type d' = lit "upload" → is_Some (u_file d'))
    by (intros d' Hd'; apply Hfiles; by right).
  simpl. unfold layout_step. cbn [lo_image lo_extra].
  rewrite (bool_decide_eq_false_2 (Some image = None)) by done.
  rewrite !andb_false_r. rewrite filter_cons.
  destruct (decide (u_type d = lit "upload")) as [Hd|Hd].
  - rewrite (bool_decide_eq_true_2 _ Hd).
    destruct (Hfiles d) as [f Hf]; [by left|done|]. rewrite Hf.
    destruct (IH (extra ++ [if nsfw then spoilered f else f]) Hrest)
      as (extra' & -> & Hlen).
    exists extra'. split; [done|]. rewrite Hlen, length_app. simpl. lia.
  - rewrite (bool_decide_eq_false_2 _ Hd).
    destruct (IH extra Hrest) as (extra' & -> & Hlen).
    exists extra'. split; [done|]. exact Hlen.
Qed.

Lemma layout_loop_unset extra urls :
  (∀ d, d ∈ urls → u_type d = lit "upload" → is_Some (u_file d)) →
  ∃ extra', layout_loop false (mkLayout None extra) urls
            = inr (mkLayout (u_display_url <$> List.find may_be_image urls)
                            extra')
            ∧ (length extra'
               + (if image_is_upload urls then 1 else 0)
               = length extra
                 + length (filter (λ d, u_type d = lit "upload") urls))%nat.
Proof.
  revert extra. induction urls as [|d urls IH]; intros extra Hfiles.
  { exists extra. split; [done|]. simpl. lia. }
  assert (Hrest : ∀ d', d' ∈ urls → u_type d' = lit "upload" → is_Some (u_file d'))
    by (intros d' Hd'; apply Hfiles; by right).
  unfold image_is_upload.
  cbn [layout_loop List.find]. unfold layout_step.
  cbn [lo_image lo_extra negb]. rewrite filter_cons.
  rewrite (bool_decide_eq_true_2 (None = None)) by done.
  rewrite !andb_true_r.
  destruct (decide (u_type d = lit "upload")) as [Hd|Hd].
  - rewrite (bool_decide_eq_true_2 _ Hd).
    assert (Hmb : may_be_image d
                  = is_image_url (u_url d) && negb (u_spoiler d))
      by (unfold may_be_image; by rewrite (bool_decide_eq_true_2 _ Hd)).
    rewrite Hmb.
    destruct (is_image_url (u_url d) && negb (u_spoiler d)) eqn:E.
    + destruct (layout_loop_set false (u_display_url d) extra urls Hrest)
        as (extra' & -> & Hlen).
      exists extra'. split; [done|].
      rewrite (bool_decide_eq_true_2 _ Hd). simpl. lia.
    + destruct (Hfiles d) as [f Hf]; [by left|done|]. rewrite Hf.
      destruct (IH (extra ++ [f]) Hrest) as (extra' & -> & Hlen).
      exists extra'. split; [done|]. unfold image_is_upload in Hlen.
      rewrite length_app in Hlen. simpl in *. lia.
  - rewrite (bool_decide_eq_false_2 _ Hd).
    assert (Hmb : may_be_image d = true)
      by (unfold may_be_image; by rewrite (bool_decide_eq_false_2 _ Hd)).
    rewrite Hmb.
    destruct (layout_loop_set false (u_display_url d) extra urls Hrest)
      as (extra' & -> & Hlen).
    exists extra'. split; [done|].
    rewrite (bool_decide_eq_false_2 _ Hd). lia.
Qed.

Lemma collect_urls_files attachments embeds d :
  d ∈ collect_urls attachments embeds → u_type d = lit "upload" →
  is_Some (u_file d).
Proof.
  unfold collect_urls. intros Hin Hd. apply elem_of_app in Hin as [Hin|Hin].
  - apply list_elem_of_fmap in Hin as (a & -> & _). by eexists.
  - apply list_elem_of_In, in_flat_map in Hin as (e & _ & Hin).
    apply list_elem_of_In in Hin.
    pose proof (embed_entries_not_upload e) as Hno.
    rewrite Forall_forall in Hno. by apply Hno in Hin.
Qed.

Lemma collect_urls_uploads attachments embeds :
  length (filter (λ d, u_type d = lit "upload") (collect_urls attachments embeds))
  = length attachments.
Proof.
  unfold collect_urls. rewrite filter_app, length_app.
  rewrite (filter_none _ (List.flat_map embed_entries embeds)).
  - simpl. rewrite Nat.add_0_r.
    induction attachments as [|a atts IH]; [done|].
    rewrite fmap_cons, filter_cons_True by done. simpl. by rewrite IH.
  - apply Forall_flat_map, Forall_forall. intros e _.
    apply embed_entries_not_upload.
Qed.

(** X20: outside NSFW channels the loop always completes; the image of
    the embed is the first entry, uploads first and then the media of the
    embeds, that is a medium of an embed or an upload with an image name
    that is not a spoiler; and no upload is lost: every upload is
    attached again except the one that became the image. *)
Theorem layout_shows_first_image attachments embeds :
  let urls := collect_urls attachments embeds in
  ∃ extra,
    embed_layout false attachments embeds
    = inr (mkLayout (u_display_url <$> List.find may_be_image urls) extra)
    ∧ (length extra
       + (if image_is_upload urls then 1 else 0)
       = length attachments)%nat.
Proof.
  intros urls. unfold embed_layout. fold urls.
  destruct (layout_loop_unset [] urls) as (extra & Hrun & Hlen).
  { intros d. apply collect_urls_files. }
  exists extra. split; [done|]. rewrite Hlen. simpl.
  apply collect_urls_uploads.
Qed.

(** ** Command errors and the guild log *)

(** X21: the field of the error embed keeps the text of the exception
    in full, whatever its length, and only the traceback is cut: a field
    that was cut has 1017 characters, or the text of the exception and ten
    more where that is longer. So the field fits the 1024 characters of a
    field of an embed exactly when nothing had to be cut (text and
    traceback have at most 1017 characters together) or the text of the
    exception has at most 1014 characters. *)
Theorem error_field_fits_iff (e tb : str) :
  length (full_tb e tb)
  = (if (length e + length tb <=? 1017)%nat
     then length e + length tb + 7
     else Nat.max 1017 (length e + 10))%nat
  ∧ ((length (full_tb e tb) ≤ 1024)%nat
     ↔ (length e + length tb ≤ 1017)%nat ∨ (length e ≤ 1014)%nat).
Proof.
  unfold full_tb. cbv zeta.
  assert (H3 : length (lit "```") = 3%nat) by reflexivity.
  assert (H6 : length (lit "```...") = 6%nat) by reflexivity.
  assert (Hfull : length (e ++ [8%N] ++ lit "```" ++ tb ++ lit "```")
                  = (length e + length tb + 7)%nat).
  { rewrite !length_app, H3. simpl. lia. }
  rewrite Hfull.
  destruct (1024 <? Z.of_nat (length e + length tb + 7)) eqn:E.
  - apply Z.ltb_lt in E. unfold slice_from.
    destruct (Z.of_nat (length e + length tb + 7) - 1024 + 10 <? 0) eqn:E'.
    { apply Z.ltb_lt in E'. lia. }
    rewrite !length_app, H3, H6, length_drop. unfold nl. cbn [length].
    destruct (Nat.leb_spec (length e + length tb) 1017); lia.
  - apply Z.ltb_ge in E. rewrite Hfull.
    destruct (Nat.leb_spec (length e + length tb) 1017); lia.
Qed.

(** X22: no error makes [on_command_error] write to the author of the
    command: [discord.Forbidden] is one of the expected errors and is
    answered in the channel, with its text, like them; and the embed with
    the traceback and the report to the error log go together, for the
    errors of a class outside both lists and for no other. *)
Theorem forbidden_is_answered_in_channel error_color mention raised :
  let e := original_of raised in
  let answers := on_command_error error_color mention raised in
  (∀ text, AuthorSendText text ∉ answers)
  ∧ (err_type e = errors.Forbidden → answers = [CtxSendText (err_str e)])
  ∧ ((∃ name, err_type e = errors.Other name)
     ↔ DispatchLogError (lit "Command Error") e ∈ answers)
  ∧ ((∃ name, err_type e = errors.Other name)
     ↔ ∃ embed field_name field_value,
         CtxSendEmbed embed field_name field_value ∈ answers).
Proof.
  unfold on_command_error. fold (original_of raised).
  generalize (original_of raised). intros [t s tb]. cbn [err_type err_str err_tb].
  destruct t; cbn -[lit full_tb something_wrong];
    (split_and!;
     [ intros text Hin; repeat (apply elem_of_cons in Hin as [Hin|Hin]; [done|]);
       by apply elem_of_nil in Hin
     | try done
     | split; [intros [n Hn]; try done; by right; left
              |intros Hin; try (by eexists);
               repeat (apply elem_of_cons in Hin as [Hin|Hin]; [done|]);
               by apply elem_of_nil in Hin]
     | split; [intros [n Hn]; try done; do 3 eexists; by left
              |intros (em & fn & fv & Hin); try (by eexists);
               repeat (apply elem_of_cons in Hin as [Hin|Hin]; [done|]);
               by apply elem_of_nil in Hin] ]).
Qed.

Lemma known_ret {A} (a : A) : logs_known (ret a).
Proof. intros w. apply Forall_nil_2. Qed.

Lemma known_raise {A} e : logs_known (@raise A e).
Proof. intros w. apply Forall_nil_2. Qed.

Lemma known_emit e : known_log e → logs_known (emit e).
Proof. intros H w. by apply Forall_singleton. Qed.

Lemma known_get_world : logs_known get_world.
Proof. intros w. apply Forall_nil_2. Qed.

Lemma known_lift_exn {A} (x : Exn + A) : logs_known (lift_exn x).
Proof. intros w. apply Forall_nil_2. Qed.

Lemma known_modify f : logs_known (modify f).
Proof. intros w. apply Forall_nil_2. Qed.

Lemma known_bind {A B} (m : M A) (f : A → M B) :
  logs_known m → (∀ a, logs_known (f a)) → logs_known (bind m f).
Proof.
  intros Hm Hf w. unfold bind. cbv zeta.
  destruct (res_val (m w)) as [e|a] eqn:E; cbn [res_trace]; [apply Hm|].
  apply Forall_app. split; [apply Hm|apply Hf].
Qed.

Lemma known_for_each {A} (xs : list A) (body : A → M unit) :
  (∀ x, logs_known (body x)) → logs_known (for_each xs body).
Proof.
  intros H. induction xs as [|x xs IH]; simpl; [apply known_ret|].
  apply known_bind; [apply H|by intros _].
Qed.

Ltac known :=
  repeat first
    [ progress intros
    | apply known_ret | apply known_raise
    | apply known_emit; exact I
    | apply known_emit; reflexivity
    | apply known_get_world | apply known_lift_exn | apply known_modify
    | apply known_bind | apply known_for_each
    | match goal with
      | |- logs_known (match ?x with _ => _ end) => destruct x
      | |- logs_known (if ?b then _ else _) => destruct b
      end ].

Lemma handle_starboard_known bot sb msg author :
  logs_known (handle_starboard bot sb msg author).
Proof.
  unfold handle_starboard, fetchrow_link, pass_points, calculate_points,
    select_reactions, select_reaction_users, set_points, evaluate, rule_bots,
    subscript_is_bot, rule_regex, rule_exclude_regex, try_regex, resolve_mirror,
    transition, delete_link, remote_delete, remote_edit, create_mirror,
    remote_send, create_starboard_message, set_points, autoreact_one,
    add_reaction.
  known.
Qed.

Lemma handle_trashed_message_known bot sb msg author :
  logs_known (handle_trashed_message bot sb msg author).
Proof.
  unfold handle_trashed_message, fetchrow_link, remote_edit. known.
Qed.

(** X23: every log [update_message] dispatches to the guild, from any
    store and however the pass ends, is of a kind [on_guild_log] has a
    title for: the handler never fails on it, and where the guild has a
    log channel that still exists it sends there the embed titled Error,
    in the error color, with the text of the log. *)
Theorem every_guild_log_is_delivered bot message_id guild_id w
    error_color theme_color log_channel get_channel :
  Forall (λ e, match e with
               | GuildLog text kind =>
                   on_guild_log error_color theme_color log_channel
                     get_channel text kind
                   = inr (error_log_of error_color log_channel get_channel text)
               | _ => True
               end)
         (res_trace (update_message bot message_id guild_id w)).
Proof.
  assert (Hk : logs_known (update_message bot message_id guild_id)).
  { unfold update_message.
    apply known_bind; [apply known_get_world|]. intros w0.
    destruct (get_message w0 message_id) as [m|]; [|apply known_ret].
    destruct (negb (trashed m)); apply known_for_each; intros s.
    - apply handle_starboard_known.
    - apply handle_trashed_message_known. }
  eapply Forall_impl; [apply Hk|].
  intros [| |text kind]; try done. simpl. intros ->.
  unfold on_guild_log, error_log_of.
  destruct log_channel as [c|]; [|done]. by destruct (get_channel c).
Qed.

(** ** The message replied to *)

(** X24: [embed_message] fails on the reply to a message that is lost,
    and only there: the fields of the reply raise [AttributeError] exactly
    when the source is a reply whose reference is not resolved and the
    cache cannot fetch the message replied to. *)
Theorem reply_to_lost_message_fails bot author_str guild_id channel_id
    message reference :
  reply_fields bot author_str guild_id channel_id message reference
  = inl AttributeError
  ↔ ∃ r, reference = Some r
         ∧ resolved r = Unresolved
         ∧ fetch_message bot guild_id channel_id (ref_message_id r) = None.
Proof.
  unfold reply_fields. destruct reference as [r|].
  2:{ split; [done|]. by intros (r & ? & _). }
  destruct (resolved r) as [|m|g c i] eqn:Hr.
  - destruct (fetch_message bot guild_id channel_id (ref_message_id r))
      as [m|] eqn:Hf.
    + split; [done|]. intros (r' & [= <-] & _ & Hf'). congruence.
    + split; [|done]. intros _. by exists r.
  - split; [done|]. intros (r' & [= <-] & Hr' & _). congruence.
  - split; [done|]. intros (r' & [= <-] & Hr' & _). congruence.
Qed.

(** X25: where the fields of the reply are built, the field with the
    text of the message replied to is there exactly for a reply, its
    value is never empty (a message without text shows as a file), and
    the field with the jumps always ends with the jump to the source. *)
Theorem reply_fields_are_well_formed bot author_str guild_id channel_id
    message reference fields :
  reply_fields bot author_str guild_id channel_id message reference
  = inr fields →
  (is_Some (rf_reply fields) ↔ is_Some reference)
  ∧ (∀ name value, rf_reply fields = Some (name, value) → value ≠ [])
  ∧ jump_to_message message `suffix_of` rf_jumps fields.
Proof.
  assert (Hne : ∀ c : str,
            (if bool_decide (c = []) then lit "*File Only*" else c) ≠ []).
  { intros c. case_bool_decide; [by vm_compute|done]. }
  unfold reply_fields. destruct reference as [r|].
  2:{ intros [= <-]. cbn [rf_reply rf_jumps]. split_and!.
      - split; intros [? ?]; done.
      - done.
      - done. }
  destruct (resolved r) as [|m|g c i];
    [destruct (fetch_message bot guild_id channel_id (ref_message_id r))
       as [m|]|..];
    try done; intros Heq; apply (inj inr) in Heq; subst fields;
    unfold rf_reply, rf_jumps;
    (split_and!;
     [ split; intros _; by eexists
     | intros name value [= _ <-]; first [apply Hne | by vm_compute]
     | rewrite ?app_assoc; apply suffix_app_r; done ]).
Qed.

Lemma reply_fields_are_well_formed_witness :
  jump_to_message live_100
    `suffix_of`
    rf_jumps (mkReplyFields
                (Some (lit "Replying to Unknown", lit "*Message was deleted*"))
                (lit "**[Replying to Unknown (deleted)]"
                 ++ lit "(https://discord.com/channels/" ++ str_of_Z 1
                 ++ lit "/" ++ str_of_Z 2 ++ lit "/" ++ str_of_Z 3
                 ++ lit ")**" ++ nl ++ jump_to_message live_100)).
Proof.
  apply (reply_fields_are_well_formed quiet_bot (λ _, lit "someone") 1 10
           live_100
           (Some (mkMessageReference 3 (DeletedReferencedMessage 1 2 3)))).
  reflexivity.
Defined.

(** ** The field with the links *)

Lemma join_nil_iff sep parts :
  Forall (λ p, p ≠ []) parts → join sep parts = [] ↔ parts = [].
Proof.
  intros H. destruct H as [|p parts Hp H]; [done|].
  split; [|done]. simpl. destruct parts; [done|].
  intros Hj. by apply app_eq_nil in Hj as [? _].
Qed.

Lemma embed_entries_links embed :
  List.filter u_show_link (embed_entries embed) = []
  ↔ is_linked_medium embed = false.
Proof.
  unfold embed_entries, is_linked_medium.
  destruct (md_url embed) as [u|], (md_image_url embed) as [i|],
    (md_thumbnail_url embed) as [t|];
    repeat (case_bool_decide; cbn [orb andb app List.filter u_show_link negb]);
    try done; try (by destruct H; eexists);
    match goal with
    | H : ¬ is_Some _ |- _ => by destruct H; eexists
    | H : md_type embed = _, H' : md_type embed = _ |- _ =>
        rewrite H in H'; by vm_compute in H'
    | _ => idtac
    end.
Qed.

(** X26: the embed gets the field with the links exactly when the source
    has an upload, or an embed that is a link to an image, a GIF or a
    video: every upload is listed, whether it is shown as the image,
    attached again or hidden as a spoiler, and the image and the
    thumbnail of a rich embed or an article never are. *)
Theorem links_field_iff attachments embeds :
  is_Some (links_field attachments embeds)
  ↔ attachments ≠ [] ∨ Exists (λ e, is_linked_medium e = true) embeds.
Proof.
  unfold links_field, to_show. cbv zeta.
  set (parts := link_line <$> _).
  assert (Hparts : join nl parts = [] ↔ attachments = []
                   ∧ Forall (λ e, is_linked_medium e = false) embeds).
  { rewrite join_nil_iff.
    2:{ apply Forall_fmap, Forall_forall. intros d _. by vm_compute. }
    subst parts.
    assert (Hmap : ∀ l : list UrlEntry, link_line <$> l = [] ↔ l = [])
      by (intros l; by destruct l).
    rewrite Hmap. unfold collect_urls.
    rewrite List.filter_app. split.
    - intros H. apply app_eq_nil in H as [Ha He]. split.
      + destruct attachments; [done|]. by simpl in Ha.
      + clear Ha. induction embeds as [|e embeds IH]; [done|].
        simpl in He. rewrite List.filter_app in He.
        apply app_eq_nil in He as [He1 He2].
        apply Forall_cons_2; [by apply embed_entries_links|by apply IH].
    - intros [-> He]. simpl. induction He as [|e embeds He _ IH]; [done|].
      simpl. rewrite List.filter_app, IH.
      apply embed_entries_links in He. by rewrite He. }
  destruct (Z.of_nat (length (join nl parts)) =? 0) eqn:E.
  - apply Z.eqb_eq in E. assert (Hnil : join nl parts = [])
      by (apply length_zero_iff_nil; lia).
    apply Hparts in Hnil as [-> Hall]. cbn [negb]. split.
    + by intros [? ?].
    + intros [?|Hex]; [done|]. exfalso.
      apply Exists_exists in Hex as (e & Hin & He).
      rewrite Forall_forall in Hall. apply Hall in Hin. congruence.
  - cbn [negb]. split; [intros _|by eexists].
    apply Z.eqb_neq in E.
    destruct attachments as [|a atts]; [|by left]. right.
    destruct (decide (Exists (λ e, is_linked_medium e = true) embeds))
      as [?|Hn]; [done|].
    exfalso. apply E.
    assert (Hnil : join nl parts = []).
    { apply Hparts. split; [done|].
      apply not_Exists_Forall in Hn; [|intros e; apply _].
      eapply Forall_impl; [apply Hn|].
      intros e He. simpl in He. by destruct (is_linked_medium e). }
    by rewrite Hnil.
Qed.

(** ** The save command *)

(** X18: the save command never sends a trashed message.  The call
    raises, before any reply, exactly when it gets to render a message
    and [embed_message] raises on it: so for a reply to a message that
    is lost, whose uploads are served.  When the call returns it has
    answered with exactly one reply; and a rendering goes out by direct
    message only when the author accepts direct messages and the stored
    source of the message, if there is one, is not trashed and still
    resolved by the cache: it is then the rendering of that source, and
    of the message itself when it is not stored. *)
Theorem save_never_sends_trashed bot download py_hex author_str attributes_of
    can_dm message w :
  let r := save bot download py_hex author_str attributes_of can_dm message w in
  let render m :=
    embed_message_whole bot download py_hex author_str (attributes_of m) m
      None in
  (∀ e, r = inl e ↔ ∃ m, saved_message bot w message = Some m
                         ∧ render m = inl e)
  ∧ (∀ replies, r = inr replies → length replies = 1%nat)
  ∧ (∀ replies sent,
       r = inr replies → AuthorSend sent ∈ replies →
       can_dm = true
       ∧ (∀ o, orig_message w (dm_id message) = Some o → trashed o = false)
       ∧ ∃ m, saved_message bot w message = Some m ∧ render m = inr sent)
  ∧ (∀ m ref,
       saved_message bot w message = Some m →
       forallb download (ma_attachments (attributes_of m)) = true →
       ma_reference (attributes_of m) = Some ref →
       resolved ref = Unresolved →
       fetch_message bot (ma_guild_id (attributes_of m))
         (ma_channel_id (attributes_of m)) (ref_message_id ref) = None →
       r = inl (ReplyError AttributeError)).
Proof.
  intros r render. subst r. unfold save, saved_message. fold render.
  assert (Hsend : ∀ m,
    let r := match render m with
             | inl e => inl e
             | inr sent =>
                 if can_dm then inr [AuthorSend sent]
                 else inr [CtxSend (lit "I can't DM you, so you can't save that message.")]
             end in
    (∀ e, r = inl e ↔ render m = inl e)
    ∧ (∀ replies, r = inr replies → length replies = 1%nat)
    ∧ (∀ replies sent, r = inr replies → AuthorSend sent ∈ replies →
         can_dm = true ∧ render m = inr sent)).
  { intros m. cbv zeta. destruct (render m) as [e|sent]; [|destruct can_dm];
      (split_and!; [naive_solver|naive_solver|]).
    - naive_solver.
    - intros ? ? [= <-] Hin. apply list_elem_of_singleton in Hin.
      by injection Hin as ->.
    - intros ? ? [= <-] Hin. by apply list_elem_of_singleton in Hin. }
  assert (Hlost : ∀ m ref,
    forallb download (ma_attachments (attributes_of m)) = true →
    ma_reference (attributes_of m) = Some ref →
    resolved ref = Unresolved →
    fetch_message bot (ma_guild_id (attributes_of m))
      (ma_channel_id (attributes_of m)) (ref_message_id ref) = None →
    render m = inl (ReplyError AttributeError)).
  { intros m ref Hd Hr Hu Hf. unfold render, embed_message_whole.
    rewrite Hd. cbn [negb]. unfold reply_fields. by rewrite Hr, Hu, Hf. }
  cbv zeta in Hsend. unfold render in *. clear render. cbv beta zeta.
  destruct (orig_message w (dm_id message)) as [o|].
  2:{ destruct (Hsend message) as (H1 & H2 & H3). split_and!.
      - intros e. rewrite H1. split; [intros ?; by exists message|].
        by intros (m & [= <-] & ?).
      - done.
      - intros replies sent Hr Hin. destruct (H3 _ _ Hr Hin) as [? ?].
        split_and!; [done|done|by exists message].
      - intros m ref [= <-] Hd Hr Hu Hf.
        rewrite (Hlost message ref) by done. done. }
  destruct (trashed o) eqn:Ht.
  { split_and!.
    - intros e. split; [done|]. by intros (m & ? & _).
    - by intros ? [= <-].
    - intros ? ? [= <-] Hin. by apply list_elem_of_singleton in Hin.
    - by intros. }
  destruct (fetch_message bot (m_guild_id o) (m_channel_id o) (m_id o))
    as [m|] eqn:Hf.
  2:{ split_and!.
      - intros e. split; [done|]. by intros (m & ? & _).
      - by intros ? [= <-].
      - intros ? ? [= <-] Hin. by apply list_elem_of_singleton in Hin.
      - by intros. }
  destruct (Hsend m) as (H1 & H2 & H3). split_and!.
  - intros e. rewrite H1. split; [intros ?; by exists m|].
    by intros (m' & [= <-] & ?).
  - done.
  - intros replies sent Hr Hin. destruct (H3 _ _ Hr Hin) as [? ?].
    split_and!; [done|by intros ? [= <-]|by exists m].
  - intros m' ref [= <-] Hd Hr Hu Hf'.
    rewrite (Hlost m ref) by done. done.
Qed.
